(** * FreqDemod: phase demodulation of a sampled oscillating signal

    A shallow embedding of [freqdemod/freqdemod.py] and
    [freqdemod/demodulate.py], and the properties of the pipeline stages.

    Conventions of the embedding.

    - The sources are Python 2 (they use the [print] statement), so [/] on
      two integers is floor division and [round] rounds half away from zero.
    - numpy's double-precision numbers are idealised as real numbers, and
      [math.log(n, 2)] as the exact binary logarithm.  The one place where
      IEEE arithmetic differs in kind rather than by rounding is division
      by zero, which numpy evaluates to [inf] or [nan] (with a warning,
      without an exception).  The two divisions whose divisor is computed
      from the data (the slope in [fit], the centroid in [freq_filter_bp])
      are written with [np_divide], which makes that outcome explicit; the
      divisions by the time step [dt] and by the bandwidth [bw] are those of
      the reals and stand for the code only when the divisor is not zero.
    - Python exceptions are values of [exn].  A method of the HDF5-backed
      [Signal] class is a state transformer that returns either a value or
      the exception that was raised, together with the file it leaves behind.
    - The lines of the report are kept as structured records rather than
      as formatted text; elapsed times are left out. *)

From Stdlib Require Import Reals Lra Lia ZArith Ascii.
From stdpp Require Import base list strings gmap.

Local Open Scope R_scope.

(** ** Numbers *)

(** [math.ceil] and Python 2's [round], each followed by [int]. *)
Definition py_ceil (x : R) : Z := (- Int_part (- x))%Z.

Definition py_round (x : R) : Z :=
  if Rle_dec 0 x then Int_part (x + / 2) else (- Int_part (- x + / 2))%Z.

(** A numpy float: a real number, or one of the non-finite values. *)
Inductive npfloat : Type :=
  | Finite (r : R)
  | Infinite
  | NaN.

(** numpy's true division of floats: no exception on a zero divisor. *)
Definition np_divide (a b : R) : npfloat :=
  if Req_dec_T b 0 then (if Req_dec_T a 0 then NaN else Infinite)
  else Finite (a / b).

Definition Rsum (l : list R) : R := foldr Rplus 0 l.

(** Complex numbers as pairs of reals. *)
Definition C : Type := (R * R)%type.

Definition RtoC (x : R) : C := (x, 0).

Definition Cadd (a b : C) : C := (a.1 + b.1, a.2 + b.2).

Definition Cmul (a b : C) : C :=
  (a.1 * b.1 - a.2 * b.2, a.1 * b.2 + a.2 * b.1).

Definition Cscal (r : R) (a : C) : C := (r * a.1, r * a.2).

Definition Cabs (a : C) : R := sqrt (a.1 * a.1 + a.2 * a.2).

Definition cis (x : R) : C := (cos x, sin x).

Definition C0 : C := (0, 0).

Definition C1 : C := (1, 0).

Definition Copp (a : C) : C := (- a.1, - a.2).

Definition Csub (a b : C) : C := Cadd a (Copp b).

Definition Csum (l : list C) : C := foldr Cadd C0 l.

(** ** Exceptions *)

Inductive exn : Type :=
  | ZeroDivisionError
  | ValueError
  | UnboundLocalError
  | KeyError
  | IndexError
  | OverflowError
  | TypeError
  | RuntimeError.

Inductive result (A : Type) : Type :=
  | Ok (a : A)
  | Raised (e : exn).
Arguments Ok {A} a.
Arguments Raised {A} e.

(** ** The numpy and scipy functions the stages call *)

(** Python slices [a[:stop]] and [a[start:]] with a possibly negative
    bound. *)
Definition slice_to {A} (stop : Z) (a : list A) : list A :=
  if bool_decide (stop < 0)%Z
  then take (Z.to_nat (Z.of_nat (length a) + stop)) a
  else take (Z.to_nat stop) a.

Definition slice_from {A} (start : Z) (a : list A) : list A :=
  if bool_decide (start < 0)%Z
  then drop (Z.to_nat (Z.of_nat (length a) + start)) a
  else drop (Z.to_nat start) a.

(** [np.ones(k)]. *)
Definition np_ones (k : Z) : result (list R) :=
  if bool_decide (k < 0)%Z then Raised ValueError
  else Ok (replicate (Z.to_nat k) 1).

(** [a[m]] for a boolean array [m]. *)
Definition mask_index {A} (m : list bool) (a : list A) : result (list A) :=
  if bool_decide (length m = length a)
  then Ok ((filter (fun p => p.1 = true) (zip m a)).*2)
  else Raised IndexError.

(** [a[idx]] for a list of integer indices. *)
Definition take_indices {A} (idx : list Z) (a : list A) : result (list A) :=
  let n := Z.of_nat (length a) in
  if forallb (fun i => bool_decide (- n <= i < n)%Z) idx
  then Ok (omap (fun i => a !! Z.to_nat (i `mod` n)) idx)
  else Raised IndexError.

(** Elementwise product with numpy's broadcasting of one-element arrays. *)
Definition np_multiply {A B D} (f : A -> B -> D) (a : list A) (b : list B)
  : result (list D) :=
  if bool_decide (length a = length b) then Ok (zip_with f a b) else
  match a, b with
  | [x], _ => Ok (f x <$> b)
  | _, [y] => Ok ((fun x => f x y) <$> a)
  | _, _ => Raised ValueError
  end.

(** [np.argmax]: the first index of the largest element. *)
Fixpoint argmax_from (best_i : nat) (best : R) (i : nat) (a : list R) : nat :=
  match a with
  | [] => best_i
  | x :: a' =>
    if Rlt_dec best x then argmax_from i x (S i) a'
    else argmax_from best_i best (S i) a'
  end.

Definition np_argmax (a : list R) : result nat :=
  match a with
  | [] => Raised ValueError
  | x :: a' => Ok (argmax_from 0 x 1 a')
  end.

(** [np.fft.fftshift]: the zero-frequency term moves to the centre. *)
Definition fftshift {A} (x : list A) : list A :=
  let p2 := (length x - length x / 2)%nat in
  drop p2 x ++ take p2 x.

(** [np.fft.fftfreq(n, d)]. *)
Definition fftfreq (n : nat) (d : R) : list R :=
  let val := 1.0 / (INR n * d) in
  let N := ((Z.of_nat n - 1) `div` 2 + 1)%Z in
  let n_half := (Z.of_nat n `div` 2)%Z in
  (fun k => IZR k * val) <$> (seqZ 0 N ++ seqZ (- n_half) n_half).

(** The discrete Fourier transform, [sign = -1] forward and [sign = 1]
    backward, without normalisation. *)
Definition dft (sign : R) (x : list C) : list C :=
  let n := length x in
  (fun k =>
     Csum (imap (fun j xj =>
                   Cmul xj (cis (sign * (2 * PI * INR j * INR k / INR n)))) x))
  <$> seq 0 n.

(** [np.fft.fft] and [np.fft.ifft]. *)
Definition np_fft (x : list C) : result (list C) :=
  match x with
  | [] => Raised ValueError
  | _ => Ok (dft (-1) x)
  end.

Definition np_ifft (x : list C) : result (list C) :=
  match x with
  | [] => Raised ValueError
  | _ => Ok (Cscal (1 / INR (length x)) <$> dft 1 x)
  end.

(** [scipy.blackman(M)], the taper of the cyclicizing window. *)
Definition blackman (M : Z) : list R :=
  if bool_decide (M < 1)%Z then []
  else if bool_decide (M = 1)%Z then [1]
  else (fun n => 0.42 - 0.5 * cos (2.0 * PI * IZR n / (IZR M - 1))
                 + 0.08 * cos (4.0 * PI * IZR n / (IZR M - 1)))
       <$> seqZ 0 M.

(** [np.angle]: the argument of a complex number, in (-pi, pi]. *)
Definition np_angle (z : C) : R :=
  let '(x, y) := z in
  if Rlt_dec 0 x then atan (y / x)
  else if Rlt_dec x 0 then
    (if Rle_dec 0 y then atan (y / x) + PI else atan (y / x) - PI)
  else if Rlt_dec 0 y then PI / 2
  else if Rlt_dec y 0 then - PI / 2
  else 0.

(** [np.mod] on floats and [np.unwrap] with the default discontinuity. *)
Definition np_mod (x y : R) : R := x - IZR (Int_part (x / y)) * y.

Definition ph_correct (dd : R) : R :=
  let ddmod := np_mod (dd + PI) (2 * PI) - PI in
  let ddmod :=
    if Req_dec_T ddmod (- PI) then (if Rlt_dec 0 dd then PI else ddmod)
    else ddmod in
  if Rlt_dec (Rabs dd) PI then 0 else ddmod - dd.

Fixpoint unwrap_from (prev acc : R) (p : list R) : list R :=
  match p with
  | [] => []
  | x :: p' =>
    let acc' := acc + ph_correct (x - prev) in
    (x + acc') :: unwrap_from x acc' p'
  end.

Definition np_unwrap (p : list R) : list R :=
  match p with
  | [] => []
  | x :: p' => x :: unwrap_from x 0 p'
  end.

(** [int(math.pow(2, int(math.floor(math.log(n, 2)))))]; [math.log] raises
    on zero. *)
Definition nearest_power_of_2 (n : Z) : result Z :=
  if bool_decide (n <= 0)%Z then Raised ValueError
  else Ok (2 ^ Z.log2 n)%Z.

(** [int(math.ceil((1.0*t)/(1.0*dt)))] where [dt] is a numpy float: a zero
    [dt] gives [inf] or [nan], which [math.ceil] refuses. *)
Definition ceil_ratio (t dt : R) : result Z :=
  if Req_dec_T dt 0
  then (if Req_dec_T t 0 then Raised ValueError else Raised OverflowError)
  else Ok (py_ceil (1.0 * t / (1.0 * dt))).

(** [np.min] and [np.max]: no value for an empty array. *)
Definition np_min (a : list R) : result R :=
  match a with
  | [] => Raised ValueError
  | x :: a' => Ok (foldl Rmin x a')
  end.

Definition np_max (a : list R) : result R :=
  match a with
  | [] => Raised ValueError
  | x :: a' => Ok (foldl Rmax x a')
  end.

(** [np.mean]: the mean of an empty array is [nan]; and [np.sqrt]. *)
Definition np_mean (a : list R) : npfloat :=
  np_divide (Rsum a) (INR (length a)).

Definition np_sqrt (x : npfloat) : npfloat :=
  match x with
  | Finite r => Finite (sqrt r)
  | Infinite => Infinite
  | NaN => NaN
  end.

(** ** [util.py]: engineering notation *)

Module Util.

(** [math.log10]. *)
Definition log10 (x : R) : R := ln x / ln 10.

(** [powerise10]: [x] as [a * 10 ^ b]. *)
Definition powerise10 (x : R) : R * Z :=
  if Req_dec_T x 0 then (0, 0%Z) else
  let Neg := if Rlt_dec x 0 then true else false in
  let x := if Neg then - x else x in
  let a := 1.0 * x / powerRZ 10 (Int_part (log10 x)) in
  let b := Int_part (log10 x) in
  let a := if Neg then - a else a in
  (a, b).

(** The text that [eng] returns, kept as the numbers that are formatted:
    ["%.4g" % x], or ["%.4gE%s" % (a, b)]. *)
Inductive eng_text : Type :=
  | Plain (x : R)
  | Engineering (a : R) (b : Z).

(** [eng]. *)
Definition eng (x : R) : eng_text :=
  let '(a, b) := powerise10 x in
  if bool_decide (-3 < b < 3)%Z then Plain x
  else
    let a := a * IZR (10 ^ (b `mod` 3)) in
    let b := (b - b `mod` 3)%Z in
    Engineering a b.

(** [eng] on a numpy float: for [nan] and [inf] the conversion of the
    exponent to an integer raises. *)
Definition eng_np (x : npfloat) : result eng_text :=
  match x with
  | Finite r => Ok (eng r)
  | Infinite => Raised OverflowError
  | NaN => Raised ValueError
  end.

End Util.

(** ** [freqdemod.py]: the dictionary-backed [Signal] *)

Module Freqdemod.

Record Signal : Type := {
  s : list R;
  s_name : string;
  s_unit : string;
  dt : R;
  s_original : list R
}.

(** [Signal.__init__]. *)
Definition init (s0 : list R) (name unit : string) (dt0 : R) : Signal :=
  {| s := s0; s_name := name; s_unit := unit; dt := dt0; s_original := [] |}.

(** The list of indices that [binarate] builds for a mode, if any branch
    assigns it. *)
Definition array_indices (mode : string) (n n2 : Z) : option (list Z) :=
  if decide (mode = "middle") then
    let n_start := ((n - n2) `div` 2)%Z in
    let n_stop := (n_start + n2)%Z in
    Some (seqZ n_start (n_stop - n_start))
  else if decide (mode = "start") then Some (seqZ 0 (n2 - 0))
  else if decide (mode = "end") then Some (seqZ (n - n2) (n - (n - n2)))
  else None.

(** [Signal.binarate]: the copy into [s_original] comes first, so it
    survives an exception raised later. *)
Definition binarate (mode : string) (sig : Signal) : result unit * Signal :=
  let sig1 :=
    {| s := s sig; s_name := s_name sig; s_unit := s_unit sig; dt := dt sig;
       s_original := s sig |} in
  let n := Z.of_nat (length (s sig1)) in
  match nearest_power_of_2 n with
  | Raised e => (Raised e, sig1)
  | Ok n2 =>
    match array_indices mode n n2 with
    | None => (Raised UnboundLocalError, sig1)
    | Some idx =>
      match take_indices idx (s sig1) with
      | Raised e => (Raised e, sig1)
      | Ok s' =>
        (Ok tt,
         {| s := s'; s_name := s_name sig1; s_unit := s_unit sig1;
            dt := dt sig1; s_original := s_original sig1 |})
      end
    end
  end.

(** The text of [Signal.__repr__], kept as the values that are formatted,
    line by line. *)
Record repr_text : Type := {
  repr_signal_name : string;
  repr_signal_unit : string;
  repr_signal_length : nat;
  repr_time_step_us : R;
  repr_rms : Util.eng_text;
  repr_max : Util.eng_text;
  repr_min : Util.eng_text
}.

(** [Signal.__repr__]: the three statistics are computed first, and the
    lines are formatted afterwards. *)
Definition repr (sig : Signal) : result repr_text :=
  let s_rms := np_sqrt (np_mean ((fun v => v ^ 2) <$> s sig)) in
  match np_min (s sig) with
  | Raised e => Raised e
  | Ok s_min =>
    match np_max (s sig) with
    | Raised e => Raised e
    | Ok s_max =>
      match Util.eng_np s_rms with
      | Raised e => Raised e
      | Ok rms_text =>
        Ok {| repr_signal_name := s_name sig;
              repr_signal_unit := s_unit sig;
              repr_signal_length := length (s sig);
              repr_time_step_us := dt sig * 1E6;
              repr_rms := rms_text;
              repr_max := Util.eng s_max;
              repr_min := Util.eng s_min |}
      end
    end
  end.

End Freqdemod.

(** ** [demodulate.py]: the HDF5-backed [Signal] *)

Module Demodulate.

(** *** The file: named datasets with attributes, and the report *)

Inductive ndarray : Type :=
  | BoolArr (a : list bool)
  | FloatArr (a : list R)
  | ComplexArr (a : list C).

Definition size (a : ndarray) : nat :=
  match a with
  | BoolArr l => length l
  | FloatArr l => length l
  | ComplexArr l => length l
  end.

Inductive attr : Type :=
  | AStr (v : string)
  | AFloat (v : R)
  | AInt (v : Z).

Record dataset : Type := {
  data : ndarray;
  attrs : gmap string attr
}.

Inductive report_line : Type :=
  | RepCreated (filename : string)
  | RepLoad (s_name s_unit : string) (n : nat) (dt : R)
  | RepMaskBinarate (n2 n_start n_stop : Z)
  | RepWindow (tw_actual : R) (ww : Z)
  | RepFft
  | RepHilbert
  | RepBandpass (fc bw : R) (order : Z) (fc_improved : npfloat)
  | RepRippleless (td_actual : R)
  | RepIfft.

Record Signal : Type := {
  f : gmap string dataset;
  report : list report_line
}.

(** Computations on the file that may raise. *)
Definition M (A : Type) : Type := Signal -> result A * Signal.

Definition ret {A} (a : A) : M A := fun st => (Ok a, st).

Definition raise {A} (e : exn) : M A := fun st => (Raised e, st).

Definition lift {A} (r : result A) : M A := fun st => (r, st).

Definition bind {A B} (m : M A) (k : A -> M B) : M B :=
  fun st =>
    match m st with
    | (Ok a, st') => k a st'
    | (Raised e, st') => (Raised e, st')
    end.

Notation "'let*' x ':=' m 'in' k" := (bind m (fun x => k))
  (at level 10, x pattern, m at level 100, k at level 200).

(** HDF5 paths are absolute from the root: a leading slash is optional. *)
Definition path (name : string) : string :=
  match name with
  | String "/"%char rest => rest
  | _ => name
  end.

(** [self.f.__contains__(name)]. *)
Definition contains (name : string) : M bool :=
  fun st => (Ok (bool_decide (is_Some (f st !! path name))), st).

(** [self.f[name]]. *)
Definition get (name : string) : M dataset :=
  fun st =>
    match f st !! path name with
    | Some d => (Ok d, st)
    | None => (Raised KeyError, st)
    end.

(** [self.f.create_dataset(name, data=a)]: h5py refuses a name that is
    already in the file. *)
Definition create_dataset (name : string) (a : ndarray) : M unit :=
  fun st =>
    match f st !! path name with
    | Some _ => (Raised RuntimeError, st)
    | None =>
      (Ok tt, {| f := <[path name := {| data := a; attrs := ∅ |}]> (f st);
                 report := report st |})
    end.

(** Modelled from the spec: [update_attrs] of [freqdemod/hdf5.py], which is
    not among the sources.  Each artifact is written as a named entry with
    its attributes (name, unit, label, help, abscissa): every pair of the
    ordered dictionary is stored on the entry. *)
Definition update_attrs (name : string) (new : list (string * attr)) : M unit :=
  fun st =>
    (Ok tt,
     {| f := alter (fun d =>
                      {| data := data d;
                         attrs := foldl (fun m kv => <[kv.1 := kv.2]> m)
                                        (attrs d) new |})
                   (path name) (f st);
        report := report st |}).

(** [self.report.append(...)]. *)
Definition append_report (r : report_line) : M unit :=
  fun st => (Ok tt, {| f := f st; report := report st ++ [r] |}).

(** Reading a dataset or an attribute back at the type it was written
    with. *)
Definition bool_data (d : dataset) : M (list bool) :=
  match data d with BoolArr a => ret a | _ => raise TypeError end.

Definition float_data (d : dataset) : M (list R) :=
  match data d with FloatArr a => ret a | _ => raise TypeError end.

Definition complex_data (d : dataset) : M (list C) :=
  match data d with ComplexArr a => ret a | _ => raise TypeError end.

Definition float_attr (d : dataset) (key : string) : M R :=
  match attrs d !! key with
  | Some (AFloat v) => ret v
  | Some _ => raise TypeError
  | None => raise KeyError
  end.

Definition str_attr (d : dataset) (key : string) : M string :=
  match attrs d !! key with
  | Some (AStr v) => ret v
  | Some _ => raise TypeError
  | None => raise KeyError
  end.

(** [a[i]] for a non-negative index. *)
Definition index {A} (a : list A) (i : nat) : M A :=
  match a !! i with
  | Some v => ret v
  | None => raise IndexError
  end.

Definition Rltb (x y : R) : bool := if Rlt_dec x y then true else false.

Definition Reqb (x y : R) : bool := if Req_dec_T x y then true else false.

Definition b2r (b : bool) : R := if b then 1 else 0.

(** *** Ingestion *)

(** [Signal.__init__] with a file name. *)
Definition init (filename : string) : Signal :=
  {| f := ∅; report := [RepCreated filename] |}.

(** The attributes that [load_nparray] gives to the time axis and to the
    signal. *)
Definition x_attrs (dt : R) : list (string * attr) :=
  [("name", AStr "t"); ("unit", AStr "s"); ("label", AStr "t [s]");
   ("label_latex", AStr "$t \: [\mathrm{s}]$");
   ("help", AStr "time"); ("initial", AFloat 0.0); ("step", AFloat dt)].

Definition y_attrs (s_name s_unit : string) : list (string * attr) :=
  [("name", AStr s_name); ("unit", AStr s_unit);
   ("label", AStr (s_name +:+ " [" +:+ s_unit +:+ "]"));
   ("label_latex",
    AStr ("$" +:+ s_name +:+ " \: [\mathrm{" +:+ s_unit +:+ "}]$"));
   ("help", AStr "cantilever displacement");
   ("abscissa", AStr "x"); ("n_avg", AInt 1)].

(** [Signal.load_nparray]. *)
Definition load_nparray (s : list R) (s_name s_unit : string) (dt : R)
  : M unit :=
  let* _ := create_dataset "x"
              (FloatArr ((fun k => dt * INR k) <$> seq 0 (length s))) in
  let* _ := update_attrs "x" (x_attrs dt) in
  let* _ := create_dataset "y" (FloatArr s) in
  let* _ := update_attrs "y" (y_attrs s_name s_unit) in
  append_report (RepLoad s_name s_unit (length s) dt).

(** A dataset as it stands once its attributes have been written. *)
Definition stored (a : ndarray) (new : list (string * attr)) : dataset :=
  {| data := a;
     attrs := foldl (fun m kv => <[kv.1 := kv.2]> m) ∅ new |}.

(** A signal [s] with time step [dt], ingested into a new file as the test
    driver of the module does. *)
Definition ingest (s : list R) (dt : R) : Signal :=
  (load_nparray s "x" "nm" dt (init "temp.h5")).2.

(** *** The stages *)

(** The attributes of the artifacts. *)
Definition binarate_attrs : list (string * attr) :=
  [("name", AStr "mask"); ("unit", AStr "unitless");
   ("label", AStr "masking function");
   ("label_latex", AStr "masking function");
   ("help", AStr "mask to make data a power of two in length");
   ("abscissa", AStr "x")].

Definition masked_time_attrs (x0 x1 : R) : list (string * attr) :=
  [("name", AStr "t_masked"); ("unit", AStr "s"); ("label", AStr "t [s]");
   ("label_latex", AStr "$t \: [\mathrm{s}]$");
   ("help", AStr "time"); ("initial", AFloat x0);
   ("step", AFloat (x1 - x0))].

Definition window_attrs (abscissa : string) (tw tw_actual : R)
  : list (string * attr) :=
  [("name", AStr "window"); ("unit", AStr "unitless");
   ("label", AStr "windowing function");
   ("label_latex", AStr "windowing function");
   ("help", AStr "window to force the data to start and end at zero");
   ("abscissa", AStr abscissa); ("t_window", AFloat tw);
   ("t_window_actual", AFloat tw_actual)].

Definition freq_attrs (f0 f1 : R) : list (string * attr) :=
  [("name", AStr "f"); ("unit", AStr "kHz"); ("label", AStr "f [kHz]");
   ("label_latex", AStr "$f \: [\mathrm{kHz}]$");
   ("help", AStr "frequency"); ("initial", AFloat f0);
   ("step", AFloat (f1 - f0))].

Definition FT_attrs (name_orig unit_orig : string) : list (string * attr) :=
  [("name", AStr ("FT(" +:+ name_orig +:+ ")"));
   ("unit", AStr (unit_orig +:+ "/Hz"));
   ("label", AStr ("FT(" +:+ name_orig +:+ ") [" +:+ unit_orig +:+ "/Hz]"));
   ("label_latex",
    AStr ("$\hat{" +:+ name_orig +:+ "} \: [\mathrm{" +:+ unit_orig
          +:+ "/Hz}]$"));
   ("help", AStr ("Fourier transform of " +:+ name_orig +:+ "(t)"));
   ("abscissa", AStr "workup/freq/freq"); ("n_avg", AInt 1)].

Definition Hc_attrs : list (string * attr) :=
  [("name", AStr "Hc"); ("unit", AStr "unitless"); ("label", AStr "Hc(f)");
   ("label_latex", AStr "$H_c(f)$");
   ("help", AStr "complex Hilbert transform filter");
   ("abscissa", AStr "workup/freq/freq")].

Definition bp_attrs : list (string * attr) :=
  [("name", AStr "bp"); ("unit", AStr "unitless"); ("label", AStr "bp(f)");
   ("label_latex", AStr "$\mathrm{bp}(f)$");
   ("help", AStr "bandpass filter");
   ("abscissa", AStr "workup/freq/freq")].

Definition rippleless_attrs (abscissa : string) : list (string * attr) :=
  [("name", AStr "mask"); ("unit", AStr "unitless");
   ("label", AStr "masking function");
   ("label_latex", AStr "masking function");
   ("help", AStr "mask to remove leading and trailing ripple");
   ("abscissa", AStr abscissa)].

Definition z_attrs (unit_y abscissa : string) : list (string * attr) :=
  [("name", AStr "z"); ("unit", AStr unit_y);
   ("label", AStr ("z [" +:+ unit_y +:+ "]"));
   ("label_latex", AStr ("$z \: [\mathrm{" +:+ unit_y +:+ "}]$"));
   ("help", AStr "complex cantilever displacement");
   ("abscissa", AStr abscissa)].

Definition p_attrs (abscissa : string) : list (string * attr) :=
  [("name", AStr "phase"); ("unit", AStr "cyc/s");
   ("label", AStr "phase [cyc/s]");
   ("label_latex", AStr "$\phi \: [\mathrm{cyc/s}]$");
   ("help", AStr "cantilever phase"); ("abscissa", AStr abscissa)].

Definition a_attrs (unit_y abscissa : string) : list (string * attr) :=
  [("name", AStr "amplitude"); ("unit", AStr unit_y);
   ("label", AStr ("a [" +:+ unit_y +:+ "]"));
   ("label_latex", AStr ("$a \: [\mathrm{" +:+ unit_y +:+ "}]$"));
   ("help", AStr "cantilever amplitude"); ("abscissa", AStr abscissa)].

(** The bounds that [time_mask_binarate] assigns for a mode, if any branch
    does; [(n - n2)/2] is a division of integers, which [math.floor] leaves
    as it is. *)
Definition binarate_bounds (mode : string) (n n2 : Z) : option (Z * Z) :=
  if decide (mode = "middle") then
    let n_start := ((n - n2) `div` 2)%Z in
    let n_stop := (n_start + n2)%Z in
    Some (n_start, n_stop)
  else if decide (mode = "start") then Some (0%Z, n2)
  else if decide (mode = "end") then Some ((n - n2)%Z, n)
  else None.

(** [(indices >= lo) & (indices < hi)] over [np.arange(n)]. *)
Definition range_mask (n : nat) (lo hi : Z) : list bool :=
  (fun i => bool_decide (lo <= Z.of_nat i)%Z && bool_decide (Z.of_nat i < hi)%Z)
  <$> seq 0 n.

(** [Signal.time_mask_binarate]. *)
Definition time_mask_binarate (mode : string) : M unit :=
  let* y := get "y" in
  let n := size (data y) in
  let* n2 := lift (nearest_power_of_2 (Z.of_nat n)) in
  let* bounds :=
    match binarate_bounds mode (Z.of_nat n) n2 with
    | Some b => ret b
    | None => raise UnboundLocalError
    end in
  let mask := range_mask n bounds.1 bounds.2 in
  let* _ := create_dataset "workup/time/mask/binarate" (BoolArr mask) in
  let* _ := update_attrs "workup/time/mask/binarate" binarate_attrs in
  append_report (RepMaskBinarate n2 bounds.1 bounds.2).

(** The window itself: the rising half of a Blackman taper, ones, the
    falling half. *)
Definition cyclicize_window (n ww : Z) : result (list R) :=
  match np_ones (n - 2 * ww) with
  | Raised e => Raised e
  | Ok ones =>
    Ok (slice_to ww (slice_from 0 (blackman (2 * ww))) ++ ones
        ++ slice_from (- ww) (blackman (2 * ww)))
  end.

(** The length that the window must have and its abscissa: those of the
    masked signal if the binarate mask is defined (the masked time axis is
    stored on the way), those of the full signal otherwise. *)
Definition window_target : M (nat * string) :=
  let* has_mask := contains "workup/time/mask/binarate" in
  if has_mask then
    let* md := get "workup/time/mask/binarate" in
    let* m := bool_data md in
    let n := length (filter (fun b => b = true) m) in
    let* xd := get "x" in
    let* x := float_data xd in
    let* x_binarated := lift (mask_index m x) in
    let* _ := create_dataset "workup/x_binarated" (FloatArr x_binarated) in
    let* x0 := index x_binarated 0 in
    let* x1 := index x_binarated 1 in
    let* _ := update_attrs "workup/x_binarated" (masked_time_attrs x0 x1) in
    ret (n, "workup/x_binarated")
  else
    let* y := get "y" in
    ret (size (data y), "x").

(** [Signal.time_window_cyclicize]. *)
Definition time_window_cyclicize (tw : R) : M unit :=
  let* n_abscissa := window_target in
  let* xd := get "x" in
  let* dt := float_attr xd "step" in
  let* ww := lift (ceil_ratio tw dt) in
  let tw_actual := IZR ww * dt in
  let* w := lift (cyclicize_window (Z.of_nat n_abscissa.1) ww) in
  let* _ := create_dataset "workup/time/window/cyclicize" (FloatArr w) in
  let* _ := update_attrs "workup/time/window/cyclicize"
              (window_attrs n_abscissa.2 tw tw_actual) in
  append_report (RepWindow tw_actual ww).

(** The signal that is transformed: masked if the binarate mask is
    defined, then windowed if the cyclicizing window is defined. *)
Definition windowed_signal : M (list R) :=
  let* yd := get "y" in
  let* s := float_data yd in
  let* has_mask := contains "workup/time/mask/binarate" in
  let* s :=
    if has_mask then
      let* md := get "workup/time/mask/binarate" in
      let* m := bool_data md in
      lift (mask_index m s)
    else ret s in
  let* has_window := contains "workup/time/window/cyclicize" in
  if has_window then
    let* wd := get "workup/time/window/cyclicize" in
    let* w := float_data wd in
    lift (np_multiply Rmult w s)
  else ret s.

(** [Signal.fft]. *)
Definition fft : M unit :=
  let* s := windowed_signal in
  let* xd := get "x" in
  let* dt := float_attr xd "step" in
  let freq := fftshift (fftfreq (length s) dt) in
  let* ft := lift (np_fft (RtoC <$> s)) in
  let sFT := Cscal dt <$> fftshift ft in
  let* _ := create_dataset "workup/freq/freq"
              (FloatArr ((fun v => v / 1000) <$> freq)) in
  let* f0 := index freq 0 in
  let* f1 := index freq 1 in
  let* _ := update_attrs "workup/freq/freq" (freq_attrs f0 f1) in
  let* _ := create_dataset "workup/freq/FT" (ComplexArr sFT) in
  let* yd := get "y" in
  let* name_orig := str_attr yd "name" in
  let* unit_orig := str_attr yd "unit" in
  let* _ := update_attrs "workup/freq/FT" (FT_attrs name_orig unit_orig) in
  append_report RepFft.

(** The value of the complex Hilbert transform filter at a frequency:
    [0.0*(freq < 0) + 1.0*(freq == 0) + 2.0*(freq > 0)]. *)
Definition Hc_value (v : R) : R :=
  0.0 * b2r (Rltb v 0) + 1.0 * b2r (Reqb v 0) + 2.0 * b2r (Rltb 0 v).

(** [Signal.freq_filter_Hilbert_complex]. *)
Definition freq_filter_Hilbert_complex : M unit :=
  let* fd := get "workup/freq/freq" in
  let* freq := float_data fd in
  let filt := Hc_value <$> freq in
  let* _ := create_dataset "workup/freq/filter/Hc" (FloatArr filt) in
  let* _ := update_attrs "workup/freq/filter/Hc" Hc_attrs in
  append_report RepHilbert.

(** The value of the bandpass filter at a scaled frequency:
    [1.0/(1.0 + np.power(abs(freq_scaled), order))].  A negative order at
    zero gives [inf] for the power and so zero for the filter. *)
Definition bp_value (order : Z) (freq_scaled : R) : R :=
  if bool_decide (order < 0)%Z && Reqb (Rabs freq_scaled) 0 then 0
  else 1.0 / (1.0 + powerRZ (Rabs freq_scaled) order).

(** The bandpass filter over a frequency axis, centred on [fc]. *)
Definition bp_filter (bw : R) (order : Z) (fc : R) (freq : list R) : list R :=
  let freq_scaled := (fun v => (v - fc) / bw) <$> freq in
  bp_value order <$> freq_scaled.

(** [Signal.freq_filter_bp]. *)
Definition freq_filter_bp (bw : R) (order : Z) : M unit :=
  let* fd := get "workup/freq/freq" in
  let* freq := float_data fd in
  let* hd := get "workup/freq/filter/Hc" in
  let* Hc := float_data hd in
  let* ftd := get "workup/freq/FT" in
  let* FT := complex_data ftd in
  let* FTrh := lift (np_multiply Rmult Hc (Cabs <$> FT)) in
  let* i := lift (np_argmax FTrh) in
  let* fc := index freq i in
  let bp := bp_filter bw order fc freq in
  let* _ := create_dataset "workup/freq/filter/bp" (FloatArr bp) in
  let* _ := update_attrs "workup/freq/filter/bp" bp_attrs in
  let* Hc_bp := lift (np_multiply Rmult Hc bp) in
  let* ftd := get "workup/freq/FT" in
  let* FT := complex_data ftd in
  let* FT_filt := lift (np_multiply Rmult Hc_bp (Cabs <$> FT)) in
  let* weighted := lift (np_multiply Rmult freq FT_filt) in
  let fc_improved := np_divide (Rsum weighted) (Rsum FT_filt) in
  append_report (RepBandpass fc bw order fc_improved).

(** [Signal.time_mask_rippleless]. *)
Definition time_mask_rippleless (td : R) : M unit :=
  let* xd := get "x" in
  let* dt := float_attr xd "step" in
  let* ww := lift (ceil_ratio td dt) in
  let td_actual := IZR ww * dt in
  let* has_mask := contains "workup/time/mask/binarate" in
  let* x_abscissa :=
    if has_mask then
      let* xb := get "/workup/x_binarated" in
      let* x := float_data xb in
      ret (x, "/workup/x_binarated")
    else
      let* xd := get "x" in
      let* x := float_data xd in
      ret (x, "x") in
  let x := x_abscissa.1 in
  let n := length x in
  let mask := range_mask n ww (Z.of_nat n - ww) in
  let* x_rippleless := lift (mask_index mask x) in
  let* _ := create_dataset "workup/time/mask/rippleless" (BoolArr mask) in
  let* _ := update_attrs "workup/time/mask/rippleless"
              (rippleless_attrs x_abscissa.2) in
  let* _ := create_dataset "workup/x_rippleless" (FloatArr x_rippleless) in
  let* x0 := index x_rippleless 0 in
  let* x1 := index x_rippleless 1 in
  let* _ := update_attrs "workup/x_rippleless" (masked_time_attrs x0 x1) in
  append_report (RepRippleless td_actual).

(** The spectrum that is transformed back: the stored transform divided by
    the time step, times the filters that are defined. *)
Definition filtered_spectrum : M (list C) :=
  let* ftd := get "workup/freq/FT" in
  let* FT := complex_data ftd in
  let* xd := get "x" in
  let* dt := float_attr xd "step" in
  let s := (fun z => (z.1 / dt, z.2 / dt)) <$> FT in
  let* has_Hc := contains "workup/freq/filter/Hc" in
  let* s :=
    if has_Hc then
      let* hd := get "workup/freq/filter/Hc" in
      let* Hc := float_data hd in
      lift (np_multiply (fun z h => Cscal h z) s Hc)
    else ret s in
  let* has_bp := contains "workup/freq/filter/bp" in
  if has_bp then
    let* bd := get "workup/freq/filter/bp" in
    let* bp := float_data bd in
    lift (np_multiply (fun z h => Cscal h z) s bp)
  else ret s.

(** [Signal.ifft]. *)
Definition ifft : M unit :=
  let* s := filtered_spectrum in
  let* sIFT := lift (np_ifft (fftshift s)) in
  let* has_rippleless := contains "workup/time/mask/rippleless" in
  let* sIFT_abscissa :=
    if has_rippleless then
      let* md := get "workup/time/mask/rippleless" in
      let* mask := bool_data md in
      let* trimmed := lift (mask_index mask sIFT) in
      ret (trimmed, "workup/x_rippleless")
    else
      let* has_mask := contains "workup/time/mask/binarate" in
      ret (sIFT, if has_mask then "/workup/x_binarated" else "x") in
  let sIFT := sIFT_abscissa.1 in
  let abscissa := sIFT_abscissa.2 in
  let* _ := create_dataset "workup/time/z" (ComplexArr sIFT) in
  let* yd := get "y" in
  let* unit_y := str_attr yd "unit" in
  let* _ := update_attrs "workup/time/z" (z_attrs unit_y abscissa) in
  let p := (fun v => v / (2 * PI)) <$> np_unwrap (np_angle <$> sIFT) in
  let* _ := create_dataset "workup/time/p" (FloatArr p) in
  let* _ := update_attrs "workup/time/p" (p_attrs abscissa) in
  let a := Cabs <$> sIFT in
  let* _ := create_dataset "workup/time/a" (FloatArr a) in
  let* _ := update_attrs "workup/time/a" (a_attrs unit_y abscissa) in
  append_report RepIfft.

(** The stages of the pipeline, and a run of several of them on one file;
    a stage that raises leaves the file as it is at that point, and the
    caller may go on. *)
Inductive stage : Type :=
  | TimeMaskBinarate (mode : string)
  | TimeWindowCyclicize (tw : R)
  | Fft
  | FreqFilterHilbertComplex
  | FreqFilterBp (bw : R) (order : Z)
  | TimeMaskRippleless (td : R)
  | Ifft.

Definition run_stage (op : stage) : M unit :=
  match op with
  | TimeMaskBinarate mode => time_mask_binarate mode
  | TimeWindowCyclicize tw => time_window_cyclicize tw
  | Fft => fft
  | FreqFilterHilbertComplex => freq_filter_Hilbert_complex
  | FreqFilterBp bw order => freq_filter_bp bw order
  | TimeMaskRippleless td => time_mask_rippleless td
  | Ifft => ifft
  end.

Definition run_stages (ops : list stage) (st : Signal) : Signal :=
  foldl (fun st op => (run_stage op st).2) st ops.

(** A script that calls the stages one after the other, as the test driver
    [testsignal_sine] does: the first exception ends it. *)
Fixpoint run_script (ops : list stage) : M unit :=
  match ops with
  | [] => ret tt
  | op :: ops' => let* _ := run_stage op in run_script ops'
  end.

(** *** [Signal.fit]: segmented linear fit of phase against time

    The method reads the time step, the time array and the phase array from
    [self.signal], the dictionary of the dictionary-backed class, which no
    method of the HDF5-backed class fills in; the three entries are the
    arguments here, and the two entries that the method writes are the
    result.  The number of chunks is an integer division. *)

Record fit_result : Type := {
  fit_freq : list npfloat;
  fit_time : list R
}.

(** [a.reshape((rows, cols))] of a one-dimensional array. *)
Fixpoint rows_of (cols rows : nat) (l : list R) : list (list R) :=
  match rows with
  | O => []
  | S k => take cols l :: rows_of cols k (drop cols l)
  end.

Definition reshape (rows cols : Z) (l : list R) : result (list (list R)) :=
  if bool_decide (0 <= rows)%Z && bool_decide (0 <= cols)%Z
     && bool_decide (Z.of_nat (length l) = rows * cols)%Z
  then Ok (rows_of (Z.to_nat cols) (Z.to_nat rows) l)
  else Raised ValueError.

(** [a - a[:,:,np.newaxis][:,0,:]*np.ones(n)]: every row minus its first
    element. *)
Definition reset_row (row : list R) : list R :=
  (fun v => v - default 0 (head row)) <$> row.

Definition SX (dt : R) (n : Z) : R := dt * 0.50 * (IZR n - 1) * IZR n.

Definition SXX (dt : R) (n : Z) : R :=
  dt ^ 2 * (1 / 6.0) * IZR n * (IZR n - 1) * (2 * IZR n - 1).

Definition slope_of (dt : R) (n : Z) (t_row s_row : list R) : npfloat :=
  let SY := Rsum s_row in
  let SXY := Rsum (zip_with Rmult t_row s_row) in
  np_divide (IZR n * SXY - SX dt n * SY)
            (IZR n * SXX dt n - SX dt n * SX dt n).

(** [Signal.fit]. *)
Definition fit (dt : R) (t theta : list R) (dt_chunk_target : R)
  : result fit_result :=
  let n_per_chunk := py_round (dt_chunk_target / dt) in
  if bool_decide (n_per_chunk = 0)%Z then Raised ZeroDivisionError else
  let n_tot_chunk := (Z.of_nat (length theta) `div` n_per_chunk)%Z in
  let n_total := (n_per_chunk * n_tot_chunk)%Z in
  match reshape n_tot_chunk n_per_chunk (take (Z.to_nat n_total) theta) with
  | Raised e => Raised e
  | Ok s_sub =>
    let s_sub_reset := reset_row <$> s_sub in
    match reshape n_tot_chunk n_per_chunk (take (Z.to_nat n_total) t) with
    | Raised e => Raised e
    | Ok t_sub =>
      let t_sub_reset := reset_row <$> t_sub in
      Ok {| fit_freq := zip_with (slope_of dt n_per_chunk)
                                 t_sub_reset s_sub_reset;
            fit_time := (fun row => default 0 (head row)) <$> t_sub |}
    end
  end.

End Demodulate.

Import Demodulate.

(** ** Notions used in the statements *)

(** The weighted magnitude spectrum of the centroid estimate of
    [freq_filter_bp]: [Hc*bp*abs(FT)]. *)
Definition FT_filt (bw : R) (order : Z) (fc : R) (freq Hc : list R)
    (FT : list C) : list R :=
  zip_with Rmult (zip_with Rmult Hc (bp_filter bw order fc freq)) (Cabs <$> FT).

(** A computation on the file keeps the entry [d] under the name [k] when
    it leaves that entry in place whatever else it does, and whether it
    returns or raises. *)
Definition keeps (k : string) (d : dataset) {A} (m : M A) : Prop :=
  forall st : Signal, f st !! k = Some d -> f (m st).2 !! k = Some d.

(** The complex conjugate. *)
Definition Cconj (a : C) : C := (a.1, - a.2).

(** The file that [ifft] leaves when it stores the complex signal [zs], its
    phase and its amplitude, with the unit [unit_y] and the abscissa
    [abscissa]. *)
Definition ifft_stores (zs : list C) (unit_y abscissa : string) (st : Signal)
  : Signal :=
  {| f := <["workup/time/a" :=
              stored (FloatArr (Cabs <$> zs)) (a_attrs unit_y abscissa)]>
            (<["workup/time/p" :=
                 stored (FloatArr ((fun v => v / (2 * PI))
                                   <$> np_unwrap (np_angle <$> zs)))
                        (p_attrs abscissa)]>
               (<["workup/time/z" :=
                    stored (ComplexArr zs) (z_attrs unit_y abscissa)]>
                  (f st)));
     report := report st ++ [RepIfft] |}.

(** A computation is silent when it leaves the report as it is, and it
    logs on return when it adds one line to the report if it returns and
    none if it raises. *)
Definition silent {A} (m : M A) : Prop :=
  forall st : Signal, report (m st).2 = report st.

Definition logs_on_return {A} (m : M A) : Prop :=
  forall st : Signal,
    match m st with
    | (Ok _, st') => exists line, report st' = report st ++ [line]
    | (Raised _, st') => report st' = report st
    end.

(** A computation retains the name [k] when a file that has an entry under
    [k] still has one afterwards; it refuses [k] when it raises on a file
    that has an entry under [k]; it creates [k] when the file has an
    entry under [k] whenever it returns. *)
Definition retains (k : string) {A} (m : M A) : Prop :=
  forall st : Signal, is_Some (f st !! k) -> is_Some (f (m st).2 !! k).

Definition refuses (k : string) {A} (m : M A) : Prop :=
  forall st : Signal, is_Some (f st !! k) ->
    exists (e : exn) (st' : Signal), m st = (Raised e, st').

Definition creates (k : string) {A} (m : M A) : Prop :=
  forall (st : Signal) (a : A) (st' : Signal),
    m st = (Ok a, st') -> is_Some (f st' !! k).

(** The datasets that a stage creates whenever it returns. *)
Definition artifacts (op : stage) : list string :=
  match op with
  | TimeMaskBinarate _ => ["workup/time/mask/binarate"]
  | TimeWindowCyclicize _ => ["workup/time/window/cyclicize"]
  | Fft => ["workup/freq/freq"; "workup/freq/FT"]
  | FreqFilterHilbertComplex => ["workup/freq/filter/Hc"]
  | FreqFilterBp _ _ => ["workup/freq/filter/bp"]
  | TimeMaskRippleless _ => ["workup/time/mask/rippleless"; "workup/x_rippleless"]
  | Ifft => ["workup/time/z"; "workup/time/p"; "workup/time/a"]
  end.

(** ** Example inputs *)

Definition two_samples : list R := [1; 2].

Definition two_zeros : list R := [0; 0].

Definition three_samples : list R := [1; 2; 3].

Definition three_ones : list R := [1; 1; 1].

Definition five_samples : list R := [1; 2; 3; 4; 5].

(** The file after two samples, with a time step of one second, have been
    ingested and transformed. *)
Definition transformed_file : Signal :=
  run_stages [Fft] (ingest two_samples 1).

(** The file after two samples that are zero, with a time step of one
    second, have been ingested and transformed, and the sideband filter has
    been built. *)
Definition zero_spectrum_file : Signal :=
  run_stages [Fft; FreqFilterHilbertComplex] (ingest two_zeros 1).


(** The file after five samples, with a time step of one second, have been
    ingested and the binarate mask has been built. *)
Definition masked_file : Signal :=
  run_stages [TimeMaskBinarate "middle"] (ingest five_samples 1).

(** * Properties *)

(** ** Auxiliary facts on numbers and lists *)

Lemma Int_part_unique (z : Z) (x : R) :
  IZR z <= x < IZR z + 1 -> Int_part x = z.
Proof.
  intros [H1 H2]. symmetry. apply Int_part_spec. lra.
Qed.

Lemma py_round_IZR (z : Z) : py_round (IZR z) = z.
Proof.
  unfold py_round. destruct (Rle_dec 0 (IZR z)) as [H|H].
  - apply Int_part_unique. lra.
  - assert (Int_part (- IZR z + / 2) = (- z)%Z) as ->; [|lia].
    apply Int_part_unique. rewrite opp_IZR. lra.
Qed.

Lemma py_round_small : py_round (0.2 / 1) = 0%Z.
Proof.
  unfold py_round. destruct (Rle_dec 0 (0.2 / 1)) as [_|H]; [|lra].
  apply Int_part_unique. lra.
Qed.

Lemma py_round_nat (k : Z) : py_round (IZR k / 1) = k.
Proof. replace (IZR k / 1) with (IZR k) by lra. apply py_round_IZR. Qed.

Lemma py_ceil_IZR (k : Z) : py_ceil (IZR k / 1) = k.
Proof.
  unfold py_ceil. replace (- (IZR k / 1)) with (IZR (- k)) by (rewrite opp_IZR; lra).
  rewrite (Int_part_unique (- k)); [lia|lra].
Qed.

Lemma Rsum_app (l k : list R) : Rsum (l ++ k) = Rsum l + Rsum k.
Proof.
  unfold Rsum. induction l as [|x l IH]; simpl; [lra|]. rewrite IH. lra.
Qed.

Lemma Rsum_linear (c dt : R) (n : nat) :
  Rsum ((fun i => c * (dt * INR i)) <$> seq 0 n)
  = c * dt * (INR n * (INR n - 1) / 2).
Proof.
  induction n as [|n IH].
  - simpl. lra.
  - rewrite seq_S, fmap_app, Rsum_app, IH, S_INR. simpl. lra.
Qed.

Lemma Rsum_quadratic (c dt : R) (n : nat) :
  Rsum ((fun i => dt * INR i * (c * (dt * INR i))) <$> seq 0 n)
  = c * dt * dt * (INR n * (INR n - 1) * (2 * INR n - 1) / 6).
Proof.
  induction n as [|n IH].
  - simpl. lra.
  - rewrite seq_S, fmap_app, Rsum_app, IH, S_INR. simpl. lra.
Qed.

Lemma Rsum_zeros (l : list R) : Forall (fun v => v = 0) l -> Rsum l = 0.
Proof.
  unfold Rsum. induction 1 as [|x l Hx _ IH]; simpl; [done|]. rewrite Hx, IH. lra.
Qed.

Lemma zip_with_Rmult_zeros_r (a b : list R) :
  Forall (fun v => v = 0) b -> Forall (fun v => v = 0) (zip_with Rmult a b).
Proof.
  intros Hb. revert a. induction Hb as [|y b Hy _ IH]; intros [|x a]; simpl;
    try constructor; [subst; lra | apply IH].
Qed.

Lemma zip_with_fmap_same {A B C D} (f : B -> C -> D) (g : A -> B) (h : A -> C)
    (l : list A) :
  zip_with f (g <$> l) (h <$> l) = (fun a => f (g a) (h a)) <$> l.
Proof. induction l as [|a l IH]; csimpl; [done|]. by rewrite IH. Qed.

Lemma np_multiply_same_length {A B D} (g : A -> B -> D) (a : list A) (b : list B) :
  length a = length b -> np_multiply g a b = Ok (zip_with g a b).
Proof. intros H. unfold np_multiply. by rewrite bool_decide_eq_true_2. Qed.

Lemma argmax_from_lt (a : list R) (best_i i : nat) (best : R) :
  (best_i < i)%nat -> (argmax_from best_i best i a < i + length a)%nat.
Proof.
  revert best_i i best. induction a as [|x a IH]; intros best_i i best Hlt; simpl.
  - lia.
  - destruct (Rlt_dec best x).
    + specialize (IH i (S i) x ltac:(lia)). lia.
    + specialize (IH best_i (S i) best ltac:(lia)). lia.
Qed.

Lemma np_argmax_lt (a : list R) :
  a <> [] -> exists i, np_argmax a = Ok i /\ (i < length a)%nat.
Proof.
  destruct a as [|x a]; [done|]. intros _. eexists. split; [done|].
  pose proof (argmax_from_lt a 0 1 x ltac:(lia)). simpl. lia.
Qed.

(** ** Stepping through a stage *)

Lemma bind_ret {A B} (a : A) (k : A -> M B) (st : Signal) :
  bind (ret a) k st = k a st.
Proof. done. Qed.

Lemma bind_lift_Ok {A B} (a : A) (k : A -> M B) (st : Signal) :
  bind (lift (Ok a)) k st = k a st.
Proof. done. Qed.

Lemma bind_lift_Raised {A B} (e : exn) (k : A -> M B) (st : Signal) :
  bind (lift (Raised e)) k st = (Raised e, st).
Proof. done. Qed.

Lemma bind_raise {A B} (e : exn) (k : A -> M B) (st : Signal) :
  bind (raise e) k st = (Raised e, st).
Proof. done. Qed.

Lemma bind_assoc {A B D} (m : M A) (k : A -> M B) (h : B -> M D) (st : Signal) :
  bind (bind m k) h st = bind m (fun a => bind (k a) h) st.
Proof. unfold bind. destruct (m st) as [[a|e] st']; done. Qed.

Lemma bind_get {B} (name : string) (d : dataset) (k : dataset -> M B)
    (st : Signal) :
  f st !! path name = Some d -> bind (get name) k st = k d st.
Proof. intros H. unfold bind, get. by rewrite H. Qed.

Lemma bind_get_None {B} (name : string) (k : dataset -> M B) (st : Signal) :
  f st !! path name = None -> bind (get name) k st = (Raised KeyError, st).
Proof. intros H. unfold bind, get. by rewrite H. Qed.

Lemma bind_contains {B} (name : string) (k : bool -> M B) (st : Signal) :
  bind (contains name) k st
  = k (bool_decide (is_Some (f st !! path name))) st.
Proof. done. Qed.

Lemma bind_contains_true {B} (name : string) (d : dataset) (k : bool -> M B)
    (st : Signal) :
  f st !! path name = Some d -> bind (contains name) k st = k true st.
Proof.
  intros H. unfold bind, contains. rewrite H.
  by rewrite bool_decide_eq_true_2 by done.
Qed.

Lemma bind_contains_false {B} (name : string) (k : bool -> M B) (st : Signal) :
  f st !! path name = None -> bind (contains name) k st = k false st.
Proof.
  intros H. unfold bind, contains. rewrite H.
  rewrite bool_decide_eq_false_2; [done|]. by intros [? ?].
Qed.

Lemma bind_create_dataset {B} (name : string) (a : ndarray) (k : unit -> M B)
    (st : Signal) :
  f st !! path name = None ->
  bind (create_dataset name a) k st
  = k tt {| f := <[path name := stored a []]> (f st); report := report st |}.
Proof. intros H. unfold bind, create_dataset. by rewrite H. Qed.

Lemma bind_create_dataset_exists {B} (name : string) (a : ndarray)
    (k : unit -> M B) (d : dataset) (st : Signal) :
  f st !! path name = Some d ->
  bind (create_dataset name a) k st = (Raised RuntimeError, st).
Proof. intros H. unfold bind, create_dataset. by rewrite H. Qed.

Lemma bind_update_attrs {B} (name : string) (a : ndarray)
    (new : list (string * attr)) (k : unit -> M B) (m : gmap string dataset)
    (r : list report_line) :
  bind (update_attrs name new) k
    {| f := <[path name := stored a []]> m; report := r |}
  = k tt {| f := <[path name := stored a new]> m; report := r |}.
Proof.
  unfold bind, update_attrs. simpl. by rewrite alter_insert_eq.
Qed.

Lemma bind_append_report {B} (line : report_line) (k : unit -> M B)
    (st : Signal) :
  bind (append_report line) k st
  = k tt {| f := f st; report := report st ++ [line] |}.
Proof. done. Qed.

Lemma ingest_eq (s : list R) (dt : R) :
  ingest s dt
  = {| f := <["y" := stored (FloatArr s) (y_attrs "x" "nm")]>
              (<["x" := stored (FloatArr ((fun k => dt * INR k)
                                            <$> seq 0 (length s)))
                               (x_attrs dt)]> ∅);
       report := [RepCreated "temp.h5"; RepLoad "x" "nm" (length s) dt] |}.
Proof.
  unfold ingest, load_nparray.
  rewrite bind_create_dataset by done.
  rewrite (bind_update_attrs "x").
  rewrite bind_create_dataset by done.
  rewrite (bind_update_attrs "y"). done.
Qed.

Lemma ingest_lookups (s : list R) (dt : R) :
  f (ingest s dt) !! "y" = Some (stored (FloatArr s) (y_attrs "x" "nm"))
  /\ f (ingest s dt) !! "x"
     = Some (stored (FloatArr ((fun k => dt * INR k) <$> seq 0 (length s)))
               (x_attrs dt))
  /\ (forall k : string, k <> "x" -> k <> "y" -> f (ingest s dt) !! k = None).
Proof.
  rewrite ingest_eq. cbn [f]. split; [apply lookup_insert_eq|].
  split; [by rewrite lookup_insert_ne, lookup_insert_eq|].
  intros k Hx Hy. by rewrite !lookup_insert_ne, lookup_empty.
Qed.

Lemma y_attrs_name_unit (a : ndarray) (name unit : string) :
  attrs (stored a (y_attrs name unit)) !! "name" = Some (AStr name)
  /\ attrs (stored a (y_attrs name unit)) !! "unit" = Some (AStr unit).
Proof.
  unfold stored, y_attrs. cbn [attrs foldl fst snd].
  split; repeat (rewrite lookup_insert_ne by done); by rewrite lookup_insert_eq.
Qed.

Lemma x_attrs_dt (a : ndarray) (dt : R) :
  attrs (stored a (x_attrs dt)) !! "step" = Some (AFloat dt).
Proof. apply lookup_insert_eq. Qed.

(** ** The length normalizer *)

Lemma binarate_bounds_valid (mode : string) (n n2 : Z) :
  mode ∈ ["start"; "middle"; "end"] ->
  exists b, binarate_bounds mode n n2 = Some b
       /\ (mode = "start" -> b = (0, n2)%Z)
       /\ (mode = "end" -> b = (n - n2, n)%Z)
       /\ (mode = "middle" -> b = ((n - n2) `div` 2, (n - n2) `div` 2 + n2)%Z).
Proof.
  intros Hm. unfold binarate_bounds.
  repeat (apply elem_of_cons in Hm as [->|Hm]); [..|by apply elem_of_nil in Hm];
    simpl; eexists; (split; [reflexivity|]); repeat split; intros; done.
Qed.

Lemma range_mask_lookup (n : nat) (lo hi : Z) (i : nat) :
  (i < n)%nat ->
  range_mask n lo hi !! i = Some (bool_decide (lo <= Z.of_nat i < hi)%Z).
Proof.
  intros Hi. unfold range_mask. rewrite list_lookup_fmap, lookup_seq_lt by done.
  simpl. f_equal. repeat case_bool_decide; simpl; try done; lia.
Qed.

Lemma range_mask_length (n : nat) (lo hi : Z) : length (range_mask n lo hi) = n.
Proof. unfold range_mask. by rewrite length_fmap, length_seq. Qed.

Lemma range_mask_full (n : nat) (lo hi : Z) :
  (lo <= 0)%Z -> (Z.of_nat n <= hi)%Z -> range_mask n lo hi = replicate n true.
Proof.
  intros Hlo Hhi. apply list_eq. intros i.
  destruct (decide (i < n)%nat) as [Hi|Hi].
  - rewrite range_mask_lookup, lookup_replicate_2 by done.
    f_equal. apply bool_decide_eq_true_2. lia.
  - unfold range_mask. rewrite list_lookup_fmap, lookup_seq_ge by lia.
    symmetry. apply lookup_replicate_None. lia.
Qed.

Lemma pow2_log2_bounds (n : Z) :
  (1 <= n)%Z -> (1 <= 2 ^ Z.log2 n <= n)%Z.
Proof.
  intros Hn. pose proof (Z.log2_spec n ltac:(lia)) as [H1 H2].
  pose proof (Z.log2_nonneg n).
  assert (0 < 2 ^ Z.log2 n)%Z by (apply Z.pow_pos_nonneg; lia). lia.
Qed.

Lemma time_mask_binarate_ok (st : Signal) (y : dataset) (mode : string) b :
  f st !! "y" = Some y -> (1 <= size (data y))%nat ->
  binarate_bounds mode (Z.of_nat (size (data y)))
    (2 ^ Z.log2 (Z.of_nat (size (data y)))) = Some b ->
  f st !! "workup/time/mask/binarate" = None ->
  exists st', time_mask_binarate mode st = (Ok tt, st')
    /\ data <$> (f st' !! "workup/time/mask/binarate")
       = Some (BoolArr (range_mask (size (data y)) b.1 b.2))
    /\ f st' !! "y" = Some y.
Proof.
  intros Hy Hn Hb Hnone.
  unfold time_mask_binarate, bind, get, lift, nearest_power_of_2. simpl.
  rewrite Hy. rewrite bool_decide_eq_false_2 by lia.
  rewrite Hb. unfold ret, create_dataset. simpl. rewrite Hnone.
  eexists. split; [reflexivity|]. simpl.
  split.
  - rewrite lookup_alter_eq, lookup_insert_eq. done.
  - rewrite lookup_alter_ne, lookup_insert_ne by done. done.
Qed.
Lemma take_indices_seqZ {A} (a : list A) (lo : Z) (k : nat) :
  (0 <= lo)%Z -> (lo + Z.of_nat k <= Z.of_nat (length a))%Z ->
  take_indices (seqZ lo (Z.of_nat k)) a
  = Ok (take k (drop (Z.to_nat lo) a)).
Proof.
  intros Hlo Hle. unfold take_indices.
  assert (forallb (fun i => bool_decide (- Z.of_nat (length a) <= i < Z.of_nat (length a))%Z)
            (seqZ lo (Z.of_nat k)) = true) as ->.
  { apply forallb_forall. intros i Hi. apply list_elem_of_In in Hi.
    apply elem_of_seqZ in Hi. apply bool_decide_eq_true_2. lia. }
  f_equal. revert lo Hlo Hle. induction k as [|k IH]; intros lo Hlo Hle.
  - done.
  - rewrite seqZ_cons by lia.
    destruct (lookup_lt_is_Some_2 a (Z.to_nat lo) ltac:(lia)) as [x Hx].
    rewrite (drop_S _ _ _ Hx). simpl.
    rewrite Z.mod_small by lia. rewrite Hx. f_equal.
    replace (Z.pred (Z.of_nat (S k))) with (Z.of_nat k) by lia.
    rewrite IH by lia. do 2 f_equal. lia.
Qed.

Lemma middle_bounds (n n2 : Z) :
  (1 <= n2 <= n)%Z ->
  (0 <= (n - n2) `div` 2 /\ (n - n2) `div` 2 + n2 <= n)%Z.
Proof.
  intros Hp. split; [apply Z.div_pos; lia|].
  pose proof (Z.mul_div_le (n - n2) 2 ltac:(lia)). lia.
Qed.

(** The dictionary-backed [binarate] keeps the samples of the same index
    range, and saves the previous samples in [s_original]. *)
Lemma binarate_ok (mode : string) (sig : Freqdemod.Signal) b :
  (1 <= length (Freqdemod.s sig))%nat ->
  binarate_bounds mode (Z.of_nat (length (Freqdemod.s sig)))
    (2 ^ Z.log2 (Z.of_nat (length (Freqdemod.s sig)))) = Some b ->
  Freqdemod.binarate mode sig
  = (Ok tt,
     {| Freqdemod.s := take (Z.to_nat (b.2 - b.1))
                            (drop (Z.to_nat b.1) (Freqdemod.s sig));
        Freqdemod.s_name := Freqdemod.s_name sig;
        Freqdemod.s_unit := Freqdemod.s_unit sig;
        Freqdemod.dt := Freqdemod.dt sig;
        Freqdemod.s_original := Freqdemod.s sig |}).
Proof.
  intros Hn Hb. unfold Freqdemod.binarate, nearest_power_of_2. simpl.
  rewrite bool_decide_eq_false_2 by lia.
  pose proof (pow2_log2_bounds (Z.of_nat (length (Freqdemod.s sig))) ltac:(lia)) as Hp.
  set (n := Z.of_nat (length (Freqdemod.s sig))) in *.
  set (n2 := (2 ^ Z.log2 n)%Z) in *.
  pose proof (middle_bounds n n2 Hp) as Hmid.
  unfold binarate_bounds in Hb. unfold Freqdemod.array_indices.
  repeat case_decide; simplify_eq/=.
  - replace ((n - n2) `div` 2 + n2 - (n - n2) `div` 2)%Z with (Z.of_nat (Z.to_nat n2)) by lia.
    rewrite take_indices_seqZ by lia. rewrite Nat2Z.id. done.
  - replace (n2 - 0)%Z with (Z.of_nat (Z.to_nat n2)) by lia.
    rewrite take_indices_seqZ by lia. rewrite Nat2Z.id. done.
  - replace (n - (n - n2))%Z with (Z.of_nat (Z.to_nat n2)) by lia.
    rewrite take_indices_seqZ by lia. rewrite Nat2Z.id. done.
Qed.

(** C3.  For a signal of [n >= 1] samples and a mode among start, middle
    and end, [time_mask_binarate] stores a boolean mask of length [n] that
    is true exactly on [n_start, n_stop), a range inside the array of width
    [n2 = 2^floor(log2 n)]: [0, n2) for start, [n - n2, n) for end, and
    [floor((n - n2)/2)] onwards for middle.  When [n] is a power of two the
    mask selects the whole array. *)
Theorem length_normalizer_window (st : Signal) (y : dataset) (mode : string) :
  mode ∈ ["start"; "middle"; "end"] ->
  f st !! "y" = Some y -> (1 <= size (data y))%nat ->
  f st !! "workup/time/mask/binarate" = None ->
  let n := Z.of_nat (size (data y)) in
  let n2 := (2 ^ Z.log2 n)%Z in
  exists (n_start n_stop : Z) (mask : list bool) (st' : Signal),
    time_mask_binarate mode st = (Ok tt, st')
    /\ data <$> (f st' !! "workup/time/mask/binarate") = Some (BoolArr mask)
    /\ length mask = size (data y)
    /\ (forall i : nat, (i < size (data y))%nat ->
          mask !! i = Some (bool_decide (n_start <= Z.of_nat i < n_stop)%Z))
    /\ (0 <= n_start)%Z /\ (n_stop <= n)%Z /\ (n_stop - n_start = n2)%Z
    /\ (mode = "start" -> n_start = 0%Z /\ n_stop = n2)
    /\ (mode = "end" -> n_start = (n - n2)%Z /\ n_stop = n)
    /\ (mode = "middle" ->
          n_start = ((n - n2) `div` 2)%Z /\ n_stop = (n_start + n2)%Z)
    /\ ((exists k : Z, (0 <= k)%Z /\ n = (2 ^ k)%Z) ->
          mask = replicate (size (data y)) true).
Proof.
  intros Hm Hy Hn Hnone n n2.
  destruct (binarate_bounds_valid mode n n2 Hm) as ([lo hi] & Hb & Hs & He & Hmid).
  destruct (time_mask_binarate_ok st y mode (lo, hi) Hy Hn Hb Hnone)
    as (st' & Hrun & Hmask & _).
  pose proof (pow2_log2_bounds n ltac:(lia)) as Hp. fold n2 in Hp.
  pose proof (middle_bounds n n2 Hp) as Hmb.
  assert ((0 <= lo)%Z /\ (hi <= n)%Z /\ (hi - lo = n2)%Z) as (Hlo & Hhi & Hw).
  { repeat (apply elem_of_cons in Hm as [->|Hm]); [..|by apply elem_of_nil in Hm].
    - specialize (Hs eq_refl). simplify_eq. lia.
    - specialize (Hmid eq_refl). simplify_eq. lia.
    - specialize (He eq_refl). simplify_eq. lia. }
  exists lo, hi, (range_mask (size (data y)) lo hi), st'.
  split; [done|]. split; [done|]. split; [apply range_mask_length|].
  split; [intros i Hi; by apply range_mask_lookup|].
  do 3 (split; [done|]).
  split; [intros Hmode; specialize (Hs Hmode); by simplify_eq|].
  split; [intros Hmode; specialize (He Hmode); by simplify_eq|].
  split; [intros Hmode; specialize (Hmid Hmode); by simplify_eq|].
  intros (k & Hk & Hnk). apply range_mask_full; [|fold n].
  - assert (n2 = n) by (unfold n2; rewrite Hnk; by rewrite Z.log2_pow2). lia.
  - assert (n2 = n) by (unfold n2; rewrite Hnk; by rewrite Z.log2_pow2). lia.
Qed.

Lemma length_normalizer_window_witness :
  let st := ingest five_samples 1 in
  let y := stored (FloatArr five_samples) (y_attrs "x" "nm") in
  let n := Z.of_nat (size (data y)) in
  let n2 := (2 ^ Z.log2 n)%Z in
  exists (n_start n_stop : Z) (mask : list bool) (st' : Signal),
    time_mask_binarate "middle" st = (Ok tt, st')
    /\ data <$> (f st' !! "workup/time/mask/binarate") = Some (BoolArr mask)
    /\ length mask = size (data y)
    /\ (forall i : nat, (i < size (data y))%nat ->
          mask !! i = Some (bool_decide (n_start <= Z.of_nat i < n_stop)%Z))
    /\ (0 <= n_start)%Z /\ (n_stop <= n)%Z /\ (n_stop - n_start = n2)%Z
    /\ ("middle" = "start" -> n_start = 0%Z /\ n_stop = n2)
    /\ ("middle" = "end" -> n_start = (n - n2)%Z /\ n_stop = n)
    /\ ("middle" = "middle" ->
          n_start = ((n - n2) `div` 2)%Z /\ n_stop = (n_start + n2)%Z)
    /\ ((exists k : Z, (0 <= k)%Z /\ n = (2 ^ k)%Z) ->
          mask = replicate (size (data y)) true).
Proof.
  apply (length_normalizer_window (ingest five_samples 1)
           (stored (FloatArr five_samples) (y_attrs "x" "nm")) "middle").
  - by repeat constructor.
  - rewrite ingest_eq. apply lookup_insert_eq.
  - simpl. lia.
  - rewrite ingest_eq. simpl. by rewrite !lookup_insert_ne, lookup_empty.
Defined.

Lemma binarate_bounds_invalid (mode : string) (n n2 : Z) :
  mode ∉ ["start"; "middle"; "end"] -> binarate_bounds mode n n2 = None.
Proof.
  intros Hm. unfold binarate_bounds.
  repeat case_decide; try done; exfalso; apply Hm; subst; set_solver.
Qed.

Lemma array_indices_invalid (mode : string) (n n2 : Z) :
  mode ∉ ["start"; "middle"; "end"] -> Freqdemod.array_indices mode n n2 = None.
Proof.
  intros Hm. unfold Freqdemod.array_indices.
  repeat case_decide; try done; exfalso; apply Hm; subst; set_solver.
Qed.

(** C10.  With a mode other than start, middle and end the length
    normalizer raises and stores nothing: [time_mask_binarate] leaves the
    file and the report as they were, so no mask artifact appears, and on a
    signal of at least one sample the exception is the unbound local
    variable of the index bounds.  The dictionary-backed [binarate] raises
    likewise and leaves the signal [s] as it was. *)
Theorem unknown_mode_is_rejected (mode : string) (st : Signal)
    (sig : Freqdemod.Signal) :
  mode ∉ ["start"; "middle"; "end"] ->
  (exists e, time_mask_binarate mode st = (Raised e, st)
     /\ (forall y, f st !! "y" = Some y -> (1 <= size (data y))%nat ->
           e = UnboundLocalError))
  /\ (exists e sig', Freqdemod.binarate mode sig = (Raised e, sig')
        /\ Freqdemod.s sig' = Freqdemod.s sig
        /\ ((1 <= length (Freqdemod.s sig))%nat -> e = UnboundLocalError)).
Proof.
  intros Hm. split.
  - unfold time_mask_binarate.
    destruct (f st !! "y") as [y|] eqn:Hy.
    + rewrite (bind_get "y" y) by done.
      unfold nearest_power_of_2. case_bool_decide as Hn.
      * rewrite bind_lift_Raised. eexists. split; [done|].
        intros y' [= <-] ?. lia.
      * rewrite bind_lift_Ok, binarate_bounds_invalid by done.
        rewrite bind_raise. eexists. split; [done|]. done.
    + rewrite bind_get_None by done. eexists. split; [done|]. done.
  - unfold Freqdemod.binarate, nearest_power_of_2. simpl.
    case_bool_decide as Hn.
    + eexists _, _. split; [done|]. split; [done|]. lia.
    + rewrite array_indices_invalid by done.
      eexists _, _. split; [done|]. split; done.
Qed.

Lemma unknown_mode_is_rejected_witness :
  (exists e, time_mask_binarate "centre" (ingest three_samples 1)
             = (Raised e, ingest three_samples 1)
     /\ (forall y, f (ingest three_samples 1) !! "y" = Some y ->
           (1 <= size (data y))%nat -> e = UnboundLocalError))
  /\ (exists e sig', Freqdemod.binarate "centre"
                       (Freqdemod.init three_samples "x" "nm" 1)
                     = (Raised e, sig')
        /\ Freqdemod.s sig' = Freqdemod.s (Freqdemod.init three_samples "x" "nm" 1)
        /\ ((1 <= length (Freqdemod.s (Freqdemod.init three_samples "x" "nm" 1)))%nat
            -> e = UnboundLocalError)).
Proof.
  apply (unknown_mode_is_rejected "centre" (ingest three_samples 1)
           (Freqdemod.init three_samples "x" "nm" 1)).
  intros H. repeat (apply elem_of_cons in H as [H|H]; [discriminate|]).
  by apply elem_of_nil in H.
Defined.

(** ** The edge window *)

Lemma blackman_length (M : Z) : length (blackman M) = Z.to_nat M.
Proof.
  unfold blackman. repeat case_bool_decide; simpl; try lia.
  rewrite length_fmap, length_seqZ. done.
Qed.

Lemma slice_to_take {A} (k : Z) (a : list A) :
  (0 <= k)%Z -> slice_to k a = take (Z.to_nat k) a.
Proof. intros Hk. unfold slice_to. by rewrite bool_decide_eq_false_2 by lia. Qed.

Lemma slice_from_0 {A} (a : list A) : slice_from 0 a = a.
Proof. done. Qed.

(** The two halves of the taper of full width [2*ww]: its first [ww]
    samples and its last [ww] samples. *)
Lemma taper_halves (ww : Z) :
  slice_to ww (slice_from 0 (blackman (2 * ww)))
  = take (Z.to_nat ww) (blackman (2 * ww))
  /\ slice_from (- ww) (blackman (2 * ww))
     = drop (length (blackman (2 * ww)) - Z.to_nat ww) (blackman (2 * ww))
  /\ length (take (Z.to_nat ww) (blackman (2 * ww))) = Z.to_nat ww
  /\ length (drop (length (blackman (2 * ww)) - Z.to_nat ww)
               (blackman (2 * ww))) = Z.to_nat ww.
Proof.
  rewrite slice_from_0.
  pose proof (blackman_length (2 * ww)) as Hlen.
  destruct (decide (0 < ww)%Z) as [Hpos|Hneg].
  - split; [apply slice_to_take; lia|].
    split.
    + unfold slice_from. rewrite bool_decide_eq_true_2 by lia. f_equal. lia.
    + rewrite length_take, length_drop. lia.
  - assert (blackman (2 * ww) = []) as ->.
    { unfold blackman. by rewrite bool_decide_eq_true_2 by lia. }
    replace (Z.to_nat ww) with 0%nat by lia.
    unfold slice_to, slice_from. simpl.
    rewrite !take_nil, !drop_nil. by repeat case_bool_decide.
Qed.

Lemma cyclicize_window_too_wide (n ww : Z) :
  (n < 2 * ww)%Z -> cyclicize_window n ww = Raised ValueError.
Proof.
  intros H. unfold cyclicize_window, np_ones.
  by rewrite bool_decide_eq_true_2 by lia.
Qed.

Lemma cyclicize_window_fits (n ww : Z) :
  (2 * ww <= n)%Z ->
  cyclicize_window n ww
  = Ok (take (Z.to_nat ww) (blackman (2 * ww))
        ++ replicate (Z.to_nat (n - 2 * ww)) 1
        ++ drop (length (blackman (2 * ww)) - Z.to_nat ww) (blackman (2 * ww))).
Proof.
  intros H. unfold cyclicize_window, np_ones.
  rewrite bool_decide_eq_false_2 by lia.
  destruct (taper_halves ww) as (-> & -> & _). done.
Qed.

Lemma time_window_cyclicize_run (tw : R) (st st1 : Signal) (n : nat)
    (abscissa : string) (xd : dataset) (dt : R) :
  window_target st = (Ok (n, abscissa), st1) ->
  f st1 !! "x" = Some xd -> attrs xd !! "step" = Some (AFloat dt) -> dt <> 0 ->
  time_window_cyclicize tw st
  = match cyclicize_window (Z.of_nat n) (py_ceil (1.0 * tw / (1.0 * dt))) with
    | Raised e => (Raised e, st1)
    | Ok w =>
      match f st1 !! "workup/time/window/cyclicize" with
      | Some _ => (Raised RuntimeError, st1)
      | None =>
        (Ok tt,
         {| f := <["workup/time/window/cyclicize" :=
                     stored (FloatArr w)
                       (window_attrs abscissa tw
                          (IZR (py_ceil (1.0 * tw / (1.0 * dt))) * dt))]>
                   (f st1);
            report := report st1
                      ++ [RepWindow (IZR (py_ceil (1.0 * tw / (1.0 * dt))) * dt)
                            (py_ceil (1.0 * tw / (1.0 * dt)))] |})
      end
    end.
Proof.
  intros Htarget Hx Hstep Hdt. unfold time_window_cyclicize.
  unfold bind at 1. rewrite Htarget.
  rewrite (bind_get _ xd) by done.
  unfold float_attr. rewrite Hstep, bind_ret.
  unfold ceil_ratio. destruct (Req_dec_T dt 0) as [?|_]; [done|].
  rewrite bind_lift_Ok.
  destruct (cyclicize_window _ _) as [w|e]; [|by rewrite bind_lift_Raised].
  rewrite bind_lift_Ok.
  destruct (f st1 !! "workup/time/window/cyclicize") as [d|] eqn:Hw.
  - by rewrite (bind_create_dataset_exists _ _ _ d).
  - rewrite bind_create_dataset by done.
    by rewrite (bind_update_attrs "workup/time/window/cyclicize").
Qed.

Lemma window_target_no_mask (st : Signal) (y : dataset) :
  f st !! "workup/time/mask/binarate" = None -> f st !! "y" = Some y ->
  window_target st = (Ok (size (data y), "x"), st).
Proof.
  intros Hm Hy. unfold window_target.
  rewrite bind_contains_false by done. by rewrite (bind_get _ y).
Qed.

(** C7 (as amended).  Let [n] be the length the window must have and
    [ww = ceil(tw/dt)].  For [2*ww > n] the edge window generator fails,
    with the error that [np.ones] raises for a negative length, and stores
    no window.  For [2*ww <= n] it stores the concatenation of the first
    [ww] samples of the taper of full width [2*ww], of [n - 2*ww] ones, and
    of the last [ww] samples of the same taper; this includes [2*ww = n],
    where it does not fail and no ones separate the two halves. *)
Theorem edge_window (tw : R) (st st1 : Signal) (n : nat) (abscissa : string)
    (xd : dataset) (dt : R) :
  window_target st = (Ok (n, abscissa), st1) ->
  f st1 !! "x" = Some xd -> attrs xd !! "step" = Some (AFloat dt) -> dt <> 0 ->
  f st1 !! "workup/time/window/cyclicize" = None ->
  let ww := py_ceil (tw / dt) in
  let taper := blackman (2 * ww) in
  ((Z.of_nat n < 2 * ww)%Z ->
     time_window_cyclicize tw st = (Raised ValueError, st1))
  /\ ((2 * ww <= Z.of_nat n)%Z ->
        exists st' : Signal,
          time_window_cyclicize tw st = (Ok tt, st')
          /\ data <$> (f st' !! "workup/time/window/cyclicize")
             = Some (FloatArr
                       (take (Z.to_nat ww) taper
                        ++ replicate (Z.to_nat (Z.of_nat n - 2 * ww)) 1
                        ++ drop (length taper - Z.to_nat ww) taper))
          /\ length (take (Z.to_nat ww) taper) = Z.to_nat ww
          /\ length (drop (length taper - Z.to_nat ww) taper) = Z.to_nat ww).
Proof.
  intros Htarget Hx Hstep Hdt Hnone ww taper.
  pose proof (time_window_cyclicize_run tw st st1 n abscissa xd dt
                Htarget Hx Hstep Hdt) as Hrun.
  replace (1.0 * tw / (1.0 * dt)) with (tw / dt) in Hrun by (field; lra).
  fold ww in Hrun. split.
  - intros Hwide. by rewrite Hrun, cyclicize_window_too_wide.
  - intros Hfits. rewrite cyclicize_window_fits, Hnone in Hrun by done.
    eexists. split; [exact Hrun|]. cbn [f]. rewrite lookup_insert_eq.
    split; [done|]. destruct (taper_halves ww) as (_ & _ & H1 & H2). done.
Qed.

Lemma edge_window_witness :
  let ww := py_ceil (2 / 1) in
  let taper := blackman (2 * ww) in
  ((Z.of_nat 5 < 2 * ww)%Z ->
     time_window_cyclicize 2 (ingest five_samples 1)
     = (Raised ValueError, ingest five_samples 1))
  /\ ((2 * ww <= Z.of_nat 5)%Z ->
        exists st' : Signal,
          time_window_cyclicize 2 (ingest five_samples 1) = (Ok tt, st')
          /\ data <$> (f st' !! "workup/time/window/cyclicize")
             = Some (FloatArr
                       (take (Z.to_nat ww) taper
                        ++ replicate (Z.to_nat (Z.of_nat 5 - 2 * ww)) 1
                        ++ drop (length taper - Z.to_nat ww) taper))
          /\ length (take (Z.to_nat ww) taper) = Z.to_nat ww
          /\ length (drop (length taper - Z.to_nat ww) taper) = Z.to_nat ww).
Proof.
  destruct (ingest_lookups five_samples 1) as (Hy & Hx & Hfresh).
  apply (edge_window 2 (ingest five_samples 1) (ingest five_samples 1) 5 "x"
           _ 1 (window_target_no_mask _ _
              (Hfresh "workup/time/mask/binarate" ltac:(done) ltac:(done)) Hy)
           Hx (x_attrs_dt _ 1) ltac:(lra)
           (Hfresh "workup/time/window/cyclicize" ltac:(done) ltac:(done))).
Defined.

Lemma blackman_2 : blackman 2 = [0; 0].
Proof.
  unfold blackman. simpl. csimpl.
  change (Z.of_nat 0 + 0)%Z with 0%Z. change (Z.of_nat 1 + 0)%Z with 1%Z.
  f_equal; [|f_equal].
  - replace (2.0 * PI * 0 / (2 - 1)) with 0 by (field; lra).
    replace (4.0 * PI * 0 / (2 - 1)) with 0 by (field; lra).
    rewrite cos_0. lra.
  - replace (2.0 * PI * 1 / (2 - 1)) with (2 * PI) by lra.
    replace (4.0 * PI * 1 / (2 - 1)) with (0 + 2 * INR 2 * PI)
      by (simpl; lra).
    rewrite cos_2PI, cos_period, cos_0. lra.
Qed.

(** C7 as stated fails for [2*ww = n]: on two samples, a rise time of one
    time step is accepted without an error, and the window stored consists
    of the two halves of the taper alone, which are zero. *)
Lemma window_as_wide_as_signal_is_accepted :
  py_ceil (1 / 1) = 1%Z
  /\ exists st' : Signal,
       time_window_cyclicize 1 (ingest two_samples 1) = (Ok tt, st')
       /\ data <$> (f st' !! "workup/time/window/cyclicize")
          = Some (FloatArr [0; 0]).
Proof.
  split; [apply (py_ceil_IZR 1)|].
  destruct (ingest_lookups two_samples 1) as (Hy & Hx & Hfresh).
  pose proof (time_window_cyclicize_run 1 (ingest two_samples 1)
                (ingest two_samples 1) 2 "x" _ 1
                (window_target_no_mask _ _
              (Hfresh "workup/time/mask/binarate" ltac:(done) ltac:(done)) Hy)
                Hx (lookup_insert_eq _ _ _) ltac:(lra)) as Hrun.
  replace (1.0 * 1 / (1.0 * 1)) with (IZR 1 / 1) in Hrun by (field; lra).
  rewrite py_ceil_IZR in Hrun.
  rewrite cyclicize_window_fits in Hrun by lia.
  change (2 * 1)%Z with 2%Z in Hrun. rewrite blackman_2 in Hrun.
  rewrite (Hfresh "workup/time/window/cyclicize") in Hrun by done.
  eexists. split; [exact Hrun|]. cbn [f]. by rewrite lookup_insert_eq.
Qed.

(** ** The discrete Fourier transform and its inverse *)

Lemma C_ring : ring_theory (R:=C) C0 C1 Cadd Cmul Csub Copp eq.
Proof.
  constructor; intros; unfold Csub, Cadd, Cmul, Copp, C0, C1;
    repeat match goal with x : C |- _ => destruct x end; simpl;
    try reflexivity; f_equal; ring.
Qed.

Add Ring C_ring_inst : C_ring.

Lemma cis_0 : cis 0 = C1.
Proof. unfold cis, C1. by rewrite cos_0, sin_0. Qed.

Lemma cis_add (a b : R) : cis (a + b) = Cmul (cis a) (cis b).
Proof.
  unfold cis, Cmul. simpl. rewrite cos_plus, sin_plus. f_equal; ring.
Qed.

Lemma cis_2PI_nat (k : nat) : cis (2 * PI * INR k) = C1.
Proof.
  unfold cis, C1.
  replace (2 * PI * INR k) with (0 + 2 * INR k * PI) by ring.
  by rewrite cos_period, sin_period, cos_0, sin_0.
Qed.

Lemma cis_2PI_Z (d : Z) : cis (2 * PI * IZR d) = C1.
Proof.
  destruct (Z_le_gt_dec 0 d) as [Hd|Hd].
  - rewrite <- (Z2Nat.id d) by done. rewrite <- INR_IZR_INZ. apply cis_2PI_nat.
  - pose proof (cis_2PI_nat (Z.to_nat (- d))) as H.
    rewrite INR_IZR_INZ, Z2Nat.id, opp_IZR in H by lia.
    unfold cis, C1 in *. injection H as Hc Hs.
    replace (2 * PI * - IZR d) with (- (2 * PI * IZR d)) in * by ring.
    rewrite cos_neg in Hc. rewrite sin_neg in Hs. f_equal; lra.
Qed.

Lemma cos_lt_1 (x : R) : 0 < x < 2 * PI -> cos x < 1.
Proof.
  intros Hx. replace x with (2 * (x / 2)) by field.
  rewrite cos_2a_sin.
  assert (0 < sin (x / 2)) by (apply sin_gt_0; lra). nra.
Qed.

Lemma cis_neq_1 (x : R) : 0 < Rabs x < 2 * PI -> cis x <> C1.
Proof.
  intros Hx H. unfold cis, C1 in H. injection H as Hc _.
  destruct (Rcase_abs x) as [Hneg|Hpos].
  - rewrite Rabs_left in Hx by done.
    pose proof (cos_lt_1 (- x) Hx). rewrite cos_neg in *. lra.
  - rewrite Rabs_right in Hx by done. pose proof (cos_lt_1 x Hx). lra.
Qed.

Lemma Cmul_eq_0 (a b : C) : Cmul a b = C0 -> b <> C0 -> a = C0.
Proof.
  destruct a as [a1 a2], b as [b1 b2]. unfold Cmul, C0. simpl.
  intros [= H1 H2] Hb.
  assert (0 < b1 * b1 + b2 * b2) as HN.
  { destruct (Req_dec b1 0) as [->|]; [|nra].
    destruct (Req_dec b2 0) as [->|]; [done|nra]. }
  assert (a1 * (b1 * b1 + b2 * b2) = 0) as Ha1
    by (replace (a1 * (b1 * b1 + b2 * b2))
          with (b1 * (a1 * b1 - a2 * b2) + b2 * (a1 * b2 + a2 * b1)) by ring;
        rewrite H1, H2; ring).
  assert (a2 * (b1 * b1 + b2 * b2) = 0) as Ha2
    by (replace (a2 * (b1 * b1 + b2 * b2))
          with (b1 * (a1 * b2 + a2 * b1) - b2 * (a1 * b1 - a2 * b2)) by ring;
        rewrite H1, H2; ring).
  f_equal; nra.
Qed.

Lemma Csum_app (l k : list C) : Csum (l ++ k) = Cadd (Csum l) (Csum k).
Proof.
  unfold Csum. induction l as [|x l IH]; simpl; [ring|]. rewrite IH. ring.
Qed.

Lemma Csum_cons (x : C) (l : list C) : Csum (x :: l) = Cadd x (Csum l).
Proof. done. Qed.

Lemma Csum_fmap_add {A} (F G : A -> C) (l : list A) :
  Csum ((fun a => Cadd (F a) (G a)) <$> l)
  = Cadd (Csum (F <$> l)) (Csum (G <$> l)).
Proof.
  induction l as [|a l IH]; [unfold Csum; simpl; ring|].
  rewrite !fmap_cons, !Csum_cons, IH. ring.
Qed.

Lemma Csum_fmap_mul_r {A} (F : A -> C) (c : C) (l : list A) :
  Csum ((fun a => Cmul (F a) c) <$> l) = Cmul (Csum (F <$> l)) c.
Proof.
  induction l as [|a l IH]; [unfold Csum; simpl; ring|].
  rewrite !fmap_cons, !Csum_cons, IH. ring.
Qed.

Lemma Csum_fmap_mul_l {A} (F : A -> C) (c : C) (l : list A) :
  Csum ((fun a => Cmul c (F a)) <$> l) = Cmul c (Csum (F <$> l)).
Proof.
  induction l as [|a l IH]; [unfold Csum; simpl; ring|].
  rewrite !fmap_cons, !Csum_cons, IH. ring.
Qed.

Lemma Csum_fmap_zero {A} (l : list A) : Csum ((fun _ => C0) <$> l) = C0.
Proof.
  induction l as [|a l IH]; [done|]. rewrite fmap_cons, Csum_cons, IH. ring.
Qed.

Lemma Csum_fmap_const (n : nat) :
  Csum ((fun _ => C1) <$> seq 0 n) = (INR n, 0).
Proof.
  induction n as [|n IH]; [done|].
  rewrite seq_S, fmap_app, Csum_app, IH, S_INR.
  unfold Csum, Cadd, C1, C0. simpl. f_equal; ring.
Qed.

Lemma Csum_swap {A B} (G : A -> B -> C) (l1 : list A) (l2 : list B) :
  Csum ((fun a => Csum ((fun b => G a b) <$> l2)) <$> l1)
  = Csum ((fun b => Csum ((fun a => G a b) <$> l1)) <$> l2).
Proof.
  induction l1 as [|a l1 IH].
  - symmetry. apply Csum_fmap_zero.
  - by rewrite fmap_cons, Csum_cons, IH, <- Csum_fmap_add.
Qed.

Lemma geometric_sum (a : R) (n : nat) :
  Cmul (Csum ((fun k => cis (INR k * a)) <$> seq 0 n)) (Csub (cis a) C1)
  = Csub (cis (INR n * a)) C1.
Proof.
  induction n as [|n IH].
  - simpl. rewrite Rmult_0_l, cis_0. unfold Csum. simpl. ring.
  - rewrite seq_S, fmap_app, Csum_app.
    replace (INR (S n) * a) with (INR n * a + a) by (rewrite S_INR; ring).
    rewrite cis_add.
    change (Csum ((fun k => cis (INR k * a)) <$> [(0 + n)%nat]))
      with (Cadd (cis (INR n * a)) C0).
    transitivity
      (Cadd (Cmul (Csum ((fun k => cis (INR k * a)) <$> seq 0 n))
                  (Csub (cis a) C1))
            (Cmul (cis (INR n * a)) (Csub (cis a) C1))).
    + ring.
    + rewrite IH. ring.
Qed.

(** The sum of the [n]-th roots of unity [exp(2*pi*i*k*d/n)] over [k] is
    zero unless [d] is zero. *)
Lemma roots_of_unity_sum (n : nat) (d : Z) :
  (0 < Z.abs d < Z.of_nat n)%Z ->
  Csum ((fun k => cis (INR k * (2 * PI * IZR d / INR n))) <$> seq 0 n) = C0.
Proof.
  intros Hd.
  assert (0 < INR n) as Hn by (apply lt_0_INR; lia).
  apply (Cmul_eq_0 _ (Csub (cis (2 * PI * IZR d / INR n)) C1)).
  - rewrite geometric_sum.
    replace (INR n * (2 * PI * IZR d / INR n)) with (2 * PI * IZR d)
      by (field; lra).
    rewrite cis_2PI_Z. ring.
  - intros H.
    apply (cis_neq_1 (2 * PI * IZR d / INR n)).
    + assert (0 < Rabs (IZR d) < INR n) as Habs.
      { rewrite <- abs_IZR, INR_IZR_INZ. split; apply IZR_lt; lia. }
      pose proof PI_RGT_0.
      replace (2 * PI * IZR d / INR n) with (IZR d * (2 * PI / INR n))
        by (field; lra).
      rewrite Rabs_mult, (Rabs_right (2 * PI / INR n)).
      2:{ apply Rle_ge, Rlt_le, Rdiv_lt_0_compat; lra. }
      assert (0 < 2 * PI / INR n) by (apply Rdiv_lt_0_compat; lra).
      split; [nra|].
      replace (2 * PI) with (INR n * (2 * PI / INR n)) at 2 by (field; lra).
      nra.
    + transitivity (Cadd (Csub (cis (2 * PI * IZR d / INR n)) C1) C1); [ring|].
      rewrite H. ring.
Qed.

Lemma roots_of_unity_sum_0 (n : nat) :
  Csum ((fun k => cis (INR k * 0)) <$> seq 0 n) = (INR n, 0).
Proof.
  rewrite <- Csum_fmap_const. f_equal. apply list_fmap_ext.
  intros _ k _. by rewrite Rmult_0_r, cis_0.
Qed.

Lemma imap_nth {A B} (h : nat -> A -> B) (x : list A) (d : A) :
  imap h x = (fun j => h j (nth j x d)) <$> seq 0 (length x).
Proof.
  revert h. induction x as [|a x IH]; intros h; [done|].
  simpl. f_equal. rewrite IH, <- fmap_S_seq, <- list_fmap_compose. done.
Qed.

Lemma dft_unfold (sign : R) (x : list C) :
  dft sign x
  = (fun k =>
       Csum ((fun j => Cmul (nth j x C0)
                         (cis (sign * (2 * PI * INR j * INR k / INR (length x)))))
             <$> seq 0 (length x)))
    <$> seq 0 (length x).
Proof.
  unfold dft. apply list_fmap_ext. intros _ k _. by rewrite (imap_nth _ _ C0).
Qed.

Lemma dft_length (sign : R) (x : list C) : length (dft sign x) = length x.
Proof. unfold dft. by rewrite length_fmap, length_seq. Qed.

Lemma nth_fmap_seq {B} (g : nat -> B) (n k : nat) (d : B) :
  (k < n)%nat -> nth k (g <$> seq 0 n) d = g k.
Proof.
  intros Hk. apply nth_lookup_Some. by rewrite list_lookup_fmap, lookup_seq_lt.
Qed.

(** Summing a function that vanishes off the index [m]. *)
Lemma Csum_single (F : nat -> C) (n m : nat) :
  (m < n)%nat -> (forall j, (j < n)%nat -> j <> m -> F j = C0) ->
  Csum (F <$> seq 0 n) = F m.
Proof.
  intros Hm HF.
  replace n with (m + (1 + (n - m - 1)))%nat at 1 by lia.
  rewrite !seq_app, !fmap_app, !Csum_app. simpl.
  rewrite (list_fmap_ext F (fun _ => C0) (seq 0 m)), Csum_fmap_zero.
  2:{ intros i j Hj. apply lookup_seq in Hj as [-> ?]. apply HF; lia. }
  rewrite (list_fmap_ext F (fun _ => C0) (seq (m + 1) _)), Csum_fmap_zero.
  2:{ intros i j Hj. apply lookup_seq in Hj as [-> ?]. apply HF; lia. }
  unfold Csum. simpl. replace (m + 0)%nat with m by lia. ring.
Qed.

Lemma Csum_fmap_seq_ext (F G : nat -> C) (n : nat) :
  (forall k, (k < n)%nat -> F k = G k) ->
  Csum (F <$> seq 0 n) = Csum (G <$> seq 0 n).
Proof.
  intros H. f_equal. apply list_fmap_ext. intros i k Hk.
  apply lookup_seq in Hk as [-> ?]. by apply H.
Qed.

Lemma dft_inverse_sum (x : list C) (m : nat) :
  (m < length x)%nat ->
  Csum ((fun k =>
           Cmul (nth k (dft (-1) x) C0)
                (cis (1 * (2 * PI * INR k * INR m / INR (length x)))))
        <$> seq 0 (length x))
  = Cmul (nth m x C0) (INR (length x), 0).
Proof.
  intros Hm. set (n := length x) in *.
  assert (0 < INR n) as Hn by (apply lt_0_INR; lia).
  transitivity
    (Csum ((fun k =>
              Csum ((fun j =>
                       Cmul (nth j x C0)
                         (cis (INR k * (2 * PI * IZR (Z.of_nat m - Z.of_nat j)
                                        / INR n))))
                    <$> seq 0 n))
           <$> seq 0 n)).
  { apply Csum_fmap_seq_ext. intros k Hk.
    rewrite dft_unfold. fold n. rewrite nth_fmap_seq by done.
    rewrite <- Csum_fmap_mul_r. apply Csum_fmap_seq_ext. intros j Hj.
    replace (INR k * (2 * PI * IZR (Z.of_nat m - Z.of_nat j) / INR n))
      with (-1 * (2 * PI * INR j * INR k / INR n)
            + 1 * (2 * PI * INR k * INR m / INR n)).
    2:{ rewrite minus_IZR, <- !INR_IZR_INZ. field. lra. }
    rewrite cis_add. ring. }
  rewrite Csum_swap.
  rewrite (Csum_single _ n m Hm).
  - rewrite Csum_fmap_mul_l. f_equal.
    replace (Z.of_nat m - Z.of_nat m)%Z with 0%Z by lia.
    rewrite <- (roots_of_unity_sum_0 n). apply Csum_fmap_seq_ext. intros k _.
    f_equal. field. lra.
  - intros j Hj Hne. rewrite Csum_fmap_mul_l.
    rewrite roots_of_unity_sum by lia. ring.
Qed.

(** [np.fft.ifft] inverts [np.fft.fft]. *)
Lemma dft_inverse (x : list C) :
  x <> [] -> Cscal (1 / INR (length x)) <$> dft 1 (dft (-1) x) = x.
Proof.
  intros Hx. assert (0 < length x)%nat as Hlen by (destruct x; [done|simpl; lia]).
  assert (0 < INR (length x)) as Hn by (apply lt_0_INR; lia).
  apply list_eq. intros m.
  rewrite (dft_unfold 1), dft_length, list_lookup_fmap, list_lookup_fmap.
  destruct (decide (m < length x)%nat) as [Hm|Hm].
  - rewrite lookup_seq_lt by done. simpl.
    rewrite dft_inverse_sum by done.
    destruct (lookup_lt_is_Some_2 x m Hm) as [xm Hxm].
    rewrite Hxm. rewrite (nth_lookup_Some _ _ _ _ Hxm). f_equal.
    destruct xm as [a b]. unfold Cscal, Cmul. simpl. f_equal; field; lra.
  - rewrite lookup_seq_ge by lia. simpl. symmetry. apply lookup_ge_None. lia.
Qed.

(** ** The forward and the inverse transform *)

Lemma fftshift_length {A} (x : list A) : length (fftshift x) = length x.
Proof.
  unfold fftshift. rewrite length_app, length_drop, length_take.
  pose proof (Nat.Div0.div_le_upper_bound (length x) 2 (length x)). lia.
Qed.

Lemma fftshift_fmap {A B} (g : A -> B) (x : list A) :
  fftshift (g <$> x) = g <$> fftshift x.
Proof.
  unfold fftshift. by rewrite length_fmap, fmap_app, fmap_drop, fmap_take.
Qed.

(** On an even length [fftshift] is its own inverse. *)
Lemma fftshift_involutive (x : list C) :
  Nat.Even (length x) -> fftshift (fftshift x) = x.
Proof.
  intros [h Hh]. unfold fftshift at 1. rewrite fftshift_length.
  unfold fftshift. rewrite Hh.
  replace (2 * h - 2 * h / 2)%nat with h
    by (rewrite Nat.mul_comm, Nat.div_mul by lia; lia).
  rewrite drop_app_length' by (rewrite length_drop; lia).
  rewrite take_app_length' by (rewrite length_drop; lia).
  apply take_drop.
Qed.

Lemma unscale_scale (dt : R) (x : list C) :
  dt <> 0 -> (fun z : C => (z.1 / dt, z.2 / dt)) <$> (Cscal dt <$> x) = x.
Proof.
  intros Hdt. rewrite <- list_fmap_compose.
  rewrite <- (list_fmap_id x) at 2. apply list_fmap_ext.
  intros _ [a b] _. unfold Cscal. simpl. f_equal; field; done.
Qed.

Lemma fftfreq_length (n : nat) (d : R) : length (fftfreq n d) = n.
Proof.
  unfold fftfreq. rewrite length_fmap, length_app, !length_seqZ.
  destruct n as [|n]; [done|].
  pose proof (Z.div_mod (Z.of_nat (S n) - 1) 2 ltac:(lia)).
  pose proof (Z.mod_pos_bound (Z.of_nat (S n) - 1) 2 ltac:(lia)).
  pose proof (Z.div_mod (Z.of_nat (S n)) 2 ltac:(lia)).
  pose proof (Z.mod_pos_bound (Z.of_nat (S n)) 2 ltac:(lia)).
  lia.
Qed.

Lemma windowed_signal_plain (st : Signal) (yd : dataset) (s : list R) :
  f st !! "y" = Some yd -> data yd = FloatArr s ->
  f st !! "workup/time/mask/binarate" = None ->
  f st !! "workup/time/window/cyclicize" = None ->
  windowed_signal st = (Ok s, st).
Proof.
  intros Hy Hs Hm Hw. unfold windowed_signal.
  rewrite (bind_get _ yd) by done. unfold float_data. rewrite Hs, bind_ret.
  rewrite bind_contains_false by done. rewrite bind_ret.
  by rewrite bind_contains_false by done.
Qed.

Lemma fft_run (st : Signal) (s : list R) (xd yd : dataset) (dt : R)
    (name unit : string) :
  windowed_signal st = (Ok s, st) ->
  f st !! "x" = Some xd -> attrs xd !! "step" = Some (AFloat dt) ->
  f st !! "y" = Some yd -> attrs yd !! "name" = Some (AStr name) ->
  attrs yd !! "unit" = Some (AStr unit) ->
  f st !! "workup/freq/freq" = None -> f st !! "workup/freq/FT" = None ->
  (2 <= length s)%nat ->
  exists f0 f1 : R,
    fft st
    = (Ok tt,
       {| f := <["workup/freq/FT" :=
                   stored (ComplexArr
                             (Cscal dt <$> fftshift (dft (-1) (RtoC <$> s))))
                          (FT_attrs name unit)]>
                 (<["workup/freq/freq" :=
                      stored (FloatArr ((fun v => v / 1000)
                                        <$> fftshift (fftfreq (length s) dt)))
                             (freq_attrs f0 f1)]> (f st));
          report := report st ++ [RepFft] |}).
Proof.
  intros Hs Hx Hstep Hy Hname Hunit Hfreq HFT Hlen.
  set (freq := fftshift (fftfreq (length s) dt)).
  assert (length freq = length s) as Hfl
    by (unfold freq; by rewrite fftshift_length, fftfreq_length).
  destruct (lookup_lt_is_Some_2 freq 0 ltac:(lia)) as [f0 Hf0].
  destruct (lookup_lt_is_Some_2 freq 1 ltac:(lia)) as [f1 Hf1].
  exists f0, f1. unfold fft.
  unfold bind at 1. rewrite Hs.
  rewrite (bind_get _ xd) by done. unfold float_attr. rewrite Hstep, bind_ret.
  assert (np_fft (RtoC <$> s) = Ok (dft (-1) (RtoC <$> s))) as ->.
  { destruct s; [simpl in Hlen; lia|done]. }
  rewrite bind_lift_Ok.
  rewrite bind_create_dataset by done.
  fold freq. unfold index at 1. rewrite Hf0, bind_ret.
  unfold index at 1. rewrite Hf1, bind_ret.
  rewrite (bind_update_attrs "workup/freq/freq").
  rewrite bind_create_dataset by (simpl; by rewrite lookup_insert_ne).
  rewrite (bind_get _ yd) by (simpl; by rewrite !lookup_insert_ne).
  unfold str_attr. rewrite Hname, bind_ret, Hunit, bind_ret.
  rewrite (bind_update_attrs "workup/freq/FT"). done.
Qed.

Lemma filtered_spectrum_unfiltered (st : Signal) (ftd xd : dataset)
    (FT : list C) (dt : R) :
  f st !! "workup/freq/FT" = Some ftd -> data ftd = ComplexArr FT ->
  f st !! "x" = Some xd -> attrs xd !! "step" = Some (AFloat dt) ->
  f st !! "workup/freq/filter/Hc" = None ->
  f st !! "workup/freq/filter/bp" = None ->
  filtered_spectrum st
  = (Ok ((fun z : C => (z.1 / dt, z.2 / dt)) <$> FT), st).
Proof.
  intros Hftd HFT Hx Hstep HHc Hbp. unfold filtered_spectrum.
  rewrite (bind_get _ ftd) by done. unfold complex_data. rewrite HFT, bind_ret.
  rewrite (bind_get _ xd) by done. unfold float_attr. rewrite Hstep, bind_ret.
  rewrite bind_contains_false by done. rewrite bind_ret.
  by rewrite bind_contains_false by done.
Qed.

Lemma ifft_run (st : Signal) (sp : list C) (yd : dataset) (unit : string) :
  filtered_spectrum st = (Ok sp, st) -> sp <> [] ->
  f st !! "workup/time/mask/rippleless" = None ->
  f st !! "y" = Some yd -> attrs yd !! "unit" = Some (AStr unit) ->
  f st !! "workup/time/z" = None -> f st !! "workup/time/p" = None ->
  f st !! "workup/time/a" = None ->
  exists st' : Signal,
    ifft st = (Ok tt, st')
    /\ data <$> (f st' !! "workup/time/z")
       = Some (ComplexArr
                 (Cscal (1 / INR (length sp)) <$> dft 1 (fftshift sp))).
Proof.
  intros Hsp Hne Hrip Hy Hunit Hz Hp Ha. unfold ifft.
  unfold bind at 1. rewrite Hsp.
  assert (np_ifft (fftshift sp)
          = Ok (Cscal (1 / INR (length sp)) <$> dft 1 (fftshift sp))) as ->.
  { unfold np_ifft. rewrite fftshift_length.
    destruct (fftshift sp) eqn:Hsh; [|done].
    apply (f_equal length) in Hsh. rewrite fftshift_length in Hsh.
    destruct sp; [done|simpl in Hsh; lia]. }
  rewrite bind_lift_Ok.
  rewrite bind_contains_false by done.
  rewrite bind_assoc, bind_contains, bind_ret. cbn [fst snd].
  rewrite bind_create_dataset by done.
  rewrite (bind_get _ yd) by (simpl; by rewrite lookup_insert_ne).
  unfold str_attr. rewrite Hunit, bind_ret.
  rewrite (bind_update_attrs "workup/time/z").
  rewrite bind_create_dataset by (simpl; by rewrite lookup_insert_ne).
  rewrite (bind_update_attrs "workup/time/p").
  rewrite bind_create_dataset by (simpl; by rewrite !lookup_insert_ne).
  rewrite (bind_update_attrs "workup/time/a").
  eexists. split; [reflexivity|]. cbn [f path].
  rewrite !lookup_insert_ne by done. by rewrite lookup_insert_eq.
Qed.

(** What the two transforms store one after the other when no filter and
    no trimming mask is defined: the inverse transform of the spectrum
    shifted twice. *)
Lemma fft_then_ifft (st : Signal) (s : list R) (xd yd : dataset) (dt : R)
    (name unit : string) :
  windowed_signal st = (Ok s, st) ->
  f st !! "x" = Some xd -> attrs xd !! "step" = Some (AFloat dt) -> dt <> 0 ->
  f st !! "y" = Some yd -> attrs yd !! "name" = Some (AStr name) ->
  attrs yd !! "unit" = Some (AStr unit) ->
  f st !! "workup/freq/freq" = None -> f st !! "workup/freq/FT" = None ->
  f st !! "workup/freq/filter/Hc" = None ->
  f st !! "workup/freq/filter/bp" = None ->
  f st !! "workup/time/mask/rippleless" = None ->
  f st !! "workup/time/z" = None -> f st !! "workup/time/p" = None ->
  f st !! "workup/time/a" = None ->
  (2 <= length s)%nat ->
  exists st1 st2 : Signal,
    fft st = (Ok tt, st1) /\ ifft st1 = (Ok tt, st2)
    /\ data <$> (f st2 !! "workup/time/z")
       = Some (ComplexArr
                 (Cscal (1 / INR (length s))
                  <$> dft 1 (fftshift (fftshift (dft (-1) (RtoC <$> s)))))).
Proof.
  intros Hs Hx Hstep Hdt Hy Hname Hunit Hfreq HFT HHc Hbp Hrip Hz Hp Ha Hlen.
  destruct (fft_run st s xd yd dt name unit) as (f0 & f1 & Hfft); try done.
  eexists. 
  set (X := dft (-1) (RtoC <$> s)) in *.
  assert (length X = length s) as HX
    by (unfold X; by rewrite dft_length, length_fmap).
  match type of Hfft with _ = (_, ?st1) =>
    destruct (ifft_run st1 (fftshift X) yd unit) as (st2 & Hifft & Hzdata)
  end.
  - rewrite (filtered_spectrum_unfiltered _
               (stored (ComplexArr (Cscal dt <$> fftshift X))
                  (FT_attrs name unit))
               xd (Cscal dt <$> fftshift X) dt);
      cbn [f].
    + by rewrite unscale_scale.
    + apply lookup_insert_eq.
    + done.
    + by rewrite !lookup_insert_ne.
    + done.
    + by rewrite !lookup_insert_ne.
    + by rewrite !lookup_insert_ne.
  - intros Hnil. apply (f_equal length) in Hnil.
    rewrite fftshift_length in Hnil. simpl in Hnil. lia.
  - cbn [f]. by rewrite !lookup_insert_ne.
  - cbn [f]. by rewrite !lookup_insert_ne.
  - done.
  - cbn [f]. by rewrite !lookup_insert_ne.
  - cbn [f]. by rewrite !lookup_insert_ne.
  - cbn [f]. by rewrite !lookup_insert_ne.
  - exists st2. split; [exact Hfft|]. split; [exact Hifft|].
    rewrite Hzdata. by rewrite fftshift_length, HX.
Qed.

(** On a windowed signal of even length the round trip is exact. *)
Lemma fft_ifft_round_trip_even (st : Signal) (s : list R) (xd yd : dataset)
    (dt : R) (name unit : string) :
  windowed_signal st = (Ok s, st) ->
  f st !! "x" = Some xd -> attrs xd !! "step" = Some (AFloat dt) -> dt <> 0 ->
  f st !! "y" = Some yd -> attrs yd !! "name" = Some (AStr name) ->
  attrs yd !! "unit" = Some (AStr unit) ->
  f st !! "workup/freq/freq" = None -> f st !! "workup/freq/FT" = None ->
  f st !! "workup/freq/filter/Hc" = None ->
  f st !! "workup/freq/filter/bp" = None ->
  f st !! "workup/time/mask/rippleless" = None ->
  f st !! "workup/time/z" = None -> f st !! "workup/time/p" = None ->
  f st !! "workup/time/a" = None ->
  (2 <= length s)%nat -> Nat.Even (length s) ->
  exists st1 st2 : Signal,
    fft st = (Ok tt, st1) /\ ifft st1 = (Ok tt, st2)
    /\ data <$> (f st2 !! "workup/time/z") = Some (ComplexArr (RtoC <$> s)).
Proof.
  intros Hs Hx Hstep Hdt Hy Hname Hunit Hfreq HFT HHc Hbp Hrip Hz Hp Ha Hlen
    Heven.
  destruct (fft_then_ifft st s xd yd dt name unit) as (st1 & st2 & H1 & H2 & H3);
    try done.
  exists st1, st2. split; [done|]. split; [done|]. rewrite H3.
  rewrite fftshift_involutive by (by rewrite dft_length, length_fmap).
  rewrite <- (length_fmap RtoC s), dft_inverse; [done|].
  destruct s; [simpl in Hlen; lia|done].
Qed.

Lemma fftfreq_two : fftshift (fftfreq 2 1) = [-0.5; 0].
Proof.
  unfold fftfreq, fftshift. simpl. csimpl.
  change (Z.of_nat 0 + - Z.of_nat 2 `div` 2)%Z with (-1)%Z.
  change (Z.of_nat 0 + 0)%Z with 0%Z.
  f_equal; [|f_equal]; lra.
Qed.

(** The round trip on two samples, an even length. *)
Lemma round_trip_on_two_samples :
  exists st1 st2 : Signal,
    fft (ingest two_samples 1) = (Ok tt, st1) /\ ifft st1 = (Ok tt, st2)
    /\ data <$> (f st2 !! "workup/time/z")
       = Some (ComplexArr (RtoC <$> two_samples)).
Proof.
  destruct (ingest_lookups two_samples 1) as (Hy & Hx & Hfresh).
  destruct (y_attrs_name_unit (FloatArr two_samples) "x" "nm")
    as [Hname Hunit].
  assert (windowed_signal (ingest two_samples 1)
          = (Ok two_samples, ingest two_samples 1)) as Hs
    by (apply (windowed_signal_plain _ _ two_samples Hy eq_refl);
        by apply Hfresh).
  apply (fft_ifft_round_trip_even (ingest two_samples 1) two_samples _ _ 1
           "x" "nm" Hs Hx (x_attrs_dt _ 1) ltac:(lra) Hy Hname Hunit);
    try (apply Hfresh; done).
  - simpl. lia.
  - by exists 1%nat.
Qed.

Lemma dft_three_ones :
  dft (-1) (RtoC <$> three_ones) = [(3, 0); C0; C0].
Proof.
  rewrite dft_unfold. change (length (RtoC <$> three_ones)) with 3%nat.
  change (seq 0 3) with [0; 1; 2]%nat at 2.
  rewrite !fmap_cons, fmap_nil.
  assert (forall k : nat,
            Csum ((fun j => Cmul (nth j (RtoC <$> three_ones) C0)
                              (cis (-1 * (2 * PI * INR j * INR k / INR 3))))
                  <$> seq 0 3)
            = Csum ((fun j => cis (INR j * (2 * PI * IZR (- Z.of_nat k) / INR 3)))
                    <$> seq 0 3)) as Hk.
  { intros k. apply Csum_fmap_seq_ext. intros j Hj.
    replace (nth j (RtoC <$> three_ones) C0) with C1
      by (destruct j as [|[|[|j]]]; [done|done|done|lia]).
    replace (INR j * (2 * PI * IZR (- Z.of_nat k) / INR 3))
      with (-1 * (2 * PI * INR j * INR k / INR 3)).
    2:{ rewrite opp_IZR, <- INR_IZR_INZ. simpl. field. }
    ring. }
  rewrite !Hk.
  rewrite (roots_of_unity_sum 3 (- Z.of_nat 1)) by lia.
  rewrite (roots_of_unity_sum 3 (- Z.of_nat 2)) by lia.
  change (- Z.of_nat 0)%Z with 0%Z.
  f_equal.
  rewrite (Csum_fmap_seq_ext _ (fun j => cis (INR j * 0)) 3).
  - rewrite roots_of_unity_sum_0. simpl. f_equal. lra.
  - intros j _. f_equal. simpl. field.
Qed.

Lemma idft_shifted_twice :
  Cscal (1 / INR 3) <$> dft 1 (fftshift (fftshift [(3, 0); C0; C0]))
  = (fun m => cis (INR m * (4 * PI / 3))) <$> seq 0 3.
Proof.
  change (fftshift (fftshift [(3, 0); C0; C0])) with [C0; C0; (3, 0)].
  unfold dft. change (length [C0; C0; (3, 0)]) with 3%nat.
  rewrite <- list_fmap_compose. apply list_fmap_ext. intros _ m _.
  cbn [imap compose]. unfold Csum. cbn [foldr].
  replace (1 * (2 * PI * INR (S (S 0)) * INR m / INR 3))
    with (INR m * (4 * PI / 3)) by (simpl; field).
  generalize (cis (1 * (2 * PI * INR 0 * INR m / INR 3))).
  generalize (cis (1 * (2 * PI * INR (S 0) * INR m / INR 3))).
  generalize (cis (INR m * (4 * PI / 3))).
  intros [a b] [c1 c2] [d1 d2]. unfold Cscal, Cadd, Cmul, C0. simpl.
  f_equal; field.
Qed.

(** C2.  The round trip fails on an odd length.  Three samples equal to
    one, with a time step of one second, are ingested and transformed
    forward and back with no mask, window or filter: both stages return
    normally, and what [ifft] stores is [1, exp(4*pi*i/3), exp(8*pi*i/3)],
    not the signal [1, 1, 1].  The inverse stage shifts the spectrum with
    [fftshift], which undoes the forward shift on even lengths only. *)
Theorem round_trip_fails_on_three_samples :
  exists st1 st2 : Signal,
    fft (ingest three_ones 1) = (Ok tt, st1) /\ ifft st1 = (Ok tt, st2)
    /\ data <$> (f st2 !! "workup/time/z")
       = Some (ComplexArr ((fun m => cis (INR m * (4 * PI / 3))) <$> seq 0 3))
    /\ (fun m => cis (INR m * (4 * PI / 3))) <$> seq 0 3
       <> RtoC <$> three_ones.
Proof.
  destruct (ingest_lookups three_ones 1) as (Hy & Hx & Hfresh).
  destruct (y_attrs_name_unit (FloatArr three_ones) "x" "nm") as [Hname Hunit].
  assert (windowed_signal (ingest three_ones 1)
          = (Ok three_ones, ingest three_ones 1)) as Hs
    by (apply (windowed_signal_plain _ _ three_ones Hy eq_refl);
        by apply Hfresh).
  destruct (fft_then_ifft (ingest three_ones 1) three_ones _ _ 1 "x" "nm"
              Hs Hx (x_attrs_dt _ 1) ltac:(lra) Hy Hname Hunit)
    as (st1 & st2 & H1 & H2 & H3);
    try (apply Hfresh; done).
  - simpl. lia.
  - exists st1, st2. split; [done|]. split; [done|].
    rewrite dft_three_ones in H3.
    split; [rewrite <- idft_shifted_twice; exact H3|].
    intros Heq. assert (cis (INR 1 * (4 * PI / 3)) = C1) as Hone.
    { apply (f_equal (fun l => nth 1 l C0)) in Heq. exact Heq. }
    pose proof PI_RGT_0.
    apply (cis_neq_1 (INR 1 * (4 * PI / 3))); [|done].
    simpl. rewrite Rabs_right by lra. lra.
Qed.

(** ** The sideband filter *)

Lemma Hc_value_cases (v : R) :
  (v < 0 -> Hc_value v = 0) /\ (v = 0 -> Hc_value v = 1)
  /\ (0 < v -> Hc_value v = 2).
Proof.
  unfold Hc_value, Rltb, Reqb, b2r.
  destruct (Rlt_dec v 0), (Req_dec_T v 0), (Rlt_dec 0 v);
    repeat split; intros; lra.
Qed.

Lemma freq_filter_Hilbert_complex_run (st : Signal) (fd : dataset)
    (freq : list R) :
  f st !! "workup/freq/freq" = Some fd -> data fd = FloatArr freq ->
  f st !! "workup/freq/filter/Hc" = None ->
  freq_filter_Hilbert_complex st
  = (Ok tt,
     {| f := <["workup/freq/filter/Hc" :=
                 stored (FloatArr (Hc_value <$> freq)) Hc_attrs]> (f st);
        report := report st ++ [RepHilbert] |}).
Proof.
  intros Hfd Hdata Hnone. unfold freq_filter_Hilbert_complex.
  rewrite (bind_get _ fd) by done. unfold float_data. rewrite Hdata, bind_ret.
  rewrite bind_create_dataset by done.
  by rewrite (bind_update_attrs "workup/freq/filter/Hc").
Qed.

(** C5.  [freq_filter_Hilbert_complex] stores a filter over the frequency
    axis whose value is 0 where the frequency is negative, 1 where it is
    zero and 2 where it is positive, and so takes no value besides 0, 1
    and 2. *)
Theorem sideband_filter_values (st : Signal) (fd : dataset) (freq : list R) :
  f st !! "workup/freq/freq" = Some fd -> data fd = FloatArr freq ->
  f st !! "workup/freq/filter/Hc" = None ->
  exists (filt : list R) (st' : Signal),
    freq_filter_Hilbert_complex st = (Ok tt, st')
    /\ data <$> (f st' !! "workup/freq/filter/Hc") = Some (FloatArr filt)
    /\ length filt = length freq
    /\ forall (i : nat) (v : R), freq !! i = Some v ->
         exists h, filt !! i = Some h
           /\ (v < 0 -> h = 0) /\ (v = 0 -> h = 1) /\ (0 < v -> h = 2)
           /\ (h = 0 \/ h = 1 \/ h = 2).
Proof.
  intros Hfd Hdata Hnone. exists (Hc_value <$> freq). eexists.
  unfold freq_filter_Hilbert_complex.
  rewrite (bind_get _ fd) by done. unfold float_data. rewrite Hdata, bind_ret.
  rewrite bind_create_dataset by done.
  rewrite (bind_update_attrs "workup/freq/filter/Hc").
  split; [reflexivity|]. simpl. rewrite lookup_insert_eq.
  split; [done|]. split; [by rewrite length_fmap|].
  intros i v Hv. exists (Hc_value v).
  rewrite list_lookup_fmap, Hv. split; [done|].
  destruct (Hc_value_cases v) as (Hneg & Hzero & Hpos).
  repeat split; try done.
  destruct (Rtotal_order v 0) as [H|[H|H]]; auto.
Qed.

Lemma transformed_file_lookups :
  exists fd : dataset,
    f transformed_file !! "workup/freq/freq" = Some fd
    /\ data fd = FloatArr [-0.0005; 0]
    /\ f transformed_file !! "workup/freq/filter/Hc" = None.
Proof.
  destruct (ingest_lookups two_samples 1) as (Hy & Hx & Hfresh).
  destruct (y_attrs_name_unit (FloatArr two_samples) "x" "nm")
    as [Hname Hunit].
  assert (windowed_signal (ingest two_samples 1)
          = (Ok two_samples, ingest two_samples 1)) as Hs
    by (apply (windowed_signal_plain _ _ two_samples Hy eq_refl);
        by apply Hfresh).
  destruct (fft_run (ingest two_samples 1) two_samples _ _ 1 "x" "nm"
              Hs Hx (x_attrs_dt _ 1) Hy Hname Hunit) as (f0 & f1 & Hfft);
    try (apply Hfresh; done); [simpl; lia|].
  unfold transformed_file, run_stages. cbn [foldl run_stage].
  rewrite Hfft. cbn [snd f].
  change (length two_samples) with 2%nat. rewrite fftfreq_two.
  assert ((fun v => v / 1000) <$> [-0.5; 0] = [-0.0005; 0]) as ->
    by (csimpl; f_equal; [lra|f_equal; lra]).
  eexists. split; [rewrite lookup_insert_ne by done; apply lookup_insert_eq|].
  split; [done|]. rewrite !lookup_insert_ne by done. by apply Hfresh.
Qed.

Lemma sideband_filter_values_witness :
  exists (filt : list R) (st' : Signal),
    freq_filter_Hilbert_complex transformed_file = (Ok tt, st')
    /\ data <$> (f st' !! "workup/freq/filter/Hc") = Some (FloatArr filt)
    /\ length filt = length [-0.0005; 0]
    /\ forall (i : nat) (v : R), [-0.0005; 0] !! i = Some v ->
         exists h, filt !! i = Some h
           /\ (v < 0 -> h = 0) /\ (v = 0 -> h = 1) /\ (0 < v -> h = 2)
           /\ (h = 0 \/ h = 1 \/ h = 2).
Proof.
  destruct transformed_file_lookups as (fd & Hfd & Hdata & Hnone).
  apply (sideband_filter_values transformed_file fd [-0.0005; 0]
           Hfd Hdata Hnone).
Defined.

(** ** The bandpass filter *)

Lemma bp_value_opp (order : Z) (x : R) : bp_value order (- x) = bp_value order x.
Proof. unfold bp_value. by rewrite Rabs_Ropp. Qed.

Lemma bp_filter_lookup (bw : R) (order : Z) (fc : R) (freq : list R) (i : nat) :
  bp_filter bw order fc freq !! i
  = (fun v => bp_value order ((v - fc) / bw)) <$> (freq !! i).
Proof.
  unfold bp_filter. rewrite !list_lookup_fmap. by destruct (freq !! i).
Qed.

(** C4.  For a bandwidth [bw > 0] and any integer order, even or odd, the
    bandpass filter that [freq_filter_bp] builds around the centre
    frequency [fc] takes the same value at the frequencies [fc + d] and
    [fc - d] of the axis; that value is [1/(1 + |d/bw|^order)] (for a
    nonnegative order). *)
Theorem bandpass_filter_symmetric (bw : R) (order : Z) (fc d : R)
    (freq : list R) (i j : nat) :
  0 < bw -> freq !! i = Some (fc + d) -> freq !! j = Some (fc - d) ->
  bp_filter bw order fc freq !! i = bp_filter bw order fc freq !! j
  /\ bp_filter bw order fc freq !! i = Some (bp_value order (d / bw))
  /\ ((0 <= order)%Z ->
        bp_value order (d / bw) = 1 / (1 + powerRZ (Rabs (d / bw)) order)).
Proof.
  intros Hbw Hi Hj. rewrite !bp_filter_lookup, Hi, Hj. simpl.
  replace ((fc + d - fc) / bw) with (d / bw) by (field; lra).
  replace ((fc - d - fc) / bw) with (- (d / bw)) by (field; lra).
  rewrite bp_value_opp. split; [done|]. split; [done|].
  intros Ho. unfold bp_value.
  rewrite bool_decide_eq_false_2 by lia. simpl.
  replace 1.0 with 1 by lra. done.
Qed.

Lemma bandpass_filter_symmetric_witness :
  bp_filter 1 3 2 [1; 2; 3] !! 2%nat = bp_filter 1 3 2 [1; 2; 3] !! 0%nat
  /\ bp_filter 1 3 2 [1; 2; 3] !! 2%nat = Some (bp_value 3 (1 / 1))
  /\ ((0 <= 3)%Z ->
        bp_value 3 (1 / 1) = 1 / (1 + powerRZ (Rabs (1 / 1)) 3)).
Proof.
  apply (bandpass_filter_symmetric 1 3 2 1 [1; 2; 3] 2 0).
  - lra.
  - simpl. f_equal. lra.
  - simpl. f_equal. lra.
Defined.

Lemma freq_filter_bp_run (bw : R) (order : Z) (st : Signal)
    (fd hd ftd : dataset) (freq Hc : list R) (FT : list C) :
  f st !! "workup/freq/freq" = Some fd -> data fd = FloatArr freq ->
  f st !! "workup/freq/filter/Hc" = Some hd -> data hd = FloatArr Hc ->
  f st !! "workup/freq/FT" = Some ftd -> data ftd = ComplexArr FT ->
  f st !! "workup/freq/filter/bp" = None ->
  length Hc = length freq -> length FT = length freq -> freq <> [] ->
  exists (i : nat) (fc : R),
    np_argmax (zip_with Rmult Hc (Cabs <$> FT)) = Ok i /\ freq !! i = Some fc
    /\ freq_filter_bp bw order st
       = (Ok tt,
          {| f := <["workup/freq/filter/bp" :=
                      stored (FloatArr (bp_filter bw order fc freq)) bp_attrs]>
                    (f st);
             report :=
               report st
               ++ [RepBandpass fc bw order
                     (np_divide
                        (Rsum (zip_with Rmult freq
                                 (FT_filt bw order fc freq Hc FT)))
                        (Rsum (FT_filt bw order fc freq Hc FT)))] |}).
Proof.
  intros Hfd Hfreq Hhd HHc Hftd HFT Hnone HlenH HlenF Hne.
  assert (length (zip_with Rmult Hc (Cabs <$> FT)) = length freq) as Hlen.
  { rewrite length_zip_with, length_fmap. lia. }
  destruct (np_argmax_lt (zip_with Rmult Hc (Cabs <$> FT))) as (i & Hi & Hilt).
  { destruct freq; [done|]. by destruct (zip_with Rmult Hc (Cabs <$> FT)). }
  destruct (lookup_lt_is_Some_2 freq i ltac:(lia)) as [fc Hfc].
  exists i, fc. split; [done|]. split; [done|].
  unfold freq_filter_bp.
  rewrite (bind_get _ fd) by done. unfold float_data at 1. rewrite Hfreq, bind_ret.
  rewrite (bind_get _ hd) by done. unfold float_data at 1. rewrite HHc, bind_ret.
  rewrite (bind_get _ ftd) by done. unfold complex_data at 1. rewrite HFT, bind_ret.
  rewrite np_multiply_same_length by (rewrite length_fmap; lia).
  rewrite bind_lift_Ok, Hi, bind_lift_Ok.
  unfold index at 1. rewrite Hfc, bind_ret.
  rewrite bind_create_dataset by done.
  rewrite (bind_update_attrs "workup/freq/filter/bp").
  assert (length (bp_filter bw order fc freq) = length freq) as Hbp.
  { unfold bp_filter. by rewrite !length_fmap. }
  rewrite np_multiply_same_length by lia. rewrite bind_lift_Ok.
  rewrite (bind_get _ ftd) by (simpl; by rewrite lookup_insert_ne).
  unfold complex_data. rewrite HFT, bind_ret.
  rewrite np_multiply_same_length
    by (rewrite length_zip_with, length_fmap; lia).
  rewrite bind_lift_Ok.
  rewrite np_multiply_same_length
    by (rewrite !length_zip_with, length_fmap; lia).
  rewrite bind_lift_Ok. done.
Qed.

(** C8 (as amended).  When the filter-weighted, sideband-weighted magnitude
    spectrum of the centroid estimate is entirely zero, [freq_filter_bp]
    does not fail: it stores the bandpass filter and reports, as the refined
    centre frequency, the [nan] that numpy gives for the quotient of the two
    zero sums. *)
Theorem zero_spectrum_centroid_is_nan (bw : R) (order : Z) (st : Signal)
    (fd hd ftd : dataset) (freq Hc : list R) (FT : list C) :
  f st !! "workup/freq/freq" = Some fd -> data fd = FloatArr freq ->
  f st !! "workup/freq/filter/Hc" = Some hd -> data hd = FloatArr Hc ->
  f st !! "workup/freq/FT" = Some ftd -> data ftd = ComplexArr FT ->
  f st !! "workup/freq/filter/bp" = None ->
  length Hc = length freq -> length FT = length freq -> freq <> [] ->
  (forall i fc, np_argmax (zip_with Rmult Hc (Cabs <$> FT)) = Ok i ->
     freq !! i = Some fc ->
     Forall (fun v => v = 0) (FT_filt bw order fc freq Hc FT)) ->
  exists (fc : R) (st' : Signal),
    freq_filter_bp bw order st = (Ok tt, st')
    /\ data <$> (f st' !! "workup/freq/filter/bp")
       = Some (FloatArr (bp_filter bw order fc freq))
    /\ report st' = report st ++ [RepBandpass fc bw order NaN].
Proof.
  intros Hfd Hfreq Hhd HHc Hftd HFT Hnone HlenH HlenF Hne Hzero.
  destruct (freq_filter_bp_run bw order st fd hd ftd freq Hc FT)
    as (i & fc & Hi & Hfc & Hrun); try done.
  specialize (Hzero i fc Hi Hfc).
  exists fc. eexists. split; [exact Hrun|]. simpl.
  split; [by rewrite lookup_insert_eq|].
  rewrite (Rsum_zeros (FT_filt bw order fc freq Hc FT)) by done.
  rewrite (Rsum_zeros (zip_with Rmult freq _))
    by (by apply zip_with_Rmult_zeros_r).
  unfold np_divide. destruct (Req_dec_T 0 0); [done|lra].
Qed.

Lemma Cabs_0 : Cabs (0, 0) = 0.
Proof. unfold Cabs. simpl. replace (0 * 0 + 0 * 0) with 0 by ring. apply sqrt_0. Qed.

Lemma FT_filt_zero_spectrum (bw : R) (order : Z) (fc : R) (freq Hc : list R)
    (FT : list C) :
  Forall (fun z => z = (0, 0)) FT ->
  Forall (fun v => v = 0) (FT_filt bw order fc freq Hc FT).
Proof.
  intros HFT. apply zip_with_Rmult_zeros_r.
  induction HFT as [|z FT -> _ IH]; csimpl; constructor; [apply Cabs_0|done].
Qed.

Lemma dft_two_zeros : fftshift (dft (-1) (RtoC <$> two_zeros)) = [C0; C0].
Proof.
  unfold dft, fftshift. simpl. unfold Csum, Cadd, Cmul, RtoC, C0. simpl.
  f_equal; [|f_equal]; f_equal; ring.
Qed.

(** What the file holds once two samples that are zero have been
    transformed and the sideband filter has been built. *)
Lemma zero_spectrum_file_lookups :
  exists fd hd ftd : dataset,
    f zero_spectrum_file !! "workup/freq/freq" = Some fd
    /\ data fd = FloatArr [-0.0005; 0]
    /\ f zero_spectrum_file !! "workup/freq/filter/Hc" = Some hd
    /\ data hd = FloatArr [0; 1]
    /\ f zero_spectrum_file !! "workup/freq/FT" = Some ftd
    /\ data ftd = ComplexArr [C0; C0]
    /\ f zero_spectrum_file !! "workup/freq/filter/bp" = None.
Proof.
  destruct (ingest_lookups two_zeros 1) as (Hy & Hx & Hfresh).
  destruct (y_attrs_name_unit (FloatArr two_zeros) "x" "nm") as [Hname Hunit].
  assert (windowed_signal (ingest two_zeros 1)
          = (Ok two_zeros, ingest two_zeros 1)) as Hs
    by (apply (windowed_signal_plain _ _ two_zeros Hy eq_refl);
        by apply Hfresh).
  destruct (fft_run (ingest two_zeros 1) two_zeros _ _ 1 "x" "nm"
              Hs Hx (x_attrs_dt _ 1) Hy Hname Hunit) as (f0 & f1 & Hfft);
    try (apply Hfresh; done); [simpl; lia|].
  unfold zero_spectrum_file, run_stages. cbn [foldl run_stage].
  rewrite Hfft. cbn [snd].
  change (length two_zeros) with 2%nat. rewrite fftfreq_two, dft_two_zeros.
  rewrite (freq_filter_Hilbert_complex_run _
             (stored (FloatArr ((fun v => v / 1000) <$> [-0.5; 0]))
                (freq_attrs f0 f1))
             ((fun v => v / 1000) <$> [-0.5; 0])).
  2:{ cbn [f]. rewrite lookup_insert_ne by done. apply lookup_insert_eq. }
  2:{ reflexivity. }
  2:{ cbn [f]. rewrite !lookup_insert_ne by done. by apply Hfresh. }
  assert ((fun v => v / 1000) <$> [-0.5; 0] = [-0.0005; 0]) as ->
    by (csimpl; f_equal; [lra|f_equal; lra]).
  assert (Hc_value <$> [-0.0005; 0] = [0; 1]) as ->.
  { csimpl.
    rewrite (proj1 (Hc_value_cases (-0.0005))) by lra.
    by rewrite (proj1 (proj2 (Hc_value_cases 0))). }
  assert (Cscal 1 <$> [C0; C0] = [C0; C0]) as ->
    by (csimpl; unfold Cscal, C0; simpl; repeat f_equal; ring).
  cbn [snd f]. eexists _, _, _.
  split; [rewrite !lookup_insert_ne by done; apply lookup_insert_eq|].
  split; [done|].
  split; [apply lookup_insert_eq|].
  split; [done|].
  split; [rewrite lookup_insert_ne by done; apply lookup_insert_eq|].
  split; [done|].
  rewrite !lookup_insert_ne by done. by apply Hfresh.
Qed.

Lemma zero_spectrum_centroid_is_nan_witness :
  exists (fc : R) (st' : Signal),
    freq_filter_bp 1 50 zero_spectrum_file = (Ok tt, st')
    /\ data <$> (f st' !! "workup/freq/filter/bp")
       = Some (FloatArr (bp_filter 1 50 fc [-0.0005; 0]))
    /\ report st' = report zero_spectrum_file ++ [RepBandpass fc 1 50 NaN].
Proof.
  destruct zero_spectrum_file_lookups
    as (fd & hd & ftd & Hfd & Hfreq & Hhd & HHc & Hftd & HFT & Hbp).
  apply (zero_spectrum_centroid_is_nan 1 50 zero_spectrum_file fd hd ftd
           [-0.0005; 0] [0; 1] [C0; C0] Hfd Hfreq Hhd HHc Hftd HFT Hbp
           eq_refl eq_refl).
  - discriminate.
  - intros i fc _ _. apply FT_filt_zero_spectrum. by repeat constructor.
Defined.

(** C8 as stated fails: two samples that are zero are ingested and
    transformed, and the sideband filter is built; the bandpass stage then
    returns normally, stores its filter, and reports [nan] as the refined
    centre frequency. *)
Lemma zero_spectrum_does_not_fail :
  exists st' : Signal,
    freq_filter_bp 1 50
      (run_stages [Fft; FreqFilterHilbertComplex] (ingest two_zeros 1))
    = (Ok tt, st')
    /\ is_Some (f st' !! "workup/freq/filter/bp")
    /\ report st'
       = report zero_spectrum_file ++ [RepBandpass (-0.0005) 1 50 NaN].
Proof.
  fold zero_spectrum_file.
  destruct zero_spectrum_file_lookups
    as (fd & hd & ftd & Hfd & Hfreq & Hhd & HHc & Hftd & HFT & Hbp).
  destruct (freq_filter_bp_run 1 50 zero_spectrum_file fd hd ftd
              [-0.0005; 0] [0; 1] [C0; C0] Hfd Hfreq Hhd HHc Hftd HFT Hbp
              eq_refl eq_refl ltac:(discriminate))
    as (i & fc & Hi & Hfc & Hrun).
  assert (i = 0%nat) as ->.
  { csimpl in Hi. change (Cabs C0) with (Cabs (0, 0)) in Hi.
    rewrite Cabs_0 in Hi.
    destruct (Rlt_dec (0 * 0) (1 * 0)) as [Hlt|_]; [lra|]. by injection Hi. }
  injection Hfc as <-.
  eexists. split; [exact Hrun|].
  split; [simpl; by rewrite lookup_insert_eq|]. cbn [report].
  rewrite (Rsum_zeros (FT_filt _ _ _ _ _ _))
    by (apply FT_filt_zero_spectrum; by repeat constructor).
  rewrite (Rsum_zeros (zip_with Rmult _ _))
    by (apply zip_with_Rmult_zeros_r, FT_filt_zero_spectrum;
        by repeat constructor).
  unfold np_divide. destruct (Req_dec_T 0 0); [done|lra].
Qed.

(** ** Earlier artifacts are left in place *)

Section Keeps.
Context (k : string) (d : dataset).

Lemma keeps_ret {A} (a : A) : keeps k d (ret a).
Proof. by intros st H. Qed.

Lemma keeps_raise {A} (e : exn) : keeps k d (@raise A e).
Proof. by intros st H. Qed.

Lemma keeps_lift {A} (r : result A) : keeps k d (lift r).
Proof. by intros st H. Qed.

Lemma keeps_get (name : string) : keeps k d (get name).
Proof. intros st H. unfold get. by destruct (f st !! path name). Qed.

Lemma keeps_contains (name : string) : keeps k d (contains name).
Proof. by intros st H. Qed.

Lemma keeps_append_report (line : report_line) :
  keeps k d (append_report line).
Proof. by intros st H. Qed.

Lemma keeps_bool_data (x : dataset) : keeps k d (bool_data x).
Proof. unfold bool_data. destruct (data x); by intros st H. Qed.

Lemma keeps_float_data (x : dataset) : keeps k d (float_data x).
Proof. unfold float_data. destruct (data x); by intros st H. Qed.

Lemma keeps_complex_data (x : dataset) : keeps k d (complex_data x).
Proof. unfold complex_data. destruct (data x); by intros st H. Qed.

Lemma keeps_float_attr (x : dataset) (key : string) :
  keeps k d (float_attr x key).
Proof.
  unfold float_attr. destruct (attrs x !! key) as [[]|]; by intros st H.
Qed.

Lemma keeps_str_attr (x : dataset) (key : string) :
  keeps k d (str_attr x key).
Proof.
  unfold str_attr. destruct (attrs x !! key) as [[]|]; by intros st H.
Qed.

Lemma keeps_index {A} (a : list A) (i : nat) : keeps k d (index a i).
Proof. unfold index. destruct (a !! i); by intros st H. Qed.

Lemma keeps_bind {A B} (m : M A) (h : A -> M B) :
  keeps k d m -> (forall a, keeps k d (h a)) -> keeps k d (bind m h).
Proof.
  intros Hm Hh st H. unfold bind. specialize (Hm st H).
  destruct (m st) as [[a|e] st']; simpl in *; [by apply Hh|done].
Qed.

(** A dataset is only ever created under a name that is not yet in the
    file, so what follows the creation runs with a name other than [k]. *)
Lemma keeps_create_then {B} (name : string) (a : ndarray) (h : unit -> M B) :
  (path name <> k -> keeps k d (h tt)) ->
  keeps k d (bind (create_dataset name a) h).
Proof.
  intros Hh st H. unfold bind, create_dataset.
  destruct (f st !! path name) as [d'|] eqn:Hname; [done|].
  assert (path name <> k) as Hne by (intros Heq; rewrite Heq in Hname; congruence).
  apply (Hh Hne). simpl. by rewrite lookup_insert_ne.
Qed.

Lemma keeps_update_attrs (name : string) (new : list (string * attr)) :
  path name <> k -> keeps k d (update_attrs name new).
Proof. intros Hne st H. simpl. by rewrite lookup_alter_ne. Qed.
End Keeps.

Create HintDb keeps.
#[local] Hint Resolve keeps_ret keeps_raise keeps_lift keeps_get keeps_contains
  keeps_append_report keeps_bool_data keeps_float_data keeps_complex_data
  keeps_float_attr keeps_str_attr keeps_index : keeps.

Ltac keeps_step :=
  match goal with
  | |- keeps _ _ (bind (create_dataset _ _) _) =>
    apply keeps_create_then; intros ?
  | |- keeps _ _ (bind _ _) => apply keeps_bind; [|intros ?]
  | |- keeps _ _ (update_attrs _ _) => apply keeps_update_attrs; assumption
  | |- keeps _ _ (if ?b then _ else _) => destruct b
  | |- keeps _ _ (match ?x with _ => _ end) => destruct x
  | |- keeps _ _ _ => solve [auto with keeps]
  end.

Lemma run_stage_keeps (k : string) (d : dataset) (op : stage) :
  keeps k d (run_stage op).
Proof.
  destruct op; simpl;
    unfold time_mask_binarate, time_window_cyclicize, window_target, fft,
      windowed_signal, freq_filter_Hilbert_complex, freq_filter_bp,
      time_mask_rippleless, ifft, filtered_spectrum;
    repeat keeps_step.
Qed.

Lemma run_stages_keeps (ops : list stage) (st : Signal) (k : string)
    (d : dataset) :
  f st !! k = Some d -> f (run_stages ops st) !! k = Some d.
Proof.
  revert st. induction ops as [|op ops IH]; intros st H; [done|].
  simpl. apply IH. by apply run_stage_keeps.
Qed.

Lemma binarate_saves_signal (mode : string) (sig : Freqdemod.Signal) :
  Freqdemod.s_original (Freqdemod.binarate mode sig).2 = Freqdemod.s sig.
Proof.
  unfold Freqdemod.binarate.
  destruct (nearest_power_of_2 _) as [n2|e]; [|done].
  destruct (Freqdemod.array_indices _ _ _) as [idx|]; [|done].
  by destruct (take_indices _ _).
Qed.

(** C9 (as amended).  In the HDF5-backed pipeline, after any sequence of
    stages, whether they return or raise, every dataset that the file held
    before is still there with the same content and attributes: in
    particular the ingested signal [y] and its time axis [x].  In the
    dictionary-backed class, [binarate] does replace the signal [s] by the
    samples it selects; what it keeps is a copy of the previous samples, in
    [s_original]. *)
Theorem stages_keep_earlier_artifacts :
  (forall (ops : list stage) (st : Signal) (k : string) (d : dataset),
     f st !! k = Some d -> f (run_stages ops st) !! k = Some d)
  /\ (forall (mode : string) (sig : Freqdemod.Signal),
        Freqdemod.s_original (Freqdemod.binarate mode sig).2
        = Freqdemod.s sig).
Proof. split; [apply run_stages_keeps|apply binarate_saves_signal]. Qed.

Lemma stages_keep_earlier_artifacts_witness :
  f (run_stages [TimeMaskBinarate "middle"; TimeWindowCyclicize 1; Fft;
                 FreqFilterHilbertComplex; FreqFilterBp 1 50;
                 TimeMaskRippleless 1; Ifft]
       (ingest five_samples 1)) !! "y"
  = Some (stored (FloatArr five_samples) (y_attrs "x" "nm"))
  /\ Freqdemod.s_original
       (Freqdemod.binarate "start" (Freqdemod.init five_samples "x" "nm" 1)).2
     = five_samples.
Proof.
  destruct stages_keep_earlier_artifacts as [Hfile Hdict]. split.
  - apply Hfile. apply (ingest_lookups five_samples 1).
  - apply (Hdict "start" (Freqdemod.init five_samples "x" "nm" 1)).
Defined.

(** C9 as stated fails on the dictionary-backed class: [binarate]
    overwrites the ingested samples, and a second call overwrites the saved
    copy as well, after which the ingested sequence is nowhere in the
    signal. *)
Lemma binarate_overwrites_signal :
  let sig0 := Freqdemod.init three_samples "x" "nm" 1 in
  let sig1 := (Freqdemod.binarate "start" sig0).2 in
  let sig2 := (Freqdemod.binarate "start" sig1).2 in
  Freqdemod.s sig0 = [1; 2; 3]
  /\ Freqdemod.s sig1 = [1; 2] /\ Freqdemod.s_original sig1 = [1; 2; 3]
  /\ Freqdemod.s sig2 = [1; 2] /\ Freqdemod.s_original sig2 = [1; 2].
Proof.
  intros sig0 sig1 sig2.
  assert (sig1 = {| Freqdemod.s := [1; 2]; Freqdemod.s_name := "x";
                    Freqdemod.s_unit := "nm"; Freqdemod.dt := 1;
                    Freqdemod.s_original := [1; 2; 3] |}) as H1.
  { unfold sig1, sig0.
    rewrite (binarate_ok "start" _ (0, 2)%Z); [done|simpl; lia|reflexivity]. }
  assert (sig2 = {| Freqdemod.s := [1; 2]; Freqdemod.s_name := "x";
                    Freqdemod.s_unit := "nm"; Freqdemod.dt := 1;
                    Freqdemod.s_original := [1; 2] |}) as H2.
  { unfold sig2. rewrite H1.
    rewrite (binarate_ok "start" _ (0, 2)%Z); [done|simpl; lia|reflexivity]. }
  rewrite H1, H2. done.
Qed.

(** ** The segmented linear fit on an exact ramp *)

Lemma rows_of_fmap_seq (f : nat -> R) (n k a : nat) :
  Demodulate.rows_of n k (f <$> seq a (k * n))
  = (fun j => f <$> seq (a + j * n) n) <$> seq 0 k.
Proof.
  revert a. induction k as [|k IH]; intros a; [done|].
  cbn [Demodulate.rows_of]. rewrite <- fmap_take, <- fmap_drop, take_seq, drop_seq.
  replace (n `min` (S k * n))%nat with n by lia.
  replace (S k * n - n)%nat with (k * n)%nat by lia.
  rewrite IH. cbn [seq fmap list_fmap]. f_equal.
  - do 2 f_equal. lia.
  - rewrite <- (fmap_S_seq 0 k), <- list_fmap_compose.
    apply list_fmap_ext. intros _ j _. simpl. do 2 f_equal. lia.
Qed.

Lemma reshape_fmap_seq (f : nat -> R) (k n : nat) :
  Demodulate.reshape (Z.of_nat k) (Z.of_nat n) (f <$> seq 0 (k * n))
  = Ok ((fun j => f <$> seq (j * n) n) <$> seq 0 k).
Proof.
  unfold Demodulate.reshape. rewrite length_fmap, length_seq.
  rewrite !bool_decide_eq_true_2 by lia. simpl.
  rewrite !Nat2Z.id. f_equal. apply (rows_of_fmap_seq f n k 0).
Qed.

Lemma reset_row_affine (a b : R) (s n : nat) :
  Demodulate.reset_row ((fun i => a + b * INR i) <$> seq s n)
  = (fun i => b * INR i) <$> seq 0 n.
Proof.
  unfold Demodulate.reset_row. destruct n as [|n]; [done|].
  replace (head ((fun i => a + b * INR i) <$> seq s (S n)))
    with (Some (a + b * INR s)) by done.
  replace (seq s (S n)) with (Nat.add s <$> seq 0 (S n))
    by (rewrite fmap_add_seq; f_equal; lia).
  rewrite <- !list_fmap_compose.
  apply list_fmap_ext. intros _ i _. simpl. rewrite plus_INR. lra.
Qed.

Lemma slope_of_ramp (dt c : R) (n : nat) :
  dt <> 0 -> (2 <= n)%nat ->
  Demodulate.slope_of dt (Z.of_nat n)
    ((fun i => dt * INR i) <$> seq 0 n)
    ((fun i => c * (dt * INR i)) <$> seq 0 n)
  = Finite c.
Proof.
  intros Hdt Hn. unfold Demodulate.slope_of.
  rewrite zip_with_fmap_same, Rsum_linear, Rsum_quadratic.
  unfold Demodulate.SX, Demodulate.SXX. rewrite <- INR_IZR_INZ.
  assert (2 <= INR n) as Hn' by (apply (le_INR 2) in Hn; simpl in Hn; lra).
  set (x := INR n) in *.
  set (D := dt * dt * (x * x * (x - 1) * (x + 1)) / 12).
  assert (x * (dt ^ 2 * (1 / 6.0) * x * (x - 1) * (2 * x - 1))
          - dt * 0.50 * (x - 1) * x * (dt * 0.50 * (x - 1) * x) = D) as ->.
  { unfold D. replace 0.50 with (/ 2) by lra. replace 6.0 with 6 by lra. field. }
  assert (x * (c * dt * dt * (x * (x - 1) * (2 * x - 1) / 6))
          - dt * 0.50 * (x - 1) * x * (c * dt * (x * (x - 1) / 2)) = c * D) as ->.
  { unfold D. replace 0.50 with (/ 2) by lra. field. }
  assert (0 < D) as HD.
  { unfold D. assert (0 < dt * dt) by nra.
    assert (0 < x * x * (x - 1) * (x + 1)) by (repeat apply Rmult_lt_0_compat; lra).
    nra. }
  unfold np_divide. destruct (Req_dec_T D 0) as [Hz|Hnz]; [lra|].
  f_equal. field. lra.
Qed.

Lemma fit_linear_ramp (dt target t0 c : R) (N n : nat) :
  dt <> 0 -> py_round (target / dt) = Z.of_nat n -> (2 <= n)%nat ->
  let t := (fun k => t0 + dt * INR k) <$> seq 0 N in
  let theta := (fun x => c * x) <$> t in
  Demodulate.fit dt t theta target
  = Ok {| Demodulate.fit_freq := replicate (N / n) (Finite c);
          Demodulate.fit_time := (fun j => t0 + dt * INR (j * n)) <$> seq 0 (N / n) |}.
Proof.
  intros Hdt Hn Hn2 t theta. unfold Demodulate.fit. rewrite Hn.
  rewrite bool_decide_eq_false_2 by lia.
  assert (length theta = N) as -> by (unfold theta, t; by rewrite !length_fmap, length_seq).
  rewrite <- Nat2Z.inj_div, <- Nat2Z.inj_mul, Nat2Z.id.
  set (k := (N / n)%nat).
  assert (n * k <= N)%nat as Hle by (apply Nat.Div0.mul_div_le).
  assert (take (n * k) t = (fun i => t0 + dt * INR i) <$> seq 0 (k * n)) as ->.
  { unfold t. rewrite <- fmap_take, take_seq. do 2 f_equal. lia. }
  assert (take (n * k) theta
          = (fun i => c * t0 + c * dt * INR i) <$> seq 0 (k * n)) as ->.
  { unfold theta, t. rewrite <- !fmap_take, take_seq, <- list_fmap_compose.
    replace ((n * k) `min` N)%nat with (k * n)%nat by lia.
    apply list_fmap_ext. intros _ i _. simpl. lra. }
  rewrite !reshape_fmap_seq. f_equal. f_equal.
  - rewrite <- !list_fmap_compose, zip_with_fmap_same.
    apply list_eq. intros i. rewrite list_lookup_fmap.
    destruct (decide (i < k)%nat) as [Hi|Hi].
    + rewrite lookup_seq_lt, lookup_replicate_2 by done. simpl. f_equal.
      rewrite !reset_row_affine.
      rewrite <- (slope_of_ramp dt c n Hdt Hn2). f_equal.
      apply list_fmap_ext. intros _ j _. lra.
    + rewrite lookup_seq_ge by lia. simpl. symmetry.
      apply lookup_replicate_None. lia.
  - rewrite <- list_fmap_compose. apply list_fmap_ext. intros _ j _. simpl.
    destruct n as [|n]; [lia|]. simpl. done.
Qed.

(** C1 (as amended).  On an exact linear ramp [theta(t) = 2*pi*f0*t] sampled
    at equally spaced times [t0 + dt*k], with a chunk of [n >= 2] samples,
    the segmented fit returns, for every one of the [N / n] chunks, the slope
    of the ramp, which is [2*pi*f0]; the chunk size plays no role. *)
Theorem fit_recovers_ramp_slope (dt target t0 f0 : R) (N n : nat) :
  dt <> 0 -> py_round (target / dt) = Z.of_nat n -> (2 <= n)%nat ->
  let t := (fun k => t0 + dt * INR k) <$> seq 0 N in
  let theta := (fun x => 2 * PI * f0 * x) <$> t in
  Demodulate.fit dt t theta target
  = Ok {| Demodulate.fit_freq := replicate (N / n) (Finite (2 * PI * f0));
          Demodulate.fit_time := (fun j => t0 + dt * INR (j * n)) <$> seq 0 (N / n) |}.
Proof.
  intros Hdt Hn Hn2. exact (fit_linear_ramp dt target t0 (2 * PI * f0) N n Hdt Hn Hn2).
Qed.

Lemma fit_recovers_ramp_slope_witness :
  Demodulate.fit 1 ((fun k => 0 + 1 * INR k) <$> seq 0 7)
    ((fun x => 2 * PI * 5 * x) <$> ((fun k => 0 + 1 * INR k) <$> seq 0 7)) 3
  = Ok {| Demodulate.fit_freq := replicate (7 / 3) (Finite (2 * PI * 5));
          Demodulate.fit_time := (fun j => 0 + 1 * INR (j * 3)) <$> seq 0 (7 / 3) |}.
Proof.
  apply (fit_recovers_ramp_slope 1 3 0 5 7 3).
  - lra.
  - replace (3 / 1) with (IZR 3) by lra. apply py_round_IZR.
  - lia.
Defined.

(** C1 as stated fails: the ramp [2*pi*t] (so [f0 = 1]) sampled at
    [t = 0, 1] and fitted as one chunk of two samples gives the slope
    [2*pi], not [1]. *)
Lemma fit_ramp_slope_is_not_f0 :
  Demodulate.fit 1 [0; 1] [2 * PI * 1 * 0; 2 * PI * 1 * 1] 2
  = Ok {| Demodulate.fit_freq := [Finite (2 * PI * 1)]; Demodulate.fit_time := [0] |}
  /\ Finite (2 * PI * 1) <> Finite 1.
Proof.
  split.
  - assert ([0; 1] = (fun k => 0 + 1 * INR k) <$> seq 0 2) as Ht
      by (simpl; repeat f_equal; lra).
    assert ([2 * PI * 1 * 0; 2 * PI * 1 * 1]
            = (fun x => 2 * PI * 1 * x) <$> [0; 1]) as -> by done.
    rewrite Ht. rewrite (fit_linear_ramp 1 2 0 (2 * PI * 1) 2 2); [|lra| |lia].
    + simpl. repeat f_equal. lra.
    + replace (2 / 1) with (IZR 2) by lra. apply py_round_IZR.
  - intros [=H]. pose proof PI2_3_2. lra.
Qed.

(** ** The segmented linear fit with chunks that are too small *)

Lemma fit_no_sample_per_chunk (dt target : R) (t theta : list R) :
  py_round (target / dt) = 0%Z ->
  Demodulate.fit dt t theta target = Raised ZeroDivisionError.
Proof. intros Hn. unfold Demodulate.fit. by rewrite Hn. Qed.

Lemma rows_of_singletons (l : list R) :
  Demodulate.rows_of 1 (length l) l = (fun x => [x]) <$> l.
Proof. induction l as [|x l IH]; [done|]. simpl. rewrite drop_0. by f_equal. Qed.

Lemma slope_of_single_sample (dt x y : R) :
  Demodulate.slope_of dt 1 (Demodulate.reset_row [x]) (Demodulate.reset_row [y])
  = NaN.
Proof.
  unfold Demodulate.slope_of, Demodulate.reset_row, Demodulate.SX,
    Demodulate.SXX, Rsum, np_divide. simpl.
  destruct (Req_dec_T _ 0) as [_|Hd].
  - destruct (Req_dec_T _ 0) as [_|Hn]; [done|]. exfalso. apply Hn. ring.
  - exfalso. apply Hd. ring.
Qed.

Lemma fit_one_sample_per_chunk (dt target : R) (t theta : list R) :
  py_round (target / dt) = 1%Z -> (length theta <= length t)%nat ->
  Demodulate.fit dt t theta target
  = Ok {| Demodulate.fit_freq := replicate (length theta) NaN;
          Demodulate.fit_time := take (length theta) t |}.
Proof.
  intros Hn Hlen. unfold Demodulate.fit. rewrite Hn.
  rewrite bool_decide_eq_false_2 by lia.
  rewrite Z.div_1_r, Z.mul_1_l, Nat2Z.id, firstn_all.
  unfold Demodulate.reshape.
  rewrite !bool_decide_eq_true_2 by (rewrite ?length_take; lia).
  cbn [andb]. change (Z.to_nat 1) with 1%nat.
  rewrite Nat2Z.id, rows_of_singletons.
  replace (Demodulate.rows_of 1 (length theta) (take (length theta) t))
    with ((fun x => [x]) <$> take (length theta) t).
  2:{ rewrite <- rows_of_singletons. f_equal. rewrite length_take. lia. }
  f_equal. f_equal.
  - rewrite <- !list_fmap_compose.
    assert (length (take (length theta) t) = length theta) as Hl
      by (rewrite length_take; lia).
    revert Hl. generalize (take (length theta) t). clear.
    induction theta as [|y theta IH]; intros [|x l] Hl; try done.
    csimpl. f_equal; [apply slope_of_single_sample|]. apply IH. by injection Hl.
  - rewrite <- list_fmap_compose. apply list_fmap_id.
Qed.

Lemma fit_no_whole_chunk (dt target : R) (t theta : list R) :
  (Z.of_nat (length theta) < py_round (target / dt))%Z ->
  Demodulate.fit dt t theta target
  = Ok {| Demodulate.fit_freq := []; Demodulate.fit_time := [] |}.
Proof.
  intros Hn. unfold Demodulate.fit.
  rewrite bool_decide_eq_false_2 by lia.
  rewrite Z.div_small by lia. rewrite Z.mul_0_r. simpl.
  unfold Demodulate.reshape. simpl.
  rewrite !bool_decide_eq_true_2 by lia. done.
Qed.

(** C6 (as amended).  With no sample per chunk ([n_per_chunk = 0]) the fit
    raises the division by zero of the chunk count before anything is
    fitted.  With one sample per chunk it does not fail: it returns [nan]
    as the slope of every chunk.  With more samples per chunk than the
    phase has, so that there is no whole chunk, it does not fail either and
    returns empty arrays. *)
Theorem fit_with_small_chunks (dt target : R) (t theta : list R) :
  (py_round (target / dt) = 0%Z ->
     Demodulate.fit dt t theta target = Raised ZeroDivisionError)
  /\ (py_round (target / dt) = 1%Z -> (length theta <= length t)%nat ->
        Demodulate.fit dt t theta target
        = Ok {| Demodulate.fit_freq := replicate (length theta) NaN;
                Demodulate.fit_time := take (length theta) t |})
  /\ ((Z.of_nat (length theta) < py_round (target / dt))%Z ->
        Demodulate.fit dt t theta target
        = Ok {| Demodulate.fit_freq := []; Demodulate.fit_time := [] |}).
Proof.
  split; [apply fit_no_sample_per_chunk|].
  split; [apply fit_one_sample_per_chunk|apply fit_no_whole_chunk].
Qed.

Lemma fit_with_small_chunks_witness :
  Demodulate.fit 1 three_samples three_samples 0.2 = Raised ZeroDivisionError
  /\ Demodulate.fit 1 three_samples three_samples 1
     = Ok {| Demodulate.fit_freq := replicate (length three_samples) NaN;
             Demodulate.fit_time := take (length three_samples) three_samples |}
  /\ Demodulate.fit 1 three_samples three_samples 7
     = Ok {| Demodulate.fit_freq := []; Demodulate.fit_time := [] |}.
Proof.
  split; [|split].
  - apply (fit_with_small_chunks 1 0.2 three_samples three_samples).
    apply py_round_small.
  - apply (fit_with_small_chunks 1 1 three_samples three_samples).
    + apply (py_round_nat 1).
    + simpl. lia.
  - apply (fit_with_small_chunks 1 7 three_samples three_samples).
    rewrite (py_round_nat 7). simpl. lia.
Defined.

(** C6 as stated fails: with a chunk duration equal to the time step, so
    that each chunk has one sample, the fit of three samples returns
    normally, with [nan] for each of the three slopes. *)
Lemma fit_of_single_samples_returns_nan :
  Demodulate.fit 1 three_samples [0; 5; 7] 1
  = Ok {| Demodulate.fit_freq := [NaN; NaN; NaN];
          Demodulate.fit_time := three_samples |}.
Proof.
  rewrite fit_one_sample_per_chunk; [done| apply (py_round_nat 1) | simpl; lia].
Qed.

(** ** Engineering notation *)

Lemma ln_10_pos : 0 < ln 10.
Proof. rewrite <- ln_1. apply ln_increasing; lra. Qed.

(** The power of ten below a positive number. *)
Lemma floor_log10_bounds (x : R) :
  0 < x ->
  powerRZ 10 (Int_part (Util.log10 x)) <= x
  < powerRZ 10 (Int_part (Util.log10 x) + 1).
Proof.
  intros Hx. pose proof ln_10_pos as H10.
  destruct (base_Int_part (Util.log10 x)) as [Hlo Hhi].
  set (b := Int_part (Util.log10 x)) in *.
  rewrite !powerRZ_Rpower by lra. unfold Rpower.
  assert (Util.log10 x * ln 10 = ln x) as Hl
    by (unfold Util.log10; field; lra).
  rewrite plus_IZR.
  assert (exp (IZR b * ln 10) <= exp (ln x)) as H1.
  { destruct (Rle_lt_or_eq_dec _ _ Hlo) as [Hlt|Heq].
    - left. apply exp_increasing. nra.
    - right. f_equal. rewrite Heq. exact Hl. }
  assert (exp (ln x) < exp ((IZR b + 1) * ln 10)) as H2
    by (apply exp_increasing; nra).
  rewrite exp_ln in H1, H2 by done. done.
Qed.

Lemma powerise10_pos (x : R) :
  0 < x ->
  Util.powerise10 x
  = (x / powerRZ 10 (Int_part (Util.log10 x)), Int_part (Util.log10 x)).
Proof.
  intros Hx. unfold Util.powerise10.
  destruct (Req_dec_T x 0) as [?|_]; [lra|].
  destruct (Rlt_dec x 0) as [?|_]; [lra|]. f_equal. lra.
Qed.

Lemma powerise10_neg (x : R) :
  x < 0 ->
  Util.powerise10 x
  = (- (- x / powerRZ 10 (Int_part (Util.log10 (- x)))),
     Int_part (Util.log10 (- x))).
Proof.
  intros Hx. unfold Util.powerise10.
  destruct (Req_dec_T x 0) as [?|_]; [lra|].
  destruct (Rlt_dec x 0) as [_|?]; [|lra]. f_equal. lra.
Qed.

Lemma mantissa_bounds (x : R) (b : Z) :
  0 < x -> powerRZ 10 b <= x < powerRZ 10 (b + 1) ->
  x = x / powerRZ 10 b * powerRZ 10 b /\ 1 <= x / powerRZ 10 b < 10.
Proof.
  intros Hx [Hlo Hhi].
  pose proof (powerRZ_lt 10 b ltac:(lra)) as Hp.
  rewrite powerRZ_add in Hhi by lra. change (powerRZ 10 1) with (10 * 1) in Hhi.
  split; [field; lra|]. split.
  - apply (Rmult_le_reg_r (powerRZ 10 b)); [done|].
    replace (x / powerRZ 10 b * powerRZ 10 b) with x by (field; lra). lra.
  - apply (Rmult_lt_reg_r (powerRZ 10 b)); [done|].
    replace (x / powerRZ 10 b * powerRZ 10 b) with x by (field; lra). lra.
Qed.

(** [powerise10] splits a number into a mantissa and a power of ten: the
    product gives the number back, and the mantissa of a number other than
    zero has one digit before the point, with the sign of the number. *)
Theorem powerise10_mantissa_exponent (x : R) :
  let a := (Util.powerise10 x).1 in
  let b := (Util.powerise10 x).2 in
  x = a * powerRZ 10 b
  /\ (x = 0 -> a = 0 /\ b = 0%Z)
  /\ (0 < x -> 1 <= a < 10)
  /\ (x < 0 -> -10 < a <= -1).
Proof.
  intros a b. subst a b.
  destruct (Rtotal_order x 0) as [Hneg|[Hzero|Hpos]].
  - rewrite powerise10_neg by done. cbn [fst snd].
    destruct (mantissa_bounds (- x) _ ltac:(lra)
                (floor_log10_bounds (- x) ltac:(lra))) as [Heq Hb].
    split; [lra|]. split; [lra|]. split; lra.
  - subst x. unfold Util.powerise10.
    destruct (Req_dec_T 0 0) as [_|?]; [|lra]. cbn [fst snd]. simpl.
    split; [lra|]. split; [done|]. split; lra.
  - rewrite powerise10_pos by done. cbn [fst snd].
    destruct (mantissa_bounds x _ Hpos (floor_log10_bounds x Hpos)) as [Heq Hb].
    split; [lra|]. split; [lra|]. split; lra.
Qed.

Lemma powerise10_mantissa_exponent_witness :
  2 = (Util.powerise10 2).1 * powerRZ 10 (Util.powerise10 2).2
  /\ 1 <= (Util.powerise10 2).1 < 10.
Proof.
  destruct (powerise10_mantissa_exponent 2) as (Heq & _ & Hpos & _).
  split; [exact Heq|]. apply Hpos. lra.
Defined.

(** [eng] writes a number either as it is, when it is zero or its size lies
    between a hundredth and a thousand, or with a mantissa of one to three
    digits before the point and an exponent that is a multiple of three; the
    mantissa times the power of ten is the number. *)
Theorem eng_mantissa_and_exponent (x : R) :
  match Util.eng x with
  | Util.Plain y => y = x /\ (x = 0 \/ / 100 <= Rabs x < 1000)
  | Util.Engineering a b =>
    x = a * powerRZ 10 b /\ 1 <= Rabs a < 1000
    /\ (b `mod` 3 = 0)%Z /\ (b <= -3 \/ 3 <= b)%Z
    /\ ~ (/ 100 <= Rabs x < 1000)
  end.
Proof.
  destruct (powerise10_mantissa_exponent x) as (Hx & Hzero & Hpos & Hneg).
  unfold Util.eng. destruct (Util.powerise10 x) as [a b]. cbn [fst snd] in *.
  assert (x <> 0 -> 1 <= Rabs a < 10) as Ha.
  { intros Hne. destruct (Rtotal_order x 0) as [H|[H|H]]; [|done|].
    - rewrite Rabs_left by (specialize (Hneg H); lra).
      specialize (Hneg H). lra.
    - rewrite Rabs_right by (specialize (Hpos H); lra). by apply Hpos. }
  assert (Rabs x = Rabs a * powerRZ 10 b) as Habs.
  { rewrite Hx at 1. rewrite Rabs_mult. f_equal.
    apply Rabs_right. left. apply powerRZ_lt. lra. }
  pose proof (powerRZ_lt 10 b ltac:(lra)) as Hpb.
  case_bool_decide as Hb.
  - split; [done|].
    destruct (Req_dec x 0) as [?|Hne]; [by left|right].
    specialize (Ha Hne). rewrite Habs.
    assert (b = -2 \/ b = -1 \/ b = 0 \/ b = 1 \/ b = 2)%Z
      as [->|[->|[->|[->| ->]]]] by lia; simpl in *; nra.
  - assert (x <> 0) as Hne.
    { intros H0. destruct (Hzero H0) as [_ ->]. lia. }
    specialize (Ha Hne).
    pose proof (Z.div_mod b 3 ltac:(lia)) as Hdiv.
    pose proof (Z.mod_pos_bound b 3 ltac:(lia)) as Hmod.
    set (m := (b `mod` 3)%Z) in *.
    assert (IZR (10 ^ m) = powerRZ 10 m /\ 1 <= powerRZ 10 m <= 100) as [Hm Hmb].
    { assert (m = 0 \/ m = 1 \/ m = 2)%Z as [->|[->| ->]] by lia;
        simpl; split; lra. }
    split.
    { rewrite Hm, Rmult_assoc, <- powerRZ_add by lra.
      by replace (m + (b - m))%Z with b by lia. }
    split.
    { rewrite Hm, Rabs_mult, (Rabs_right (powerRZ 10 m)) by lra. nra. }
    split.
    { replace (b - m)%Z with (b `div` 3 * 3)%Z by lia. apply Z_mod_mult. }
    split; [lia|].
    rewrite Habs. intros [Hlo Hhi].
    destruct (Z_le_gt_dec 3 b) as [Hge|Hlt].
    + assert (powerRZ 10 3 <= powerRZ 10 b) as Hmono.
      { replace b with (3 + (b - 3))%Z by lia. rewrite powerRZ_add by lra.
        assert (1 <= powerRZ 10 (b - 3)).
        { rewrite <- (Z2Nat.id (b - 3)) by lia. rewrite <- pow_powerRZ.
          apply pow_R1_Rle. lra. }
        pose proof (powerRZ_lt 10 3 ltac:(lra)). nra. }
      simpl in Hmono. nra.
    + assert (powerRZ 10 b <= powerRZ 10 (-3)) as Hmono.
      { replace (-3)%Z with (b + (-3 - b))%Z by lia. rewrite powerRZ_add by lra.
        assert (1 <= powerRZ 10 (-3 - b)).
        { rewrite <- (Z2Nat.id (-3 - b)) by lia. rewrite <- pow_powerRZ.
          apply pow_R1_Rle. lra. }
        nra. }
      simpl in Hmono. nra.
Qed.

(** ** The dictionary-backed signal: its report and repeated truncation *)

Lemma foldl_Rmin_spec (a : list R) (x : R) :
  foldl Rmin x a ∈ x :: a /\ Forall (fun v => foldl Rmin x a <= v) (x :: a).
Proof.
  revert x. induction a as [|y a IH]; intros x.
  - simpl. split; [apply elem_of_cons; by left|]. apply Forall_cons. split; [lra|constructor].
  - simpl. destruct (IH (Rmin x y)) as [Hin Hall].
    apply Forall_cons in Hall as [Hm Hall].
    pose proof (Rmin_l x y). pose proof (Rmin_r x y).
    split.
    + apply elem_of_cons in Hin as [->|Hin].
      * unfold Rmin. destruct (Rle_dec x y); apply elem_of_cons; [by left|].
        right. apply elem_of_cons. by left.
      * apply elem_of_cons. right. apply elem_of_cons. by right.
    + apply Forall_cons. split; [lra|]. apply Forall_cons. split; [lra|done].
Qed.

Lemma foldl_Rmax_spec (a : list R) (x : R) :
  foldl Rmax x a ∈ x :: a /\ Forall (fun v => v <= foldl Rmax x a) (x :: a).
Proof.
  revert x. induction a as [|y a IH]; intros x.
  - simpl. split; [apply elem_of_cons; by left|]. apply Forall_cons. split; [lra|constructor].
  - simpl. destruct (IH (Rmax x y)) as [Hin Hall].
    apply Forall_cons in Hall as [Hm Hall].
    pose proof (Rmax_l x y). pose proof (Rmax_r x y).
    split.
    + apply elem_of_cons in Hin as [->|Hin].
      * unfold Rmax. destruct (Rle_dec x y); apply elem_of_cons; [|by left].
        right. apply elem_of_cons. by left.
      * apply elem_of_cons. right. apply elem_of_cons. by right.
    + apply Forall_cons. split; [lra|]. apply Forall_cons. split; [lra|done].
Qed.

Lemma Rsum_squares_bound (a : list R) (M : R) :
  Forall (fun v => Rabs v <= M) a ->
  0 <= Rsum ((fun v => v ^ 2) <$> a) <= INR (length a) * (M * M).
Proof.
  induction 1 as [|v a Hv _ IH].
  - simpl. lra.
  - rewrite fmap_cons. cbn [Rsum foldr]. fold (Rsum ((fun v => v ^ 2) <$> a)).
    change (length (v :: a)) with (S (length a)). rewrite S_INR.
    assert (0 <= v ^ 2 <= M * M); [|lra].
    pose proof (Rabs_pos v). replace (v ^ 2) with (Rabs v * Rabs v).
    + nra.
    + unfold Rabs. destruct (Rcase_abs v); simpl; ring.
Qed.

(** The report of the dictionary-backed signal cannot be made for a signal
    without samples: the minimum of an empty array raises.  For a signal
    with samples it gives the name, the unit, the number of samples and the
    time step in microseconds, and, in engineering notation, the least
    sample, the greatest sample and the root of the mean of the squares,
    which is at most the greater of the sizes of the two. *)
Theorem repr_statistics (sig : Freqdemod.Signal) :
  (Freqdemod.s sig = [] -> Freqdemod.repr sig = Raised ValueError)
  /\ (Freqdemod.s sig <> [] ->
      exists lo hi rms : R,
        Freqdemod.repr sig
        = Ok {| Freqdemod.repr_signal_name := Freqdemod.s_name sig;
                Freqdemod.repr_signal_unit := Freqdemod.s_unit sig;
                Freqdemod.repr_signal_length := length (Freqdemod.s sig);
                Freqdemod.repr_time_step_us := Freqdemod.dt sig * 1E6;
                Freqdemod.repr_rms := Util.eng rms;
                Freqdemod.repr_max := Util.eng hi;
                Freqdemod.repr_min := Util.eng lo |}
        /\ lo ∈ Freqdemod.s sig /\ hi ∈ Freqdemod.s sig
        /\ Forall (fun v => lo <= v <= hi) (Freqdemod.s sig)
        /\ rms * rms * INR (length (Freqdemod.s sig))
           = Rsum ((fun v => v ^ 2) <$> Freqdemod.s sig)
        /\ 0 <= rms <= Rmax (Rabs lo) (Rabs hi)).
Proof.
  unfold Freqdemod.repr. split; [by intros ->|].
  destruct (Freqdemod.s sig) as [|x a] eqn:Hs; [done|]. intros _.
  cbn [np_min np_max].
  destruct (foldl_Rmin_spec a x) as [Hlo_in Hlo].
  destruct (foldl_Rmax_spec a x) as [Hhi_in Hhi].
  set (lo := foldl Rmin x a) in *. set (hi := foldl Rmax x a) in *.
  assert (0 < INR (length (x :: a))) as Hn by (apply lt_0_INR; simpl; lia).
  unfold np_mean, np_divide. rewrite length_fmap.
  destruct (Req_dec_T _ 0) as [?|_]; [lra|]. cbn [np_sqrt Util.eng_np].
  assert (Forall (fun v => Rabs v <= Rmax (Rabs lo) (Rabs hi)) (x :: a)) as HM.
  { apply Forall_forall. intros v Hv.
    pose proof (proj1 (Forall_forall _ _) Hlo v Hv) as H1.
    pose proof (proj1 (Forall_forall _ _) Hhi v Hv) as H2. simpl in H1, H2.
    pose proof (Rmax_l (Rabs lo) (Rabs hi)).
    pose proof (Rmax_r (Rabs lo) (Rabs hi)).
    unfold Rabs in *.
    destruct (Rcase_abs v), (Rcase_abs lo), (Rcase_abs hi); lra. }
  destruct (Rsum_squares_bound _ _ HM) as [Hsq0 HsqM].
  set (sq := Rsum ((fun v => v ^ 2) <$> x :: a)) in *.
  eexists lo, hi, _. split; [reflexivity|].
  split; [done|]. split; [done|]. split.
  { apply Forall_forall. intros v Hv.
    pose proof (proj1 (Forall_forall _ _) Hlo v Hv).
    pose proof (proj1 (Forall_forall _ _) Hhi v Hv). simpl in *. lra. }
  assert (0 <= sq / INR (length (x :: a))) as Hmean.
  { apply Rmult_le_pos; [done|]. left. by apply Rinv_0_lt_compat. }
  split.
  { rewrite sqrt_sqrt by done. field. lra. }
  split; [apply sqrt_pos|].
  assert (0 <= Rmax (Rabs lo) (Rabs hi)) as HM0.
  { pose proof (Rabs_pos lo). pose proof (Rmax_l (Rabs lo) (Rabs hi)). lra. }
  rewrite <- (sqrt_square (Rmax (Rabs lo) (Rabs hi))) by done.
  apply sqrt_le_1_alt.
  apply (Rmult_le_reg_r (INR (length (x :: a)))); [done|].
  replace (sq / INR (length (x :: a)) * INR (length (x :: a))) with sq
    by (field; lra).
  lra.
Qed.

Lemma repr_statistics_witness :
  exists lo hi rms : R,
    Freqdemod.repr (Freqdemod.init three_samples "x" "nm" 1)
    = Ok {| Freqdemod.repr_signal_name := "x";
            Freqdemod.repr_signal_unit := "nm";
            Freqdemod.repr_signal_length := 3;
            Freqdemod.repr_time_step_us := 1 * 1E6;
            Freqdemod.repr_rms := Util.eng rms;
            Freqdemod.repr_max := Util.eng hi;
            Freqdemod.repr_min := Util.eng lo |}
    /\ lo ∈ three_samples /\ hi ∈ three_samples
    /\ Forall (fun v => lo <= v <= hi) three_samples
    /\ rms * rms * INR 3 = Rsum ((fun v => v ^ 2) <$> three_samples)
    /\ 0 <= rms <= Rmax (Rabs lo) (Rabs hi).
Proof.
  apply (proj2 (repr_statistics (Freqdemod.init three_samples "x" "nm" 1))).
  done.
Defined.

Lemma log2_pow2 (n : Z) :
  (1 <= n)%Z -> (2 ^ Z.log2 (2 ^ Z.log2 n) = 2 ^ Z.log2 n)%Z.
Proof.
  intros Hn. rewrite Z.log2_pow2; [done|]. apply Z.log2_nonneg.
Qed.

(** The truncation keeps a power of two of samples, those of the index
    range of the mode, and the report made after it describes the truncated
    signal.  A second truncation, in any of the three modes, keeps all of
    them, and saves them over the copy of the samples that the first one had
    saved. *)
Theorem binarate_then_report_and_binarate (mode mode' : string)
    (sig : Freqdemod.Signal) :
  mode ∈ ["start"; "middle"; "end"] -> mode' ∈ ["start"; "middle"; "end"] ->
  (1 <= length (Freqdemod.s sig))%nat ->
  exists (sig1 sig2 : Freqdemod.Signal) (text : Freqdemod.repr_text)
         (n_start n_stop : Z),
    Freqdemod.binarate mode sig = (Ok tt, sig1)
    /\ binarate_bounds mode (Z.of_nat (length (Freqdemod.s sig)))
         (2 ^ Z.log2 (Z.of_nat (length (Freqdemod.s sig))))
       = Some (n_start, n_stop)
    /\ Freqdemod.s sig1
       = take (Z.to_nat (n_stop - n_start))
           (drop (Z.to_nat n_start) (Freqdemod.s sig))
    /\ Z.of_nat (length (Freqdemod.s sig1))
       = (2 ^ Z.log2 (Z.of_nat (length (Freqdemod.s sig))))%Z
    /\ Freqdemod.s_original sig1 = Freqdemod.s sig
    /\ Freqdemod.repr sig1 = Ok text
    /\ Freqdemod.repr_signal_length text = length (Freqdemod.s sig1)
    /\ Freqdemod.binarate mode' sig1 = (Ok tt, sig2)
    /\ Freqdemod.s sig2 = Freqdemod.s sig1
    /\ Freqdemod.s_original sig2 = Freqdemod.s sig1.
Proof.
  intros Hm Hm' Hn.
  set (n := Z.of_nat (length (Freqdemod.s sig))).
  pose proof (pow2_log2_bounds n ltac:(lia)) as Hp.
  pose proof (middle_bounds n (2 ^ Z.log2 n) Hp) as Hmid.
  destruct (binarate_bounds_valid mode n (2 ^ Z.log2 n) Hm)
    as (b & Hb & Hstart & Hend & Hmiddle).
  assert (0 <= b.1 /\ b.2 <= n /\ b.2 - b.1 = 2 ^ Z.log2 n)%Z as Hrange.
  { repeat (apply elem_of_cons in Hm as [->|Hm]);
      [rewrite Hstart by done|rewrite Hmiddle by done|rewrite Hend by done|
       by apply elem_of_nil in Hm]; cbn [fst snd]; lia. }
  pose proof (binarate_ok mode sig b Hn Hb) as Hrun.
  match type of Hrun with _ = (_, ?x) => set (sig1 := x) in * end.
  assert (Z.of_nat (length (Freqdemod.s sig1)) = 2 ^ Z.log2 n)%Z as Hlen1.
  { unfold sig1. cbn [Freqdemod.s]. rewrite length_take, length_drop. lia. }
  assert (Freqdemod.s sig1 <> []) as Hne.
  { intros Hnil. rewrite Hnil in Hlen1. simpl in Hlen1. lia. }
  destruct (repr_statistics sig1) as [_ Hrepr].
  destruct (Hrepr Hne) as (lo & hi & rms & Htext & _).
  set (n1 := Z.of_nat (length (Freqdemod.s sig1))) in *.
  assert (2 ^ Z.log2 n1 = n1)%Z as Hpow
    by (rewrite Hlen1; apply log2_pow2; lia).
  destruct (binarate_bounds_valid mode' n1 (2 ^ Z.log2 n1) Hm')
    as (b' & Hb' & Hstart' & Hend' & Hmiddle').
  assert (b' = (0, n1)%Z) as Hb'0.
  { rewrite Hpow, Z.sub_diag in *. change (0 `div` 2)%Z with 0%Z in *.
    repeat (apply elem_of_cons in Hm' as [->|Hm']);
      [by rewrite Hstart'|by rewrite Hmiddle'|by rewrite Hend'|
       by apply elem_of_nil in Hm']. }
  pose proof (binarate_ok mode' sig1 b' ltac:(lia) Hb') as Hrun'.
  rewrite Hb'0 in Hrun'. cbn [fst snd] in Hrun'.
  replace (Z.to_nat (n1 - 0)) with (length (Freqdemod.s sig1)) in Hrun' by lia.
  change (Z.to_nat 0) with 0%nat in Hrun'. rewrite drop_0, firstn_all in Hrun'.
  eexists sig1, _, _, b.1, b.2. split; [done|].
  split; [by destruct b|]. split; [done|]. split; [done|]. split; [done|].
  split; [exact Htext|]. split; [done|]. split; [exact Hrun'|]. done.
Qed.

Lemma binarate_then_report_and_binarate_witness :
  exists (sig1 sig2 : Freqdemod.Signal) (text : Freqdemod.repr_text)
         (n_start n_stop : Z),
    Freqdemod.binarate "middle" (Freqdemod.init five_samples "x" "nm" 1)
    = (Ok tt, sig1)
    /\ binarate_bounds "middle"
         (Z.of_nat (length (Freqdemod.s
                              (Freqdemod.init five_samples "x" "nm" 1))))
         (2 ^ Z.log2 (Z.of_nat
                        (length (Freqdemod.s
                                   (Freqdemod.init five_samples "x" "nm" 1)))))
       = Some (n_start, n_stop)
    /\ Freqdemod.s sig1
       = take (Z.to_nat (n_stop - n_start))
           (drop (Z.to_nat n_start)
              (Freqdemod.s (Freqdemod.init five_samples "x" "nm" 1)))
    /\ Z.of_nat (length (Freqdemod.s sig1))
       = (2 ^ Z.log2 (Z.of_nat
                        (length (Freqdemod.s
                                   (Freqdemod.init five_samples "x" "nm" 1)))))%Z
    /\ Freqdemod.s_original sig1
       = Freqdemod.s (Freqdemod.init five_samples "x" "nm" 1)
    /\ Freqdemod.repr sig1 = Ok text
    /\ Freqdemod.repr_signal_length text = length (Freqdemod.s sig1)
    /\ Freqdemod.binarate "end" sig1 = (Ok tt, sig2)
    /\ Freqdemod.s sig2 = Freqdemod.s sig1
    /\ Freqdemod.s_original sig2 = Freqdemod.s sig1.
Proof.
  apply (binarate_then_report_and_binarate "middle" "end"
           (Freqdemod.init five_samples "x" "nm" 1)).
  - apply elem_of_cons. right. apply elem_of_cons. by left.
  - do 2 (apply elem_of_cons; right). apply elem_of_cons. by left.
  - simpl. lia.
Defined.

(** ** The segmented linear fit: the sums, the chunks and the offsets *)

Lemma rows_of_length (cols rows : nat) (l : list R) :
  length (Demodulate.rows_of cols rows l) = rows.
Proof.
  revert l. induction rows as [|k IH]; intros l; [done|].
  cbn [Demodulate.rows_of length]. by rewrite IH.
Qed.

Lemma rows_of_lookup (cols rows : nat) (l : list R) (j : nat) :
  (j < rows)%nat ->
  Demodulate.rows_of cols rows l !! j = Some (take cols (drop (j * cols) l)).
Proof.
  revert l j. induction rows as [|k IH]; intros l j Hj; [lia|].
  destruct j as [|j]; [done|].
  cbn [Demodulate.rows_of]. rewrite lookup_cons. simpl.
  rewrite IH by lia. by rewrite drop_drop.
Qed.

Lemma rows_of_fmap (g : R -> R) (cols rows : nat) (l : list R) :
  Demodulate.rows_of cols rows (g <$> l)
  = (fun row : list R => g <$> row) <$> Demodulate.rows_of cols rows l.
Proof.
  revert l. induction rows as [|k IH]; intros l; [done|].
  cbn [Demodulate.rows_of]. rewrite fmap_cons, <- fmap_take, <- fmap_drop.
  by rewrite IH.
Qed.

Lemma rows_of_app (cols rows : nat) (l extra : list R) :
  length l = (rows * cols)%nat ->
  Demodulate.rows_of cols rows (l ++ extra) = Demodulate.rows_of cols rows l.
Proof.
  revert l. induction rows as [|k IH]; intros l Hl; [done|].
  cbn [Demodulate.rows_of].
  rewrite take_app_le, drop_app_le by lia. f_equal.
  apply IH. rewrite length_drop. lia.
Qed.

Lemma reshape_whole (k n : nat) (l : list R) :
  length l = (k * n)%nat ->
  Demodulate.reshape (Z.of_nat k) (Z.of_nat n) l
  = Ok (Demodulate.rows_of n k l).
Proof.
  intros Hl. unfold Demodulate.reshape.
  rewrite !bool_decide_eq_true_2 by lia. simpl. by rewrite !Nat2Z.id.
Qed.

Lemma reset_row_shift (c : R) (row : list R) :
  Demodulate.reset_row ((fun v => v + c) <$> row) = Demodulate.reset_row row.
Proof.
  unfold Demodulate.reset_row. destruct row as [|x row]; [done|].
  rewrite <- list_fmap_compose. apply list_fmap_ext. intros _ v _. simpl. lra.
Qed.

(** The two sums over the times that [fit] writes in closed form are the
    sums over the time axis of a chunk, reset to start at zero, when the
    times are equally spaced by the time step; the slope it computes for a
    chunk is then that of the least-squares line through the reset times
    and phases. *)
Theorem fit_slope_is_least_squares (dt t0 : R) (n : nat) (s_row : list R) :
  let x := Demodulate.reset_row ((fun k => t0 + dt * INR k) <$> seq 0 n) in
  let Sx := Rsum x in
  let Sxx := Rsum ((fun v => v * v) <$> x) in
  let Sy := Rsum s_row in
  let Sxy := Rsum (zip_with Rmult x s_row) in
  Demodulate.SX dt (Z.of_nat n) = Sx
  /\ Demodulate.SXX dt (Z.of_nat n) = Sxx
  /\ Demodulate.slope_of dt (Z.of_nat n) x s_row
     = np_divide (INR n * Sxy - Sx * Sy) (INR n * Sxx - Sx * Sx).
Proof.
  intros x Sx Sxx Sy Sxy.
  assert (x = (fun i => dt * INR i) <$> seq 0 n) as Hx
    by apply reset_row_affine.
  assert (Demodulate.SX dt (Z.of_nat n) = Sx) as HSx.
  { unfold Sx, Demodulate.SX. rewrite Hx, <- INR_IZR_INZ.
    pose proof (Rsum_linear 1 dt n) as H.
    erewrite list_fmap_ext in H; [rewrite H|intros _ i _; simpl; by rewrite Rmult_1_l].
    lra. }
  assert (Demodulate.SXX dt (Z.of_nat n) = Sxx) as HSxx.
  { unfold Sxx, Demodulate.SXX. rewrite Hx, <- INR_IZR_INZ, <- list_fmap_compose.
    pose proof (Rsum_quadratic 1 dt n) as H.
    erewrite list_fmap_ext in H;
      [rewrite H|intros _ i _; simpl; by rewrite Rmult_1_l].
    lra. }
  split; [done|]. split; [done|].
  unfold Demodulate.slope_of. fold Sy Sxy. rewrite HSx, HSxx.
  by rewrite <- INR_IZR_INZ.
Qed.

(** With whole chunks of [n >= 1] samples, [fit] returns one slope and one
    starting time for each chunk, the starting time of a chunk being the
    time of its first sample; the samples that follow the last whole chunk
    play no role. *)
Theorem fit_uses_whole_chunks (dt target : R) (t theta t_rest theta_rest : list R)
    (n k : nat) :
  py_round (target / dt) = Z.of_nat n -> (1 <= n)%nat ->
  length t = (k * n)%nat -> length theta = (k * n)%nat ->
  (length theta_rest < n)%nat ->
  exists r : Demodulate.fit_result,
    Demodulate.fit dt t theta target = Ok r
    /\ Demodulate.fit dt (t ++ t_rest) (theta ++ theta_rest) target = Ok r
    /\ length (Demodulate.fit_freq r) = k
    /\ length (Demodulate.fit_time r) = k
    /\ forall j : nat, (j < k)%nat ->
         Demodulate.fit_time r !! j = t !! (j * n)%nat.
Proof.
  intros Hn Hn1 Ht Htheta Hrest.
  assert (forall extra_t extra : list R, (length extra < n)%nat ->
            Demodulate.fit dt (t ++ extra_t) (theta ++ extra) target
            = Ok {| Demodulate.fit_freq :=
                      zip_with (Demodulate.slope_of dt (Z.of_nat n))
                        (Demodulate.reset_row <$> Demodulate.rows_of n k t)
                        (Demodulate.reset_row <$> Demodulate.rows_of n k theta);
                    Demodulate.fit_time :=
                      (fun row => default 0 (head row))
                      <$> Demodulate.rows_of n k t |}) as Hfit.
  { intros extra_t extra Hextra. unfold Demodulate.fit. rewrite Hn.
    rewrite bool_decide_eq_false_2 by lia.
    rewrite length_app, Htheta.
    assert (Z.of_nat (k * n + length extra) `div` Z.of_nat n = Z.of_nat k)%Z
      as ->.
    { rewrite <- Nat2Z.inj_div. f_equal.
      rewrite Nat.div_add_l by lia. rewrite Nat.div_small by lia. lia. }
    rewrite <- Nat2Z.inj_mul, Nat2Z.id.
    rewrite !take_app_le by lia. rewrite !firstn_all2 by lia.
    rewrite !reshape_whole by done. done. }
  eexists. split.
  { specialize (Hfit [] [] ltac:(simpl; lia)). by rewrite !app_nil_r in Hfit. }
  split; [by apply Hfit|]. cbn [Demodulate.fit_freq Demodulate.fit_time].
  split; [by rewrite length_zip_with, !length_fmap, !rows_of_length, Nat.min_id|].
  split; [by rewrite length_fmap, rows_of_length|].
  intros j Hj. rewrite list_lookup_fmap, rows_of_lookup by done. simpl.
  assert (j * n < length t)%nat as Hlt by nia.
  destruct (lookup_lt_is_Some_2 t (j * n) Hlt) as [v Hv].
  rewrite (drop_S _ _ _ Hv), Hv. destruct n; [lia|done].
Qed.

Lemma fit_uses_whole_chunks_witness :
  exists r : Demodulate.fit_result,
    Demodulate.fit 1 [0; 1; 2; 3] [5; 7; 9; 4] 2 = Ok r
    /\ Demodulate.fit 1 ([0; 1; 2; 3] ++ [4]) ([5; 7; 9; 4] ++ [8]) 2 = Ok r
    /\ length (Demodulate.fit_freq r) = 2%nat
    /\ length (Demodulate.fit_time r) = 2%nat
    /\ forall j : nat, (j < 2)%nat ->
         Demodulate.fit_time r !! j = [0; 1; 2; 3] !! (j * 2)%nat.
Proof.
  apply (fit_uses_whole_chunks 1 2 [0; 1; 2; 3] [5; 7; 9; 4] [4] [8] 2 2).
  - apply (py_round_nat 2).
  - lia.
  - reflexivity.
  - reflexivity.
  - simpl. lia.
Defined.

(** Adding a constant to all the phases, and another to all the times,
    changes none of the slopes that [fit] returns, and moves the starting
    times of the chunks by the constant added to the times; it raises for
    the moved data exactly when it raises for the data. *)
Theorem fit_ignores_offsets (dt target c_t c_theta : R) (t theta : list R) :
  match Demodulate.fit dt t theta target,
        Demodulate.fit dt ((fun v => v + c_t) <$> t)
          ((fun v => v + c_theta) <$> theta) target with
  | Ok r, Ok r' =>
    Demodulate.fit_freq r' = Demodulate.fit_freq r
    /\ Demodulate.fit_time r' = (fun v => v + c_t) <$> Demodulate.fit_time r
  | Raised e, Raised e' => e = e'
  | _, _ => False
  end.
Proof.
  unfold Demodulate.fit. rewrite length_fmap.
  set (n := py_round (target / dt)).
  case_bool_decide as Hn0; [done|].
  set (k := (Z.of_nat (length theta) `div` n)%Z).
  rewrite <- !fmap_take. unfold Demodulate.reshape. rewrite !length_fmap.
  destruct (bool_decide (0 <= k)%Z && bool_decide (0 <= n)%Z
            && bool_decide (Z.of_nat (length (take (Z.to_nat (n * k)) theta))
                            = (k * n)%Z)) eqn:Htheta; [|done].
  destruct (bool_decide (0 <= k)%Z && bool_decide (0 <= n)%Z
            && bool_decide (Z.of_nat (length (take (Z.to_nat (n * k)) t))
                            = (k * n)%Z)) eqn:Ht; [|done].
  cbn [Demodulate.fit_freq Demodulate.fit_time].
  rewrite !rows_of_fmap, <- !list_fmap_compose. split.
  - f_equal; apply list_fmap_ext; intros _ row _; simpl; apply reset_row_shift.
  - apply andb_prop in Ht as [Ht Hlen]. apply andb_prop in Ht as [Hk Hn].
    apply bool_decide_eq_true_1 in Hk, Hn, Hlen.
    apply list_eq. intros j. rewrite !list_lookup_fmap.
    destruct (decide (j < Z.to_nat k)%nat) as [Hj|Hj].
    + rewrite rows_of_lookup by done. simpl.
      set (l := take (Z.to_nat (n * k)) t) in *.
      assert (j * Z.to_nat n < length l)%nat as Hlt by nia.
      destruct (lookup_lt_is_Some_2 l _ Hlt) as [v Hv].
      rewrite (drop_S _ _ _ Hv).
      destruct (Z.to_nat n) eqn:Hnn; [lia|]. done.
    + rewrite (lookup_ge_None_2 (Demodulate.rows_of _ _ _))
        by (rewrite rows_of_length; lia).
      done.
Qed.

(** [fit] raises, with the error of the reshaping, when the number of
    samples per chunk is negative, and when the time array does not reach
    the end of the last whole chunk of the phase array. *)
Theorem fit_rejects_negative_chunks_and_short_times (dt target : R)
    (t theta : list R) :
  ((py_round (target / dt) < 0)%Z ->
     Demodulate.fit dt t theta target = Raised ValueError)
  /\ ((0 < py_round (target / dt))%Z ->
      (Z.of_nat (length t)
       < py_round (target / dt)
         * (Z.of_nat (length theta) `div` py_round (target / dt)))%Z ->
      Demodulate.fit dt t theta target = Raised ValueError).
Proof.
  unfold Demodulate.fit. set (n := py_round (target / dt)).
  set (k := (Z.of_nat (length theta) `div` n)%Z). split.
  - intros Hn. rewrite bool_decide_eq_false_2 by lia.
    unfold Demodulate.reshape at 1.
    rewrite (bool_decide_eq_false_2 (0 <= n)%Z) by lia.
    by rewrite andb_false_r.
  - intros Hn Hshort. rewrite bool_decide_eq_false_2 by lia.
    destruct (Demodulate.reshape k n (take (Z.to_nat (n * k)) theta))
      as [rows|e] eqn:Htheta.
    + unfold Demodulate.reshape.
      rewrite (bool_decide_eq_false_2 (Z.of_nat _ = _)); [by rewrite andb_false_r|].
      rewrite length_take. lia.
    + unfold Demodulate.reshape in Htheta.
      destruct (_ && _) in Htheta; congruence.
Qed.

Lemma fit_rejects_negative_chunks_and_short_times_witness :
  Demodulate.fit 1 three_samples three_samples (-1) = Raised ValueError
  /\ Demodulate.fit 1 two_samples three_samples 1 = Raised ValueError.
Proof.
  split.
  - apply (proj1 (fit_rejects_negative_chunks_and_short_times 1 (-1)
                    three_samples three_samples)).
    rewrite (py_round_nat (-1)). lia.
  - apply (proj2 (fit_rejects_negative_chunks_and_short_times 1 1
                    two_samples three_samples)).
    + rewrite (py_round_nat 1). lia.
    + rewrite (py_round_nat 1). reflexivity.
Defined.

(** ** What every stage does to the report and to the names in the file *)

Lemma silent_ret {A} (a : A) : silent (ret a).
Proof. done. Qed.

Lemma silent_raise {A} (e : exn) : silent (@raise A e).
Proof. done. Qed.

Lemma silent_lift {A} (r : result A) : silent (lift r).
Proof. done. Qed.

Lemma silent_get (name : string) : silent (get name).
Proof. intros st. unfold get. by destruct (f st !! path name). Qed.

Lemma silent_contains (name : string) : silent (contains name).
Proof. done. Qed.

Lemma silent_create_dataset (name : string) (a : ndarray) :
  silent (create_dataset name a).
Proof. intros st. unfold create_dataset. by destruct (f st !! path name). Qed.

Lemma silent_update_attrs (name : string) (new : list (string * attr)) :
  silent (update_attrs name new).
Proof. done. Qed.

Lemma silent_bool_data (x : dataset) : silent (bool_data x).
Proof. unfold bool_data. by destruct (data x). Qed.

Lemma silent_float_data (x : dataset) : silent (float_data x).
Proof. unfold float_data. by destruct (data x). Qed.

Lemma silent_complex_data (x : dataset) : silent (complex_data x).
Proof. unfold complex_data. by destruct (data x). Qed.

Lemma silent_float_attr (x : dataset) (key : string) :
  silent (float_attr x key).
Proof. unfold float_attr. by destruct (attrs x !! key) as [[]|]. Qed.

Lemma silent_str_attr (x : dataset) (key : string) : silent (str_attr x key).
Proof. unfold str_attr. by destruct (attrs x !! key) as [[]|]. Qed.

Lemma silent_index {A} (a : list A) (i : nat) : silent (index a i).
Proof. unfold index. by destruct (a !! i). Qed.

Lemma silent_bind {A B} (m : M A) (h : A -> M B) :
  silent m -> (forall a, silent (h a)) -> silent (bind m h).
Proof.
  intros Hm Hh st. unfold bind. specialize (Hm st).
  destruct (m st) as [[a|e] st1]; simpl in *; [|done].
  by rewrite Hh.
Qed.

Lemma logs_append_report (line : report_line) :
  logs_on_return (append_report line).
Proof. intros st. simpl. by eexists. Qed.

Lemma logs_bind {A B} (m : M A) (h : A -> M B) :
  silent m -> (forall a, logs_on_return (h a)) -> logs_on_return (bind m h).
Proof.
  intros Hm Hh st. unfold bind. specialize (Hm st).
  destruct (m st) as [[a|e] st1]; simpl in *; [|done].
  specialize (Hh a st1). rewrite Hm in Hh. done.
Qed.

Create HintDb silent.
#[local] Hint Resolve silent_ret silent_raise silent_lift silent_get
  silent_contains silent_create_dataset silent_update_attrs silent_bool_data
  silent_float_data silent_complex_data silent_float_attr silent_str_attr
  silent_index : silent.

Ltac silent_step :=
  match goal with
  | |- logs_on_return (append_report _) => apply logs_append_report
  | |- logs_on_return (bind _ _) => apply logs_bind; [|intros ?]
  | |- silent (bind _ _) => apply silent_bind; [|intros ?]
  | |- silent (if ?b then _ else _) => destruct b
  | |- silent (match ?x with _ => _ end) => destruct x
  | |- silent _ => solve [auto with silent]
  end.

Lemma run_stage_logs (op : stage) : logs_on_return (run_stage op).
Proof.
  destruct op; simpl;
    unfold time_mask_binarate, time_window_cyclicize, window_target, fft,
      windowed_signal, freq_filter_Hilbert_complex, freq_filter_bp,
      time_mask_rippleless, ifft, filtered_spectrum;
    repeat silent_step.
Qed.

(** A stage that returns has added one line to the report, at its end, and
    a stage that raises has added none; so a script of stages that runs to
    its end has added as many lines as it has stages. *)
Theorem stages_log_one_line_each :
  (forall (op : stage) (st : Signal),
     match run_stage op st with
     | (Ok _, st') => exists line, report st' = report st ++ [line]
     | (Raised _, st') => report st' = report st
     end)
  /\ (forall (ops : list stage) (st st' : Signal),
        run_script ops st = (Ok tt, st') ->
        exists lines, report st' = report st ++ lines
                      /\ length lines = length ops).
Proof.
  split; [intros op st; apply run_stage_logs|].
  induction ops as [|op ops IH]; intros st st' Hrun.
  - injection Hrun as <-. exists []. by rewrite app_nil_r.
  - cbn [run_script] in Hrun. unfold bind in Hrun.
    pose proof (run_stage_logs op st) as Hop.
    destruct (run_stage op st) as [[[]|e] st1]; [|done].
    destruct Hop as [line Hline]. destruct (IH st1 st' Hrun) as (lines & Hl & Hn).
    exists (line :: lines). rewrite Hl, Hline, <- app_assoc. split; [done|].
    simpl. by rewrite Hn.
Qed.

Section Retains.
Context (k : string).

Lemma retains_ret {A} (a : A) : retains k (ret a).
Proof. by intros st H. Qed.

Lemma retains_raise {A} (e : exn) : retains k (@raise A e).
Proof. by intros st H. Qed.

Lemma retains_lift {A} (r : result A) : retains k (lift r).
Proof. by intros st H. Qed.

Lemma retains_get (name : string) : retains k (get name).
Proof. intros st H. unfold get. by destruct (f st !! path name). Qed.

Lemma retains_contains (name : string) : retains k (contains name).
Proof. by intros st H. Qed.

Lemma retains_append_report (line : report_line) :
  retains k (append_report line).
Proof. by intros st H. Qed.

Lemma retains_create_dataset (name : string) (a : ndarray) :
  retains k (create_dataset name a).
Proof.
  intros st H. unfold create_dataset.
  destruct (f st !! path name) eqn:Hname; [done|]. simpl.
  destruct (decide (path name = k)) as [<-|Hne];
    [by rewrite lookup_insert_eq|by rewrite lookup_insert_ne].
Qed.

Lemma retains_update_attrs (name : string) (new : list (string * attr)) :
  retains k (update_attrs name new).
Proof.
  intros st [d H]. simpl.
  destruct (decide (path name = k)) as [<-|Hne];
    [by rewrite lookup_alter_eq, H|by rewrite lookup_alter_ne, H].
Qed.

Lemma retains_bool_data (x : dataset) : retains k (bool_data x).
Proof. unfold bool_data. destruct (data x); by intros st H. Qed.

Lemma retains_float_data (x : dataset) : retains k (float_data x).
Proof. unfold float_data. destruct (data x); by intros st H. Qed.

Lemma retains_complex_data (x : dataset) : retains k (complex_data x).
Proof. unfold complex_data. destruct (data x); by intros st H. Qed.

Lemma retains_float_attr (x : dataset) (key : string) :
  retains k (float_attr x key).
Proof.
  unfold float_attr. destruct (attrs x !! key) as [[]|]; by intros st H.
Qed.

Lemma retains_str_attr (x : dataset) (key : string) :
  retains k (str_attr x key).
Proof.
  unfold str_attr. destruct (attrs x !! key) as [[]|]; by intros st H.
Qed.

Lemma retains_index {A} (a : list A) (i : nat) : retains k (index a i).
Proof. unfold index. destruct (a !! i); by intros st H. Qed.

Lemma retains_bind {A B} (m : M A) (h : A -> M B) :
  retains k m -> (forall a, retains k (h a)) -> retains k (bind m h).
Proof.
  intros Hm Hh st H. unfold bind. specialize (Hm st H).
  destruct (m st) as [[a|e] st']; simpl in *; [by apply Hh|done].
Qed.

Lemma refuses_create_dataset {B} (name : string) (a : ndarray)
    (h : unit -> M B) :
  path name = k -> refuses k (bind (create_dataset name a) h).
Proof.
  intros <- st [d H]. unfold bind, create_dataset. rewrite H. by eexists _, _.
Qed.

Lemma refuses_bind {A B} (m : M A) (h : A -> M B) :
  retains k m -> (forall a, refuses k (h a)) -> refuses k (bind m h).
Proof.
  intros Hm Hh st H. unfold bind. specialize (Hm st H).
  destruct (m st) as [[a|e] st1]; simpl in *; [by apply Hh|by eexists _, _].
Qed.

Lemma creates_create_dataset {B} (name : string) (a : ndarray)
    (h : unit -> M B) :
  path name = k -> retains k (h tt) -> creates k (bind (create_dataset name a) h).
Proof.
  intros <- Hh st b st'. unfold bind, create_dataset.
  destruct (f st !! path name) eqn:Hname; [done|]. intros Hrun.
  specialize (Hh {| f := <[path name := {| data := a; attrs := ∅ |}]> (f st);
                    report := report st |}).
  rewrite Hrun in Hh. apply Hh. simpl. by rewrite lookup_insert_eq.
Qed.

Lemma creates_bind {A B} (m : M A) (h : A -> M B) :
  (forall a, creates k (h a)) -> creates k (bind m h).
Proof.
  intros Hh st b st'. unfold bind.
  destruct (m st) as [[a|e] st1]; [apply Hh|done].
Qed.
End Retains.

Create HintDb retains.
#[local] Hint Resolve retains_ret retains_raise retains_lift retains_get
  retains_contains retains_append_report retains_create_dataset
  retains_update_attrs retains_bool_data retains_float_data
  retains_complex_data retains_float_attr retains_str_attr retains_index
  : retains.

Ltac retains_step :=
  match goal with
  | |- retains _ (bind _ _) => apply retains_bind; [|intros ?]
  | |- retains _ (if ?b then _ else _) => destruct b
  | |- retains _ (match ?x with _ => _ end) => destruct x
  | |- retains _ _ => solve [auto with retains]
  | |- retains _ _ =>
    progress unfold window_target, windowed_signal, filtered_spectrum
  end.

Ltac refuses_step :=
  match goal with
  | |- refuses _ (bind (create_dataset _ _) _) =>
    apply refuses_create_dataset; reflexivity
  | |- refuses _ (bind _ _) =>
    apply refuses_bind; [repeat retains_step|intros ?]
  end.

Ltac creates_step :=
  match goal with
  | |- creates _ (bind (create_dataset _ _) _) =>
    apply creates_create_dataset; [reflexivity|repeat retains_step]
  | |- creates _ (bind _ _) => apply creates_bind; intros ?
  end.

Ltac unfold_stages :=
  unfold time_mask_binarate, time_window_cyclicize, window_target, fft,
    windowed_signal, freq_filter_Hilbert_complex, freq_filter_bp,
    time_mask_rippleless, ifft, filtered_spectrum.

Lemma run_stage_retains (k : string) (op : stage) : retains k (run_stage op).
Proof. destruct op; simpl; unfold_stages; repeat retains_step. Qed.

Lemma run_stages_retain (k : string) (ops : list stage) (st : Signal) :
  is_Some (f st !! k) -> is_Some (f (run_stages ops st) !! k).
Proof.
  revert st. induction ops as [|op ops IH]; intros st H; [done|].
  simpl. apply IH. by apply run_stage_retains.
Qed.

Ltac each_artifact H :=
  repeat (apply elem_of_cons in H as [->|H]); [..|by apply elem_of_nil in H].

Lemma run_stage_refuses (op : stage) (k : string) :
  k ∈ artifacts op -> refuses k (run_stage op).
Proof.
  intros Hk. destruct op; simpl in *; each_artifact Hk;
    unfold time_mask_binarate, time_window_cyclicize, fft,
      freq_filter_Hilbert_complex, freq_filter_bp, time_mask_rippleless, ifft;
    repeat refuses_step.
Qed.

Lemma run_stage_creates (op : stage) (k : string) :
  k ∈ artifacts op -> creates k (run_stage op).
Proof.
  intros Hk. destruct op; simpl in *; each_artifact Hk;
    unfold time_mask_binarate, time_window_cyclicize, fft,
      freq_filter_Hilbert_complex, freq_filter_bp, time_mask_rippleless, ifft;
    repeat creates_step.
Qed.

(** A stage raises on a file that already holds one of the datasets it is
    to create: nothing is ever written over. *)
Theorem stage_refuses_existing_artifact (op : stage) (k : string)
    (st : Signal) :
  k ∈ artifacts op -> is_Some (f st !! k) ->
  exists (e : exn) (st' : Signal), run_stage op st = (Raised e, st').
Proof. intros Hk. by apply run_stage_refuses. Qed.

Lemma stage_refuses_existing_artifact_witness :
  exists (e : exn) (st' : Signal),
    run_stage FreqFilterHilbertComplex zero_spectrum_file = (Raised e, st').
Proof.
  apply (stage_refuses_existing_artifact FreqFilterHilbertComplex
           "workup/freq/filter/Hc" zero_spectrum_file).
  - apply elem_of_cons. by left.
  - destruct zero_spectrum_file_lookups as (fd & hd & ftd & _ & _ & Hhd & _).
    by exists hd.
Defined.

(** Once a stage has returned, its datasets are in the file, and the same
    stage, with whatever parameters and after whatever other stages, raises
    on that file from then on. *)
Theorem stage_cannot_be_repeated (op op' : stage) (st st1 : Signal) (r : unit) :
  run_stage op st = (Ok r, st1) -> artifacts op' = artifacts op ->
  (forall k, k ∈ artifacts op -> is_Some (f st1 !! k))
  /\ forall ops : list stage,
       exists (e : exn) (st2 : Signal),
         run_stage op' (run_stages ops st1) = (Raised e, st2).
Proof.
  intros Hrun Hsame.
  assert (forall k, k ∈ artifacts op -> is_Some (f st1 !! k)) as Hin.
  { intros k Hk. by apply (run_stage_creates op k Hk st r st1). }
  split; [done|]. intros ops.
  assert (exists k, k ∈ artifacts op) as [k Hk].
  { destruct op; simpl; eexists; apply elem_of_cons; by left. }
  apply (run_stage_refuses op' k); [by rewrite Hsame|].
  apply run_stages_retain. by apply Hin.
Qed.

Lemma fft_of_two_samples :
  run_stage Fft (ingest two_samples 1) = (Ok tt, transformed_file).
Proof.
  destruct (ingest_lookups two_samples 1) as (Hy & Hx & Hfresh).
  destruct (y_attrs_name_unit (FloatArr two_samples) "x" "nm")
    as [Hname Hunit].
  assert (windowed_signal (ingest two_samples 1)
          = (Ok two_samples, ingest two_samples 1)) as Hs
    by (apply (windowed_signal_plain _ _ two_samples Hy eq_refl);
        by apply Hfresh).
  destruct (fft_run (ingest two_samples 1) two_samples _ _ 1 "x" "nm"
              Hs Hx (x_attrs_dt _ 1) Hy Hname Hunit) as (f0 & f1 & Hfft);
    try (apply Hfresh; done); [simpl; lia|].
  unfold transformed_file, run_stages. cbn [foldl run_stage].
  by rewrite Hfft.
Qed.

Lemma stage_cannot_be_repeated_witness :
  (forall k, k ∈ artifacts Fft -> is_Some (f transformed_file !! k))
  /\ forall ops : list stage,
       exists (e : exn) (st2 : Signal),
         run_stage Fft (run_stages ops transformed_file) = (Raised e, st2).
Proof.
  apply (stage_cannot_be_repeated Fft Fft (ingest two_samples 1)
           transformed_file tt fft_of_two_samples eq_refl).
Defined.

Lemma stages_log_one_line_each_witness :
  exists lines : list report_line,
    report transformed_file = report (ingest two_samples 1) ++ lines
    /\ length lines = 1%nat.
Proof.
  apply (proj2 stages_log_one_line_each [Fft] (ingest two_samples 1)
           transformed_file).
  cbn [run_script]. unfold bind. by rewrite fft_of_two_samples.
Defined.

(** ** The shape of the edge window and its rise time *)

Lemma blackman_lookup (M : Z) (i : nat) :
  (2 <= M)%Z -> (Z.of_nat i < M)%Z ->
  blackman M !! i
  = Some (0.42 - 0.5 * cos (2.0 * PI * INR i / (IZR M - 1))
          + 0.08 * cos (4.0 * PI * INR i / (IZR M - 1))).
Proof.
  intros HM Hi. unfold blackman.
  rewrite !bool_decide_eq_false_2 by lia.
  rewrite list_lookup_fmap, lookup_seqZ_lt by lia. simpl.
  by rewrite Z.add_0_l, <- INR_IZR_INZ.
Qed.

Lemma blackman_value_range (x : R) :
  0 <= 0.42 - 0.5 * cos x + 0.08 * cos (2 * x) <= 1.
Proof.
  rewrite cos_2a_cos. pose proof (COS_bound x) as [Hlo Hhi].
  split; nra.
Qed.

Lemma blackman_range (M : Z) (v : R) : v ∈ blackman M -> 0 <= v <= 1.
Proof.
  unfold blackman. repeat case_bool_decide.
  - by intros ?%elem_of_nil.
  - intros ->%list_elem_of_singleton. lra.
  - intros (n & -> & _)%list_elem_of_fmap.
    replace 4.0 with 4 by lra. replace 2.0 with 2 by lra.
    replace (4 * PI * IZR n / (IZR M - 1))
      with (2 * (2 * PI * IZR n / (IZR M - 1))) by (unfold Rdiv; ring).
    apply blackman_value_range.
Qed.

Lemma blackman_symmetric (M : Z) (i : nat) :
  (2 <= M)%Z -> (Z.of_nat i < M)%Z ->
  blackman M !! (Z.to_nat M - 1 - i)%nat = blackman M !! i.
Proof.
  intros HM Hi. rewrite !blackman_lookup by lia. f_equal.
  assert (IZR M - 1 <> 0) as Hne by (apply IZR_le in HM; lra).
  replace (INR (Z.to_nat M - 1 - i)) with (IZR M - 1 - INR i).
  2:{ rewrite !minus_INR by lia. rewrite (INR_IZR_INZ (Z.to_nat M)), Z2Nat.id by lia.
      simpl. lra. }
  replace 4.0 with 4 by lra. replace 2.0 with 2 by lra.
  replace (2 * PI * (IZR M - 1 - INR i) / (IZR M - 1))
    with (- (2 * PI * INR i / (IZR M - 1)) + 2 * INR 1 * PI)
    by (simpl; field; done).
  replace (4 * PI * (IZR M - 1 - INR i) / (IZR M - 1))
    with (- (4 * PI * INR i / (IZR M - 1)) + 2 * INR 2 * PI)
    by (simpl; field; done).
  by rewrite !cos_period, !cos_neg.
Qed.

Lemma blackman_first (M : Z) : (2 <= M)%Z -> blackman M !! 0%nat = Some 0.
Proof.
  intros HM. rewrite blackman_lookup by lia. f_equal. simpl.
  replace 4.0 with 4 by lra. replace 2.0 with 2 by lra.
  replace (2 * PI * 0 / (IZR M - 1)) with 0 by (unfold Rdiv; ring).
  replace (4 * PI * 0 / (IZR M - 1)) with 0 by (unfold Rdiv; ring).
  rewrite cos_0. lra.
Qed.

(** The window of [time_window_cyclicize] for a width of [ww >= 1] points
    that fits twice into the [n] points of the signal: it has [n] points,
    it is zero at its first and at its last point, one on the [n - 2*ww]
    points in the middle, between zero and one everywhere, and the same
    read from either end. *)
Theorem edge_window_shape (n ww : Z) :
  (1 <= ww)%Z -> (2 * ww <= n)%Z ->
  exists w : list R,
    cyclicize_window n ww = Ok w
    /\ length w = Z.to_nat n
    /\ w !! 0%nat = Some 0
    /\ w !! (Z.to_nat n - 1)%nat = Some 0
    /\ (forall i : nat, (ww <= Z.of_nat i < n - ww)%Z -> w !! i = Some 1)
    /\ (forall v : R, v ∈ w -> 0 <= v <= 1)
    /\ (forall i : nat, (Z.of_nat i < n)%Z ->
          w !! (Z.to_nat n - 1 - i)%nat = w !! i).
Proof.
  intros Hww Hfit. rewrite cyclicize_window_fits by done.
  pose proof (blackman_length (2 * ww)) as Hlen. rewrite Hlen.
  set (b := blackman (2 * ww)) in *.
  set (W := Z.to_nat ww). set (N := Z.to_nat n).
  replace (Z.to_nat (2 * ww) - W)%nat with W by lia.
  assert (length b = (2 * W)%nat) as HlenW by lia.
  assert (length (take W b) = W) as Htake by (rewrite length_take; lia).
  assert (length (drop W b) = W) as Hdrop by (rewrite length_drop; lia).
  replace (Z.to_nat (n - 2 * ww)) with (N - 2 * W)%nat by lia.
  assert (forall i : nat,
            (take W b ++ replicate (N - 2 * W) 1 ++ drop W b) !! i
            = if decide (i < W)%nat then b !! i
              else if decide (i < N - W)%nat then Some 1
              else if decide (i < N)%nat then b !! (i + 2 * W - N)%nat
              else None) as Hlook.
  { intros i. repeat case_decide.
    - rewrite lookup_app_l by lia. by apply lookup_take_lt.
    - rewrite lookup_app_r, lookup_app_l by (rewrite ?length_replicate; lia).
      apply lookup_replicate_2. lia.
    - rewrite lookup_app_r, lookup_app_r by (rewrite ?length_replicate; lia).
      rewrite lookup_drop, length_replicate, Htake. f_equal. lia.
    - apply lookup_ge_None_2.
      rewrite !length_app, length_replicate, Htake, Hdrop. lia. }
  eexists. split; [reflexivity|].
  split; [rewrite !length_app, length_replicate, Htake, Hdrop; lia|].
  split.
  { rewrite Hlook. rewrite decide_True by lia. apply blackman_first. lia. }
  split.
  { rewrite Hlook. rewrite decide_False, decide_False, decide_True by lia.
    replace (N - 1 + 2 * W - N)%nat with (Z.to_nat (2 * ww) - 1 - 0)%nat by lia.
    unfold b. rewrite blackman_symmetric by lia. apply blackman_first. lia. }
  split.
  { intros i Hi. rewrite Hlook.
    by rewrite decide_False, decide_True by lia. }
  split.
  { intros v [i Hi]%list_elem_of_lookup. rewrite Hlook in Hi.
    repeat case_decide; try done.
    - apply (blackman_range (2 * ww)). by apply list_elem_of_lookup_2 in Hi.
    - injection Hi as <-. lra.
    - apply (blackman_range (2 * ww)). by apply list_elem_of_lookup_2 in Hi. }
  intros i Hi. rewrite !Hlook.
  destruct (decide (i < W)%nat) as [H1|H1].
  - rewrite decide_False, decide_False, decide_True by lia.
    replace (N - 1 - i + 2 * W - N)%nat with (Z.to_nat (2 * ww) - 1 - i)%nat
      by lia.
    unfold b. apply blackman_symmetric; lia.
  - destruct (decide (i < N - W)%nat) as [H2|H2].
    + by rewrite decide_False, decide_True by lia.
    + rewrite decide_True, decide_True by lia.
      replace (i + 2 * W - N)%nat
        with (Z.to_nat (2 * ww) - 1 - (N - 1 - i))%nat by lia.
      unfold b. symmetry. apply blackman_symmetric; lia.
Qed.

Lemma edge_window_shape_witness :
  exists w : list R,
    cyclicize_window 5 2 = Ok w
    /\ length w = Z.to_nat 5
    /\ w !! 0%nat = Some 0
    /\ w !! (Z.to_nat 5 - 1)%nat = Some 0
    /\ (forall i : nat, (2 <= Z.of_nat i < 5 - 2)%Z -> w !! i = Some 1)
    /\ (forall v : R, v ∈ w -> 0 <= v <= 1)
    /\ (forall i : nat, (Z.of_nat i < 5)%Z ->
          w !! (Z.to_nat 5 - 1 - i)%nat = w !! i).
Proof. apply (edge_window_shape 5 2); lia. Defined.

Lemma py_ceil_bounds (x : R) : x <= IZR (py_ceil x) < x + 1.
Proof.
  unfold py_ceil. rewrite opp_IZR.
  destruct (base_Int_part (- x)) as [H1 H2]. lra.
Qed.

(** The rise time that [time_window_cyclicize] realises is the least whole
    number of time steps that is not below the target: it is recorded, next
    to the target, in the attributes of the window and in the report, and it
    exceeds the target by less than one time step. *)
Theorem edge_window_rise_time (tw : R) (st st1 : Signal) (n : nat)
    (abscissa : string) (xd : dataset) (dt : R) :
  window_target st = (Ok (n, abscissa), st1) ->
  f st1 !! "x" = Some xd -> attrs xd !! "step" = Some (AFloat dt) -> 0 < dt ->
  f st1 !! "workup/time/window/cyclicize" = None ->
  (2 * py_ceil (tw / dt) <= Z.of_nat n)%Z ->
  exists (st' : Signal) (d : dataset) (tw_actual : R),
    time_window_cyclicize tw st = (Ok tt, st')
    /\ f st' !! "workup/time/window/cyclicize" = Some d
    /\ attrs d !! "abscissa" = Some (AStr abscissa)
    /\ attrs d !! "t_window" = Some (AFloat tw)
    /\ attrs d !! "t_window_actual" = Some (AFloat tw_actual)
    /\ report st' = report st1 ++ [RepWindow tw_actual (py_ceil (tw / dt))]
    /\ tw_actual = IZR (py_ceil (tw / dt)) * dt
    /\ tw <= tw_actual < tw + dt.
Proof.
  intros Htarget Hx Hstep Hdt Hnone Hfits.
  pose proof (time_window_cyclicize_run tw st st1 n abscissa xd dt
                Htarget Hx Hstep ltac:(lra)) as Hrun.
  replace (1.0 * tw / (1.0 * dt)) with (tw / dt) in Hrun by (field; lra).
  rewrite cyclicize_window_fits, Hnone in Hrun by done.
  eexists _, _, _. split; [exact Hrun|]. cbn [f report].
  split; [apply lookup_insert_eq|].
  unfold stored, window_attrs. cbn [attrs foldl fst snd].
  split; [by rewrite !lookup_insert_ne, lookup_insert_eq by done|].
  split; [by rewrite !lookup_insert_ne, lookup_insert_eq by done|].
  split; [by rewrite lookup_insert_eq|].
  split; [done|]. split; [done|].
  pose proof (py_ceil_bounds (tw / dt)) as [Hlo Hhi].
  assert (tw = tw / dt * dt) as Htw by (field; lra).
  split; [rewrite Htw at 1; nra|].
  rewrite Htw at 2. nra.
Qed.

Lemma edge_window_rise_time_witness :
  exists (st' : Signal) (d : dataset) (tw_actual : R),
    time_window_cyclicize 2 (ingest five_samples 1) = (Ok tt, st')
    /\ f st' !! "workup/time/window/cyclicize" = Some d
    /\ attrs d !! "abscissa" = Some (AStr "x")
    /\ attrs d !! "t_window" = Some (AFloat 2)
    /\ attrs d !! "t_window_actual" = Some (AFloat tw_actual)
    /\ report st'
       = report (ingest five_samples 1)
         ++ [RepWindow tw_actual (py_ceil (2 / 1))]
    /\ tw_actual = IZR (py_ceil (2 / 1)) * 1
    /\ 2 <= tw_actual < 2 + 1.
Proof.
  destruct (ingest_lookups five_samples 1) as (Hy & Hx & Hfresh).
  apply (edge_window_rise_time 2 (ingest five_samples 1)
           (ingest five_samples 1) 5 "x" _ 1
           (window_target_no_mask _ _
              (Hfresh "workup/time/mask/binarate" ltac:(done) ltac:(done)) Hy)
           Hx (x_attrs_dt _ 1) ltac:(lra)
           (Hfresh "workup/time/window/cyclicize" ltac:(done) ltac:(done))).
  rewrite (py_ceil_IZR 2). simpl. lia.
Defined.

(** ** The shape of the bandpass filter and the centre frequencies *)

Lemma bp_value_pow (order : Z) (x : R) :
  (1 <= order)%Z -> bp_value order x = 1 / (1 + Rabs x ^ Z.to_nat order).
Proof.
  intros Ho. unfold bp_value.
  rewrite (bool_decide_eq_false_2 (order < 0)%Z) by lia. simpl.
  rewrite <- (Z2Nat.id order) at 1 by lia. rewrite <- pow_powerRZ.
  f_equal; lra.
Qed.

Lemma Rabs_scaled (v fc bw : R) :
  0 < bw -> Rabs ((v - fc) / bw) = Rabs (v - fc) / bw.
Proof.
  intros Hbw. unfold Rdiv. rewrite Rabs_mult. f_equal.
  apply Rabs_right. left. by apply Rinv_0_lt_compat.
Qed.

(** For a positive bandwidth and an order of at least one, the bandpass
    filter of [freq_filter_bp] takes values above zero and at most one; it
    is one at the centre frequency, a half at a distance of one bandwidth
    from it, more than a half nearer to it and less than a half farther
    from it, and it does not rise with the distance from the centre. *)
Theorem bandpass_filter_shape (bw : R) (order : Z) (fc : R) (freq : list R) :
  0 < bw -> (1 <= order)%Z ->
  length (bp_filter bw order fc freq) = length freq
  /\ (forall (i : nat) (v : R), freq !! i = Some v ->
        exists b : R,
          bp_filter bw order fc freq !! i = Some b
          /\ 0 < b <= 1
          /\ (v = fc -> b = 1)
          /\ (Rabs (v - fc) = bw -> b = 1 / 2)
          /\ (Rabs (v - fc) < bw -> 1 / 2 < b)
          /\ (bw < Rabs (v - fc) -> b < 1 / 2))
  /\ (forall (i j : nat) (vi vj bi bj : R),
        freq !! i = Some vi -> freq !! j = Some vj ->
        bp_filter bw order fc freq !! i = Some bi ->
        bp_filter bw order fc freq !! j = Some bj ->
        Rabs (vi - fc) <= Rabs (vj - fc) -> bj <= bi).
Proof.
  intros Hbw Ho.
  assert (0 < Z.to_nat order)%nat as Hn by lia.
  split; [unfold bp_filter; by rewrite !length_fmap|].
  assert (forall v, 0 <= Rabs (v - fc) / bw) as Hy.
  { intros v. pose proof (Rabs_pos (v - fc)).
    apply Rmult_le_pos; [done|]. left. by apply Rinv_0_lt_compat. }
  split.
  - intros i v Hv. rewrite bp_filter_lookup, Hv. cbn [fmap option_fmap option_map].
    eexists. split; [reflexivity|].
    rewrite bp_value_pow, Rabs_scaled by done.
    set (y := Rabs (v - fc) / bw). specialize (Hy v). fold y in Hy.
    pose proof (pow_le y (Z.to_nat order) Hy) as Hp.
    assert (forall p, 0 <= p -> 0 < 1 / (1 + p) <= 1) as Hfrac.
    { intros p Hp0. split.
      - apply Rdiv_lt_0_compat; lra.
      - apply (Rmult_le_reg_r (1 + p)); [lra|]. field_simplify; lra. }
    assert (forall p, 0 <= p -> (p < 1 -> 1 / 2 < 1 / (1 + p))
                                /\ (1 < p -> 1 / (1 + p) < 1 / 2)) as Hhalf.
    { intros p Hp0. split; intros Hlt.
      - apply (Rmult_lt_reg_r (1 + p)); [lra|]. field_simplify; lra.
      - apply (Rmult_lt_reg_r (1 + p)); [lra|]. field_simplify; lra. }
    split; [by apply Hfrac|]. split; [|split; [|split]].
    + intros ->. unfold y. rewrite Rminus_diag, Rabs_R0.
      replace (0 / bw) with 0 by (field; lra).
      rewrite pow_i by done. field.
    + intros Heq. unfold y. rewrite Heq.
      replace (bw / bw) with 1 by (field; lra). rewrite pow1. lra.
    + intros Hlt. apply Hhalf; [done|].
      apply pow_lt_1_compat; [|done]. split; [done|].
      unfold y. apply (Rmult_lt_reg_r bw); [done|]. field_simplify; lra.
    + intros Hlt. apply Hhalf; [done|].
      apply Rlt_pow_R1; [|done].
      unfold y. apply (Rmult_lt_reg_r bw); [done|]. field_simplify; lra.
  - intros i j vi vj bi bj Hvi Hvj. rewrite !bp_filter_lookup, Hvi, Hvj.
    cbn [fmap option_fmap option_map]. intros [= <-] [= <-] Hle.
    rewrite !bp_value_pow, !Rabs_scaled by done.
    assert (Rabs (vi - fc) / bw <= Rabs (vj - fc) / bw) as Hyy.
    { apply Rmult_le_compat_r; [|done]. left. by apply Rinv_0_lt_compat. }
    pose proof (pow_incr _ _ (Z.to_nat order) (conj (Hy vi) Hyy)) as Hpp.
    pose proof (pow_le _ (Z.to_nat order) (Hy vi)) as Hpi.
    apply Rmult_le_compat_l; [lra|]. apply Rinv_le_contravar; lra.
Qed.

Lemma bandpass_filter_shape_witness :
  length (bp_filter 1 50 0 three_samples) = length three_samples
  /\ (forall (i : nat) (v : R), three_samples !! i = Some v ->
        exists b : R,
          bp_filter 1 50 0 three_samples !! i = Some b
          /\ 0 < b <= 1
          /\ (v = 0 -> b = 1)
          /\ (Rabs (v - 0) = 1 -> b = 1 / 2)
          /\ (Rabs (v - 0) < 1 -> 1 / 2 < b)
          /\ (1 < Rabs (v - 0) -> b < 1 / 2))
  /\ (forall (i j : nat) (vi vj bi bj : R),
        three_samples !! i = Some vi -> three_samples !! j = Some vj ->
        bp_filter 1 50 0 three_samples !! i = Some bi ->
        bp_filter 1 50 0 three_samples !! j = Some bj ->
        Rabs (vi - 0) <= Rabs (vj - 0) -> bj <= bi).
Proof. apply (bandpass_filter_shape 1 50 0 three_samples); [lra|lia]. Defined.

Lemma argmax_from_spec (pre a : list R) (best_i : nat) (best : R) :
  pre !! best_i = Some best ->
  (forall j v, pre !! j = Some v -> v <= best) ->
  (forall j v, (j < best_i)%nat -> pre !! j = Some v -> v < best) ->
  exists m : R,
    (pre ++ a) !! argmax_from best_i best (length pre) a = Some m
    /\ (forall j v, (pre ++ a) !! j = Some v -> v <= m)
    /\ (forall j v, (j < argmax_from best_i best (length pre) a)%nat ->
          (pre ++ a) !! j = Some v -> v < m).
Proof.
  revert pre best_i best. induction a as [|x a IH]; intros pre best_i best Hb Hle Hlt.
  - rewrite app_nil_r. simpl. by exists best.
  - cbn [argmax_from].
    replace (pre ++ x :: a) with ((pre ++ [x]) ++ a) by by rewrite <- app_assoc.
    replace (S (length pre)) with (length (pre ++ [x]))
      by (rewrite length_app; simpl; lia).
    assert (forall j v, (pre ++ [x]) !! j = Some v ->
              pre !! j = Some v \/ (j = length pre /\ v = x)) as Hsplit.
    { intros j v Hj. apply lookup_app_Some in Hj as [Hj|[Hge Hj]]; [by left|].
      right. apply list_lookup_singleton_Some in Hj as [Hj ->]. split; [lia|done]. }
    destruct (Rlt_dec best x) as [Hx|Hx].
    + apply IH.
      * rewrite lookup_app_r by lia. by rewrite Nat.sub_diag.
      * intros j v [Hj|[_ ->]]%Hsplit; [|lra]. specialize (Hle j v Hj). lra.
      * intros j v Hjlt [Hj|[-> _]]%Hsplit; [|lia]. specialize (Hle j v Hj). lra.
    + apply IH.
      * apply lookup_app_l_Some. done.
      * intros j v [Hj|[_ ->]]%Hsplit; [by apply (Hle j)|lra].
      * intros j v Hjlt [Hj|[-> _]]%Hsplit; [by apply (Hlt j)|].
        apply lookup_lt_Some in Hb. lia.
Qed.

Lemma np_argmax_spec (a : list R) (i : nat) :
  np_argmax a = Ok i ->
  exists m : R,
    a !! i = Some m
    /\ (forall j v, a !! j = Some v -> v <= m)
    /\ (forall j v, (j < i)%nat -> a !! j = Some v -> v < m).
Proof.
  destruct a as [|x a]; [done|]. intros [= <-].
  apply (argmax_from_spec [x] a 0 x); [done| |intros; lia].
  intros j v Hj. apply list_lookup_singleton_Some in Hj as [_ ->]. lra.
Qed.

(** The centre frequency that [freq_filter_bp] takes for the bandpass
    filter is the frequency at which the magnitude of the transform, weighted
    by the sideband filter, is largest, and the lowest such frequency of the
    axis if there are several. *)
Theorem centre_frequency_is_first_peak (bw : R) (order : Z) (st : Signal)
    (fd hd ftd : dataset) (freq Hc : list R) (FT : list C) :
  f st !! "workup/freq/freq" = Some fd -> data fd = FloatArr freq ->
  f st !! "workup/freq/filter/Hc" = Some hd -> data hd = FloatArr Hc ->
  f st !! "workup/freq/FT" = Some ftd -> data ftd = ComplexArr FT ->
  f st !! "workup/freq/filter/bp" = None ->
  length Hc = length freq -> length FT = length freq -> freq <> [] ->
  let weight := zip_with Rmult Hc (Cabs <$> FT) in
  exists (i : nat) (fc peak : R) (fc_improved : npfloat) (st' : Signal),
    freq_filter_bp bw order st = (Ok tt, st')
    /\ data <$> (f st' !! "workup/freq/filter/bp")
       = Some (FloatArr (bp_filter bw order fc freq))
    /\ report st' = report st ++ [RepBandpass fc bw order fc_improved]
    /\ freq !! i = Some fc /\ weight !! i = Some peak
    /\ (forall j v, weight !! j = Some v -> v <= peak)
    /\ (forall j v, (j < i)%nat -> weight !! j = Some v -> v < peak).
Proof.
  intros Hfd Hfreq Hhd HHc Hftd HFT Hnone HlenH HlenF Hne weight.
  destruct (freq_filter_bp_run bw order st fd hd ftd freq Hc FT)
    as (i & fc & Hi & Hfc & Hrun); try done.
  destruct (np_argmax_spec _ _ Hi) as (peak & Hpeak & Hmax & Hfirst).
  eexists i, fc, peak, _, _. split; [exact Hrun|]. cbn [f report].
  split; [by rewrite lookup_insert_eq|]. done.
Qed.

Lemma centre_frequency_is_first_peak_witness :
  let weight := zip_with Rmult [0; 1] (Cabs <$> [C0; C0]) in
  exists (i : nat) (fc peak : R) (fc_improved : npfloat) (st' : Signal),
    freq_filter_bp 1 50 zero_spectrum_file = (Ok tt, st')
    /\ data <$> (f st' !! "workup/freq/filter/bp")
       = Some (FloatArr (bp_filter 1 50 fc [-0.0005; 0]))
    /\ report st'
       = report zero_spectrum_file ++ [RepBandpass fc 1 50 fc_improved]
    /\ [-0.0005; 0] !! i = Some fc /\ weight !! i = Some peak
    /\ (forall j v, weight !! j = Some v -> v <= peak)
    /\ (forall j v, (j < i)%nat -> weight !! j = Some v -> v < peak).
Proof.
  destruct zero_spectrum_file_lookups
    as (fd & hd & ftd & Hfd & Hfreq & Hhd & HHc & Hftd & HFT & Hnone).
  apply (centre_frequency_is_first_peak 1 50 zero_spectrum_file fd hd ftd
           [-0.0005; 0] [0; 1] [C0; C0] Hfd Hfreq Hhd HHc Hftd HFT Hnone
           eq_refl eq_refl).
  done.
Defined.


Lemma Cabs_nonneg (z : C) : 0 <= Cabs z.
Proof. apply sqrt_pos. Qed.



(** ** The frequency axis and the transform of a real signal *)

Lemma fftshift_lookup {A} (x : list A) (i : nat) :
  (i < length x)%nat ->
  fftshift x !! i
  = x !! ((i + (length x - length x / 2)) `mod` length x)%nat.
Proof.
  intros Hi. unfold fftshift.
  pose proof (Nat.Div0.div_le_upper_bound (length x) 2 (length x) ltac:(lia)) as Hh.
  pose proof (Nat.Div0.mul_div_le (length x) 2) as Hh2.
  set (n := length x) in *. set (h := (n / 2)%nat) in *.
  destruct (decide (i < h)%nat) as [Hlt|Hge].
  - rewrite lookup_app_l by (rewrite length_drop; lia).
    rewrite lookup_drop, Nat.mod_small by lia. f_equal. lia.
  - rewrite lookup_app_r by (rewrite length_drop; lia).
    rewrite length_drop, lookup_take_lt by lia. f_equal.
    replace (i + (n - h))%nat with (i - h + 1 * n)%nat by lia.
    rewrite Nat.Div0.mod_add, Nat.mod_small by lia. lia.
Qed.

Lemma fftshift_fftfreq (n : nat) (d : R) :
  fftshift (fftfreq n d)
  = (fun k => IZR k * (1.0 / (INR n * d))) <$> seqZ (- Z.of_nat (n / 2)) (Z.of_nat n).
Proof.
  unfold fftfreq. rewrite fftshift_fmap. f_equal.
  unfold fftshift. rewrite length_app, !length_seqZ.
  pose proof (Nat.Div0.mul_div_le n 2) as Hh2.
  assert (Z.of_nat n `div` 2 = Z.of_nat (n / 2))%Z as ->
    by by rewrite (Nat2Z.inj_div n 2).
  set (h := (n / 2)%nat) in *.
  assert ((Z.of_nat n - 1) `div` 2 + 1 = Z.of_nat n - Z.of_nat h)%Z as ->.
  { destruct n as [|n]; [done|].
    pose proof (Z.div_mod (Z.of_nat (S n) - 1) 2 ltac:(lia)).
    pose proof (Z.mod_pos_bound (Z.of_nat (S n) - 1) 2 ltac:(lia)).
    pose proof (Nat.div_mod (S n) 2 ltac:(lia)).
    pose proof (Nat.mod_upper_bound (S n) 2 ltac:(lia)).
    fold h in H1. lia. }
  replace (Z.to_nat (Z.of_nat n - Z.of_nat h) + Z.to_nat (Z.of_nat h)
           - (Z.to_nat (Z.of_nat n - Z.of_nat h) + Z.to_nat (Z.of_nat h)) / 2)%nat
    with (length (seqZ 0 (Z.of_nat n - Z.of_nat h))).
  2:{ rewrite length_seqZ.
      replace (Z.to_nat (Z.of_nat n - Z.of_nat h) + Z.to_nat (Z.of_nat h))%nat
        with n by lia.
      fold h. lia. }
  rewrite drop_app_length, take_app_length.
  assert (seqZ (- Z.of_nat h) (Z.of_nat n)
          = seqZ (- Z.of_nat h) (Z.of_nat h + (Z.of_nat n - Z.of_nat h))) as ->
    by (f_equal; lia).
  rewrite seqZ_app by lia. do 2 f_equal. lia.
Qed.

Lemma frequency_axis_lookup (n : nat) (d : R) (i : nat) :
  (i < n)%nat ->
  fftshift (fftfreq n d) !! i
  = Some ((INR i - INR (n / 2)) * (1.0 / (INR n * d))).
Proof.
  intros Hi. rewrite fftshift_fftfreq, list_lookup_fmap, lookup_seqZ_lt by lia.
  simpl. do 2 f_equal. rewrite plus_IZR, opp_IZR, <- !INR_IZR_INZ. lra.
Qed.

Lemma fft_run_axis (st : Signal) (s : list R) (xd yd : dataset) (dt : R)
    (name unit : string) :
  windowed_signal st = (Ok s, st) ->
  f st !! "x" = Some xd -> attrs xd !! "step" = Some (AFloat dt) ->
  f st !! "y" = Some yd -> attrs yd !! "name" = Some (AStr name) ->
  attrs yd !! "unit" = Some (AStr unit) ->
  f st !! "workup/freq/freq" = None -> f st !! "workup/freq/FT" = None ->
  (2 <= length s)%nat ->
  let val := 1.0 / (INR (length s) * dt) in
  fft st
  = (Ok tt,
     {| f := <["workup/freq/FT" :=
                 stored (ComplexArr
                           (Cscal dt <$> fftshift (dft (-1) (RtoC <$> s))))
                        (FT_attrs name unit)]>
               (<["workup/freq/freq" :=
                    stored (FloatArr ((fun v => v / 1000)
                                      <$> fftshift (fftfreq (length s) dt)))
                           (freq_attrs
                              ((INR 0 - INR (length s / 2)) * val)
                              ((INR 1 - INR (length s / 2)) * val))]> (f st));
        report := report st ++ [RepFft] |}).
Proof.
  intros Hs Hx Hstep Hy Hname Hunit Hfreq HFT Hlen val.
  pose proof (frequency_axis_lookup (length s) dt 0 ltac:(lia)) as Hf0.
  pose proof (frequency_axis_lookup (length s) dt 1 ltac:(lia)) as Hf1.
  fold val in Hf0, Hf1. unfold fft.
  unfold bind at 1. rewrite Hs.
  rewrite (bind_get _ xd) by done. unfold float_attr. rewrite Hstep, bind_ret.
  assert (np_fft (RtoC <$> s) = Ok (dft (-1) (RtoC <$> s))) as ->.
  { destruct s; [simpl in Hlen; lia|done]. }
  rewrite bind_lift_Ok.
  rewrite bind_create_dataset by done.
  unfold index at 1. rewrite Hf0, bind_ret.
  unfold index at 1. rewrite Hf1, bind_ret.
  rewrite (bind_update_attrs "workup/freq/freq").
  rewrite bind_create_dataset by (simpl; by rewrite lookup_insert_ne).
  rewrite (bind_get _ yd) by (simpl; by rewrite !lookup_insert_ne).
  unfold str_attr. rewrite Hname, bind_ret, Hunit, bind_ret.
  rewrite (bind_update_attrs "workup/freq/FT"). done.
Qed.

(** The frequency axis that [fft] stores for [n >= 2] samples with a time
    step [dt] that is not zero: its [n] points are equally spaced by
    [1/(n*dt)], with zero at the index [n/2] (rounded down); the data are in
    kilohertz, while the attributes [initial] and [step] hold the first
    point and the spacing in hertz. *)
Theorem frequency_axis (st : Signal) (s : list R) (xd yd : dataset) (dt : R)
    (name unit : string) :
  windowed_signal st = (Ok s, st) ->
  f st !! "x" = Some xd -> attrs xd !! "step" = Some (AFloat dt) -> dt <> 0 ->
  f st !! "y" = Some yd -> attrs yd !! "name" = Some (AStr name) ->
  attrs yd !! "unit" = Some (AStr unit) ->
  f st !! "workup/freq/freq" = None -> f st !! "workup/freq/FT" = None ->
  (2 <= length s)%nat ->
  let n := length s in
  exists (st' : Signal) (d : dataset) (freq : list R),
    fft st = (Ok tt, st')
    /\ f st' !! "workup/freq/freq" = Some d /\ data d = FloatArr freq
    /\ length freq = n
    /\ (forall i : nat, (i < n)%nat ->
          freq !! i
          = Some ((INR i - INR (n / 2)) / (INR n * dt) / 1000))
    /\ freq !! (n / 2)%nat = Some 0
    /\ attrs d !! "unit" = Some (AStr "kHz")
    /\ attrs d !! "initial" = Some (AFloat (- INR (n / 2) / (INR n * dt)))
    /\ attrs d !! "step" = Some (AFloat (1 / (INR n * dt))).
Proof.
  intros Hs Hx Hstep Hdt Hy Hname Hunit Hfreq HFT Hlen n.
  pose proof (fft_run_axis st s xd yd dt name unit Hs Hx Hstep Hy Hname Hunit
                Hfreq HFT Hlen) as Hrun.
  cbv zeta in Hrun. fold n in Hrun.
  assert (INR n <> 0) as Hn0 by (apply not_0_INR; lia).
  assert (INR n * dt <> 0) as Hnd
    by by apply Rmult_integral_contrapositive_currified.
  assert (forall i : nat, (i < n)%nat ->
            ((fun v => v / 1000) <$> fftshift (fftfreq n dt)) !! i
            = Some ((INR i - INR (n / 2)) / (INR n * dt) / 1000)) as Haxis.
  { intros i Hi. rewrite list_lookup_fmap, frequency_axis_lookup by done.
    cbn [fmap option_fmap option_map]. f_equal.
    replace 1.0 with 1 by lra. field. done. }
  eexists _, _, _. split; [exact Hrun|]. cbn [f].
  split; [by rewrite lookup_insert_ne, lookup_insert_eq|].
  split; [done|].
  split; [by rewrite length_fmap, fftshift_length, fftfreq_length|].
  split; [exact Haxis|].
  split.
  { rewrite Haxis by (apply Nat.div_lt; lia). f_equal. field. done. }
  unfold stored, freq_attrs. cbn [attrs foldl fst snd].
  split; [by rewrite !lookup_insert_ne, lookup_insert_eq by done|].
  split.
  - rewrite lookup_insert_ne, lookup_insert_eq by done. do 2 f_equal.
    replace 1.0 with 1 by lra. change (INR 0) with 0. field. done.
  - rewrite lookup_insert_eq. do 2 f_equal.
    replace 1.0 with 1 by lra. change (INR 0) with 0. change (INR 1) with 1.
    field. done.
Qed.

Lemma frequency_axis_witness :
  let n := length two_samples in
  exists (st' : Signal) (d : dataset) (freq : list R),
    fft (ingest two_samples 1) = (Ok tt, st')
    /\ f st' !! "workup/freq/freq" = Some d /\ data d = FloatArr freq
    /\ length freq = n
    /\ (forall i : nat, (i < n)%nat ->
          freq !! i
          = Some ((INR i - INR (n / 2)) / (INR n * 1) / 1000))
    /\ freq !! (n / 2)%nat = Some 0
    /\ attrs d !! "unit" = Some (AStr "kHz")
    /\ attrs d !! "initial" = Some (AFloat (- INR (n / 2) / (INR n * 1)))
    /\ attrs d !! "step" = Some (AFloat (1 / (INR n * 1))).
Proof.
  destruct (ingest_lookups two_samples 1) as (Hy & Hx & Hfresh).
  destruct (y_attrs_name_unit (FloatArr two_samples) "x" "nm")
    as [Hname Hunit].
  apply (frequency_axis (ingest two_samples 1) two_samples _ _ 1 "x" "nm"
           (windowed_signal_plain _ _ two_samples Hy eq_refl
              (Hfresh "workup/time/mask/binarate" ltac:(done) ltac:(done))
              (Hfresh "workup/time/window/cyclicize" ltac:(done) ltac:(done)))
           Hx (x_attrs_dt _ 1) ltac:(lra) Hy Hname Hunit
           (Hfresh "workup/freq/freq" ltac:(done) ltac:(done))
           (Hfresh "workup/freq/FT" ltac:(done) ltac:(done))).
  simpl. lia.
Defined.

Lemma Csum_RtoC (l : list R) : Csum (RtoC <$> l) = (Rsum l, 0).
Proof.
  induction l as [|x l IH]; [done|].
  rewrite fmap_cons, Csum_cons, IH. unfold Cadd, RtoC. simpl. f_equal. lra.
Qed.

Lemma Csum_Cconj (l : list C) : Csum (Cconj <$> l) = Cconj (Csum l).
Proof.
  induction l as [|x l IH].
  - unfold Cconj, Csum, C0. simpl. f_equal. lra.
  - rewrite fmap_cons, !Csum_cons, IH. unfold Cadd, Cconj. simpl. f_equal. lra.
Qed.

Lemma dft_lookup (sign : R) (x : list C) (k : nat) :
  (k < length x)%nat ->
  dft sign x !! k
  = Some (Csum ((fun j => Cmul (nth j x C0)
                            (cis (sign * (2 * PI * INR j * INR k
                                          / INR (length x)))))
                <$> seq 0 (length x))).
Proof.
  intros Hk. by rewrite dft_unfold, list_lookup_fmap, lookup_seq_lt.
Qed.

Lemma nth_RtoC (s : list R) (j : nat) :
  nth j (RtoC <$> s) C0 = RtoC (nth j s 0).
Proof. revert j. induction s as [|x s IH]; intros [|j]; simpl; auto. Qed.

Lemma fmap_nth_seq (s : list R) :
  (fun j => nth j s 0) <$> seq 0 (length s) = s.
Proof.
  apply list_eq. intros i. rewrite list_lookup_fmap.
  destruct (decide (i < length s)%nat) as [Hi|Hi].
  - rewrite lookup_seq_lt by done. simpl.
    destruct (lookup_lt_is_Some_2 s i Hi) as [v Hv]. rewrite Hv.
    f_equal. by apply nth_lookup_Some.
  - rewrite lookup_seq_ge by lia. simpl. symmetry.
    apply lookup_ge_None_2. lia.
Qed.

(** The term of the transform at frequency zero is the sum of the
    samples. *)
Lemma dft_real_zero (s : list R) :
  s <> [] -> dft (-1) (RtoC <$> s) !! 0%nat = Some (Rsum s, 0).
Proof.
  intros Hne. rewrite dft_lookup by (rewrite length_fmap; destruct s; [done|simpl; lia]).
  f_equal. rewrite length_fmap, <- Csum_RtoC.
  transitivity (Csum (RtoC <$> ((fun j => nth j s 0) <$> seq 0 (length s))));
    [|by rewrite fmap_nth_seq].
  rewrite <- list_fmap_compose.
  f_equal. apply list_fmap_ext. intros _ j _. simpl.
  rewrite nth_RtoC.
  replace (-1 * (2 * PI * INR j * 0 / INR (length s))) with 0
    by (unfold Rdiv; ring).
  rewrite cis_0. unfold RtoC, Cmul, C1. simpl. f_equal; ring.
Qed.

(** The transform of a real signal at the frequencies [k] and [n - k] are
    conjugates of one another. *)
Lemma dft_real_hermitian (s : list R) (k : nat) :
  (1 <= k < length s)%nat ->
  dft (-1) (RtoC <$> s) !! (length s - k)%nat
  = Cconj <$> dft (-1) (RtoC <$> s) !! k.
Proof.
  intros Hk. rewrite !dft_lookup by (rewrite length_fmap; lia).
  cbn [fmap option_fmap option_map]. f_equal.
  rewrite <- Csum_Cconj, <- list_fmap_compose, length_fmap.
  f_equal. apply list_fmap_ext. intros _ j _. simpl.
  rewrite nth_RtoC.
  assert (INR (length s) <> 0) as Hn by (apply not_0_INR; lia).
  replace (-1 * (2 * PI * INR j * INR (length s - k) / INR (length s)))
    with (2 * PI * INR j * INR k / INR (length s)
          + 2 * PI * IZR (- Z.of_nat j)).
  2:{ rewrite minus_INR by lia. rewrite opp_IZR, <- INR_IZR_INZ. by field. }
  rewrite cis_add, cis_2PI_Z.
  unfold Cconj, Cmul, RtoC, cis, C1. simpl.
  replace (-1 * (2 * PI * INR j * INR k / INR (length s)))
    with (- (2 * PI * INR j * INR k / INR (length s))) by ring.
  rewrite cos_neg, sin_neg. f_equal; ring.
Qed.

(** The transform that [fft] stores for a signal of [n >= 2] real samples:
    at the index [n/2], where the frequency is zero, it is the time step
    times the sum of the samples, a real number; and its values at the same
    distance to either side of that index are conjugates of one another, so
    that the magnitudes at opposite frequencies are equal. *)
Theorem transform_of_real_signal (st : Signal) (s : list R) (xd yd : dataset)
    (dt : R) (name unit : string) :
  windowed_signal st = (Ok s, st) ->
  f st !! "x" = Some xd -> attrs xd !! "step" = Some (AFloat dt) ->
  f st !! "y" = Some yd -> attrs yd !! "name" = Some (AStr name) ->
  attrs yd !! "unit" = Some (AStr unit) ->
  f st !! "workup/freq/freq" = None -> f st !! "workup/freq/FT" = None ->
  (2 <= length s)%nat ->
  let n := length s in
  exists (st' : Signal) (d : dataset) (FT : list C),
    fft st = (Ok tt, st')
    /\ f st' !! "workup/freq/FT" = Some d /\ data d = ComplexArr FT
    /\ length FT = n
    /\ FT !! (n / 2)%nat = Some (dt * Rsum s, 0)
    /\ (forall j : nat, (1 <= j)%nat -> (n / 2 + j < n)%nat ->
          exists z : C,
            FT !! (n / 2 + j)%nat = Some z
            /\ FT !! (n / 2 - j)%nat = Some (Cconj z)
            /\ Cabs (Cconj z) = Cabs z).
Proof.
  intros Hs Hx Hstep Hy Hname Hunit Hfreq HFT Hlen n.
  destruct (fft_run st s xd yd dt name unit Hs Hx Hstep Hy Hname Hunit
              Hfreq HFT Hlen) as (f0 & f1 & Hrun).
  set (X := dft (-1) (RtoC <$> s)) in *.
  assert (length X = n) as HX by (unfold X; by rewrite dft_length, length_fmap).
  assert (2 <= n)%nat as Hn2 by done.
  pose proof (Nat.Div0.mul_div_le n 2) as Hh2.
  assert (n / 2 < n)%nat as Hh by (apply Nat.div_lt; lia).
  assert (n < 2 * (n / 2) + 2)%nat as Hh3.
  { pose proof (Nat.div_mod_eq n 2). pose proof (Nat.mod_upper_bound n 2). lia. }
  assert (forall i : nat, (i < n)%nat ->
            (Cscal dt <$> fftshift X) !! i
            = Cscal dt <$> X !! ((i + (n - n / 2)) `mod` n)%nat) as Hlook.
  { intros i Hi. by rewrite list_lookup_fmap, fftshift_lookup, HX by lia. }
  eexists _, _, _. split; [exact Hrun|]. cbn [f].
  split; [by rewrite lookup_insert_eq|]. split; [done|].
  split; [by rewrite length_fmap, fftshift_length|].
  split.
  { rewrite Hlook by done.
    replace (n / 2 + (n - n / 2))%nat with (0 + 1 * n)%nat by lia.
    rewrite Nat.Div0.mod_add, Nat.mod_small by lia.
    unfold X. rewrite dft_real_zero by (destruct s; [simpl in Hlen; lia|done]).
    cbn [fmap option_fmap option_map]. f_equal.
    unfold Cscal. simpl. f_equal. ring. }
  intros j Hj1 Hjn.
  destruct (lookup_lt_is_Some_2 X j ltac:(lia)) as [z Hz].
  exists (Cscal dt z). rewrite !Hlook by lia.
  replace (n / 2 + j + (n - n / 2))%nat with (j + 1 * n)%nat by lia.
  rewrite Nat.Div0.mod_add, Nat.mod_small by lia.
  replace (n / 2 - j + (n - n / 2))%nat with (n - j)%nat by lia.
  rewrite Nat.mod_small by lia.
  unfold X in *. unfold n. rewrite dft_real_hermitian by (fold n; lia).
  rewrite Hz. cbn [fmap option_fmap option_map].
  split; [done|]. split.
  - f_equal. unfold Cscal, Cconj. simpl. f_equal. ring.
  - unfold Cabs, Cconj, Cscal. simpl. f_equal. ring.
Qed.

Lemma transform_of_real_signal_witness :
  let n := length three_samples in
  exists (st' : Signal) (d : dataset) (FT : list C),
    fft (ingest three_samples 1) = (Ok tt, st')
    /\ f st' !! "workup/freq/FT" = Some d /\ data d = ComplexArr FT
    /\ length FT = n
    /\ FT !! (n / 2)%nat = Some (1 * Rsum three_samples, 0)
    /\ (forall j : nat, (1 <= j)%nat -> (n / 2 + j < n)%nat ->
          exists z : C,
            FT !! (n / 2 + j)%nat = Some z
            /\ FT !! (n / 2 - j)%nat = Some (Cconj z)
            /\ Cabs (Cconj z) = Cabs z).
Proof.
  destruct (ingest_lookups three_samples 1) as (Hy & Hx & Hfresh).
  destruct (y_attrs_name_unit (FloatArr three_samples) "x" "nm")
    as [Hname Hunit].
  apply (transform_of_real_signal (ingest three_samples 1) three_samples
           _ _ 1 "x" "nm"
           (windowed_signal_plain _ _ three_samples Hy eq_refl
              (Hfresh "workup/time/mask/binarate" ltac:(done) ltac:(done))
              (Hfresh "workup/time/window/cyclicize" ltac:(done) ltac:(done)))
           Hx (x_attrs_dt _ 1) Hy Hname Hunit
           (Hfresh "workup/freq/freq" ltac:(done) ltac:(done))
           (Hfresh "workup/freq/FT" ltac:(done) ltac:(done))).
  simpl. lia.
Defined.









(** ** Ingesting twice, and stages whose input is missing or too short *)

(** [load_nparray] on a new file stores the samples as [y] and, as [x],
    as many times as there are samples, from zero in steps of [dt]; on the
    file it leaves, or on any file that has a dataset [x], it raises and
    changes nothing. *)
Theorem load_nparray_once (s s' : list R) (s_name s_unit s_name' s_unit' : string)
    (dt dt' : R) (filename : string) :
  exists (st1 : Signal) (xd yd : dataset),
    load_nparray s s_name s_unit dt (init filename) = (Ok tt, st1)
    /\ f st1 !! "x" = Some xd
    /\ data xd = FloatArr ((fun k => dt * INR k) <$> seq 0 (length s))
    /\ attrs xd !! "step" = Some (AFloat dt)
    /\ f st1 !! "y" = Some yd /\ data yd = FloatArr s
    /\ attrs yd !! "abscissa" = Some (AStr "x")
    /\ report st1
       = [RepCreated filename; RepLoad s_name s_unit (length s) dt]
    /\ load_nparray s' s_name' s_unit' dt' st1 = (Raised RuntimeError, st1)
    /\ forall st : Signal, is_Some (f st !! "x") ->
         load_nparray s' s_name' s_unit' dt' st = (Raised RuntimeError, st).
Proof.
  assert (forall st : Signal, is_Some (f st !! "x") ->
            load_nparray s' s_name' s_unit' dt' st = (Raised RuntimeError, st))
    as Hagain.
  { intros st [d Hd]. unfold load_nparray.
    by rewrite (bind_create_dataset_exists _ _ _ d). }
  unfold load_nparray at 1.
  rewrite bind_create_dataset by done.
  rewrite (bind_update_attrs "x").
  rewrite bind_create_dataset by done.
  rewrite (bind_update_attrs "y"). cbn [init f report path].
  eexists _, _, _. split; [reflexivity|]. cbn [f report].
  split; [by rewrite lookup_insert_ne, lookup_insert_eq|].
  split; [done|]. split; [apply x_attrs_dt|].
  split; [apply lookup_insert_eq|]. split; [done|].
  split.
  { unfold stored, y_attrs. cbn [attrs foldl fst snd].
    by rewrite lookup_insert_ne, lookup_insert_eq. }
  split; [done|]. split; [|exact Hagain].
  apply Hagain. cbn [f]. by rewrite lookup_insert_ne, lookup_insert_eq.
Qed.

(** [fft] needs two samples.  Without a sample it raises before anything
    is stored; with one sample it raises when it reads the second frequency
    for the attributes of the axis, after the axis has been stored: the file
    then holds a frequency axis without attributes, and no transform. *)
Theorem fft_needs_two_samples (st : Signal) (s : list R) (xd : dataset)
    (dt : R) :
  windowed_signal st = (Ok s, st) ->
  f st !! "x" = Some xd -> attrs xd !! "step" = Some (AFloat dt) ->
  f st !! "workup/freq/freq" = None ->
  (length s = 0%nat -> fft st = (Raised ValueError, st))
  /\ (length s = 1%nat ->
      exists (st1 : Signal) (d : dataset),
        fft st = (Raised IndexError, st1)
        /\ f st1 !! "workup/freq/freq" = Some d
        /\ size (data d) = 1%nat /\ attrs d = ∅
        /\ f st1 !! "workup/freq/FT" = f st !! "workup/freq/FT"
        /\ report st1 = report st).
Proof.
  intros Hs Hx Hstep Hfreq.
  split; intros Hlen; unfold fft; unfold bind at 1; rewrite Hs;
    rewrite (bind_get _ xd) by done; unfold float_attr;
    rewrite Hstep, bind_ret.
  - destruct s; [|done]. cbn [fmap list_fmap np_fft].
    by rewrite bind_lift_Raised.
  - destruct s as [|v [|? ?]]; try done. cbn [fmap list_fmap np_fft].
    rewrite bind_lift_Ok.
    rewrite bind_create_dataset by done.
    assert (fftshift (fftfreq (length [v]) dt) = [0 * (1.0 / (INR 1 * dt))])
      as -> by done.
    unfold index at 1. cbn [lookup list_lookup]. rewrite bind_ret.
    unfold index at 1. cbn [lookup list_lookup]. rewrite bind_raise.
    eexists _, _. split; [reflexivity|]. cbn [f report path].
    split; [apply lookup_insert_eq|]. split; [done|]. split; [done|].
    split; [by rewrite lookup_insert_ne|done].
Qed.

Lemma fft_needs_two_samples_witness :
  fft (ingest [] 1) = (Raised ValueError, ingest [] 1)
  /\ exists (st1 : Signal) (d : dataset),
       fft (ingest [5] 1) = (Raised IndexError, st1)
       /\ f st1 !! "workup/freq/freq" = Some d
       /\ size (data d) = 1%nat /\ attrs d = ∅
       /\ f st1 !! "workup/freq/FT" = f (ingest [5] 1) !! "workup/freq/FT"
       /\ report st1 = report (ingest [5] 1).
Proof.
  split.
  - destruct (ingest_lookups [] 1) as (Hy & Hx & Hfresh).
    apply (proj1 (fft_needs_two_samples (ingest [] 1) [] _ 1
             (windowed_signal_plain _ _ [] Hy eq_refl
                (Hfresh "workup/time/mask/binarate" ltac:(done) ltac:(done))
                (Hfresh "workup/time/window/cyclicize" ltac:(done) ltac:(done)))
             Hx (x_attrs_dt _ 1)
             (Hfresh "workup/freq/freq" ltac:(done) ltac:(done)))).
    reflexivity.
  - destruct (ingest_lookups [5] 1) as (Hy & Hx & Hfresh).
    apply (proj2 (fft_needs_two_samples (ingest [5] 1) [5] _ 1
             (windowed_signal_plain _ _ [5] Hy eq_refl
                (Hfresh "workup/time/mask/binarate" ltac:(done) ltac:(done))
                (Hfresh "workup/time/window/cyclicize" ltac:(done) ltac:(done)))
             Hx (x_attrs_dt _ 1)
             (Hfresh "workup/freq/freq" ltac:(done) ltac:(done)))).
    reflexivity.
Defined.

(** ** Masks, the masked time axis and the trimming mask *)

Lemma filter_range_from {A} (lo hi : Z) (x : list A) (s : nat) :
  (filter (fun p : bool * A => p.1 = true)
     (zip ((fun i => bool_decide (lo <= Z.of_nat i)%Z
                     && bool_decide (Z.of_nat i < hi)%Z)
           <$> seq s (length x)) x)).*2
  = take (Z.to_nat (hi - Z.max lo (Z.of_nat s)))
         (drop (Z.to_nat (lo - Z.of_nat s)) x).
Proof.
  revert s. induction x as [|a x IH]; intros s.
  - by rewrite drop_nil, take_nil.
  - cbn [length seq fmap list_fmap zip zip_with].
    rewrite filter_cons. cbn [fst]. specialize (IH (S s)).
    case_decide as Hkeep.
    + apply andb_prop in Hkeep as [H1%bool_decide_eq_true_1 H2%bool_decide_eq_true_1].
      rewrite fmap_cons, IH. cbn [snd].
      replace (Z.to_nat (lo - Z.of_nat s)) with 0%nat by lia.
      replace (Z.to_nat (lo - Z.of_nat (S s))) with 0%nat by lia.
      rewrite !drop_0.
      replace (Z.to_nat (hi - lo `max` Z.of_nat s))
        with (S (Z.to_nat (hi - lo `max` Z.of_nat (S s)))) by lia.
      done.
    + rewrite IH.
      apply not_true_is_false, andb_false_iff in Hkeep
        as [H%bool_decide_eq_false_1|H%bool_decide_eq_false_1].
      * replace (Z.to_nat (lo - Z.of_nat s))
          with (S (Z.to_nat (lo - Z.of_nat (S s)))) by lia.
        cbn [drop]. do 2 f_equal. lia.
      * replace (Z.to_nat (hi - lo `max` Z.of_nat s)) with 0%nat by lia.
        replace (Z.to_nat (hi - lo `max` Z.of_nat (S s))) with 0%nat by lia.
        done.
Qed.

(** Indexing with a mask that is true on a range of indices selects the
    samples of that range. *)
Lemma mask_index_range {A} (lo hi : Z) (x : list A) :
  mask_index (range_mask (length x) lo hi) x
  = Ok (take (Z.to_nat (hi - Z.max lo 0)) (drop (Z.to_nat lo) x)).
Proof.
  unfold mask_index. rewrite range_mask_length.
  rewrite bool_decide_eq_true_2 by done. f_equal.
  unfold range_mask. rewrite (filter_range_from lo hi x 0).
  by rewrite Z.sub_0_r.
Qed.

Lemma mask_index_count {A} (m : list bool) (x r : list A) :
  mask_index m x = Ok r ->
  length r = length (filter (fun b : bool => b = true) m).
Proof.
  unfold mask_index. case_bool_decide as Hlen; [|done]. intros [= <-].
  rewrite length_fmap. revert x Hlen.
  induction m as [|b m IH]; intros [|a x] Hlen; try done.
  change (zip (b :: m) (a :: x)) with ((b, a) :: zip m x).
  rewrite !filter_cons. cbn [fst].
  injection Hlen as Hlen. specialize (IH x Hlen).
  destruct b; repeat case_decide; try done; simpl; by rewrite IH.
Qed.

Lemma count_range_mask (n : nat) (lo hi : Z) :
  length (filter (fun b : bool => b = true) (range_mask n lo hi))
  = (Z.to_nat (hi - Z.max lo 0) `min` (n - Z.to_nat lo))%nat.
Proof.
  pose proof (mask_index_range lo hi (replicate n tt)) as H.
  rewrite length_replicate in H.
  rewrite <- (mask_index_count _ _ _ H).
  by rewrite length_take, length_drop, length_replicate.
Qed.

(** ** The unwrapped phase and the amplitude *)

Lemma np_mod_range (x y : R) : 0 < y -> 0 <= np_mod x y < y.
Proof.
  intros Hy. unfold np_mod.
  destruct (base_Int_part (x / y)) as [H1 H2].
  assert (x = x / y * y) as Hx by (field; lra).
  set (k := IZR (Int_part (x / y))) in *.
  split.
  - rewrite Hx at 1. nra.
  - rewrite Hx at 1. nra.
Qed.

(** The correction that [np.unwrap] adds for a jump is a whole number of
    turns, and the corrected jump is at most half a turn. *)
Lemma ph_correct_spec (dd : R) :
  (exists k : Z, ph_correct dd = 2 * PI * IZR k)
  /\ Rabs (dd + ph_correct dd) <= PI.
Proof.
  pose proof PI_RGT_0 as Hpi. unfold ph_correct.
  pose proof (np_mod_range (dd + PI) (2 * PI) ltac:(lra)) as [Hlo Hhi].
  unfold np_mod in *.
  set (k := Int_part ((dd + PI) / (2 * PI))) in *.
  destruct (Rlt_dec (Rabs dd) PI) as [Hsmall|Hbig].
  - split; [exists 0%Z; lra|]. rewrite Rplus_0_r. lra.
  - destruct (Req_dec_T (dd + PI - IZR k * (2 * PI) - PI) (- PI)) as [Heq|Hne].
    + destruct (Rlt_dec 0 dd) as [Hpos|Hneg].
      * split.
        -- exists (1 - k)%Z. rewrite minus_IZR. lra.
        -- replace (dd + (PI - dd)) with PI by lra.
           rewrite Rabs_right; lra.
      * split.
        -- exists (- k)%Z. rewrite opp_IZR. lra.
        -- replace (dd + (dd + PI - IZR k * (2 * PI) - PI - dd))
             with (dd + PI - IZR k * (2 * PI) - PI) by lra.
           rewrite Heq, Rabs_Ropp, Rabs_right; lra.
    + split.
      * exists (- k)%Z. rewrite opp_IZR. lra.
      * replace (dd + (dd + PI - IZR k * (2 * PI) - PI - dd))
          with (dd + PI - IZR k * (2 * PI) - PI) by lra.
        apply Rabs_le. lra.
Qed.

Lemma unwrap_from_length (prev acc : R) (p : list R) :
  length (unwrap_from prev acc p) = length p.
Proof.
  revert prev acc. induction p as [|x p IH]; intros prev acc; [done|].
  simpl. by rewrite IH.
Qed.

Lemma unwrap_from_spec (prev acc : R) (p : list R) (ka : Z) :
  acc = 2 * PI * IZR ka ->
  (forall i a, p !! i = Some a ->
     exists (b : R) (k : Z),
       unwrap_from prev acc p !! i = Some b /\ b = a + 2 * PI * IZR k)
  /\ (forall b, head (unwrap_from prev acc p) = Some b ->
        Rabs (b - (prev + acc)) <= PI)
  /\ (forall i u v, unwrap_from prev acc p !! i = Some u ->
        unwrap_from prev acc p !! S i = Some v -> Rabs (v - u) <= PI).
Proof.
  revert prev acc ka. induction p as [|x p IH]; intros prev acc ka Hacc.
  - split; [done|]. split; [done|]. done.
  - cbn [unwrap_from]. destruct (ph_correct_spec (x - prev)) as [[kc Hkc] Hjump].
    set (acc' := acc + ph_correct (x - prev)) in *.
    assert (acc' = 2 * PI * IZR (ka + kc)) as Hacc'
      by (unfold acc'; rewrite plus_IZR; lra).
    destruct (IH x acc' (ka + kc)%Z Hacc') as (Hoff & Hhead & Hsteps).
    split; [|split].
    + intros [|i] a Ha.
      * injection Ha as <-. exists (x + acc'), (ka + kc)%Z.
        split; [done|lra].
      * by apply Hoff.
    + intros b [= <-].
      replace (x + acc' - (prev + acc)) with (x - prev + ph_correct (x - prev))
        by (unfold acc'; lra).
      done.
    + intros [|i] u v Hu Hv.
      * injection Hu as <-. apply Hhead.
        by destruct (unwrap_from x acc' p).
      * by apply (Hsteps i).
Qed.

Lemma np_unwrap_spec (p : list R) :
  length (np_unwrap p) = length p
  /\ head (np_unwrap p) = head p
  /\ (forall i a, p !! i = Some a ->
        exists (b : R) (k : Z),
          np_unwrap p !! i = Some b /\ b = a + 2 * PI * IZR k)
  /\ (forall i u v, np_unwrap p !! i = Some u ->
        np_unwrap p !! S i = Some v -> Rabs (v - u) <= PI).
Proof.
  destruct p as [|x p]; [done|]. cbn [np_unwrap].
  destruct (unwrap_from_spec x 0 p 0 ltac:(lra)) as (Hoff & Hhead & Hsteps).
  split; [simpl; by rewrite unwrap_from_length|]. split; [done|]. split.
  - intros [|i] a Ha.
    + injection Ha as <-. exists x, 0%Z. split; [done|lra].
    + by apply Hoff.
  - intros [|i] u v Hu Hv.
    + injection Hu as <-.
      replace (v - x) with (v - (x + 0)) by lra. apply Hhead.
      by destruct (unwrap_from x 0 p).
    + by apply (Hsteps i).
Qed.

Lemma np_ifft_nonempty (sp : list C) :
  sp <> [] ->
  np_ifft (fftshift sp)
  = Ok (Cscal (1 / INR (length sp)) <$> dft 1 (fftshift sp)).
Proof.
  intros Hne. unfold np_ifft. rewrite fftshift_length.
  destruct (fftshift sp) eqn:Hsh; [|done].
  apply (f_equal length) in Hsh. rewrite fftshift_length in Hsh.
  destruct sp; [done|simpl in Hsh; lia].
Qed.

Ltac ifft_store_steps yd Hunit :=
  rewrite bind_create_dataset by done;
  rewrite (bind_get _ yd) by (simpl; by rewrite lookup_insert_ne);
  unfold str_attr; rewrite Hunit, bind_ret;
  rewrite (bind_update_attrs "workup/time/z");
  rewrite bind_create_dataset by (simpl; by rewrite lookup_insert_ne);
  rewrite (bind_update_attrs "workup/time/p");
  rewrite bind_create_dataset by (simpl; by rewrite !lookup_insert_ne);
  rewrite (bind_update_attrs "workup/time/a").

(** [ifft] without a trimming mask. *)
Lemma ifft_run_plain (st : Signal) (sp : list C) (yd : dataset)
    (unit : string) :
  filtered_spectrum st = (Ok sp, st) -> sp <> [] ->
  f st !! "workup/time/mask/rippleless" = None ->
  f st !! "y" = Some yd -> attrs yd !! "unit" = Some (AStr unit) ->
  f st !! "workup/time/z" = None -> f st !! "workup/time/p" = None ->
  f st !! "workup/time/a" = None ->
  ifft st
  = (Ok tt,
     ifft_stores (Cscal (1 / INR (length sp)) <$> dft 1 (fftshift sp)) unit
       (if bool_decide (is_Some (f st !! "workup/time/mask/binarate"))
        then "/workup/x_binarated" else "x") st).
Proof.
  intros Hsp Hne Hrip Hy Hunit Hz Hp Ha. unfold ifft.
  unfold bind at 1. rewrite Hsp.
  rewrite np_ifft_nonempty by done. rewrite bind_lift_Ok.
  rewrite bind_contains_false by done.
  rewrite bind_assoc, bind_contains, bind_ret. cbn [fst snd].
  ifft_store_steps yd Hunit. done.
Qed.

(** [ifft] with a trimming mask. *)
Lemma ifft_run_trimmed (st : Signal) (sp : list C) (yd md : dataset)
    (unit : string) (mask : list bool) (zs : list C) :
  filtered_spectrum st = (Ok sp, st) -> sp <> [] ->
  f st !! "workup/time/mask/rippleless" = Some md ->
  data md = BoolArr mask ->
  mask_index mask (Cscal (1 / INR (length sp)) <$> dft 1 (fftshift sp))
  = Ok zs ->
  f st !! "y" = Some yd -> attrs yd !! "unit" = Some (AStr unit) ->
  f st !! "workup/time/z" = None -> f st !! "workup/time/p" = None ->
  f st !! "workup/time/a" = None ->
  ifft st = (Ok tt, ifft_stores zs unit "workup/x_rippleless" st).
Proof.
  intros Hsp Hne Hrip Hmask Hzs Hy Hunit Hz Hp Ha. unfold ifft.
  unfold bind at 1. rewrite Hsp.
  rewrite np_ifft_nonempty by done. rewrite bind_lift_Ok.
  rewrite (bind_contains_true _ md) by done.
  rewrite !bind_assoc. rewrite (bind_get _ md) by done.
  rewrite bind_assoc. unfold bool_data. rewrite Hmask, bind_ret.
  rewrite bind_assoc, Hzs, bind_lift_Ok, bind_ret. cbn [fst snd].
  ifft_store_steps yd Hunit. done.
Qed.

Lemma ifft_stores_lookups (zs : list C) (unit abscissa : string)
    (st : Signal) :
  data <$> (f (ifft_stores zs unit abscissa st) !! "workup/time/z")
  = Some (ComplexArr zs)
  /\ data <$> (f (ifft_stores zs unit abscissa st) !! "workup/time/p")
     = Some (FloatArr ((fun v => v / (2 * PI))
                       <$> np_unwrap (np_angle <$> zs)))
  /\ data <$> (f (ifft_stores zs unit abscissa st) !! "workup/time/a")
     = Some (FloatArr (Cabs <$> zs))
  /\ report (ifft_stores zs unit abscissa st) = report st ++ [RepIfft].
Proof.
  unfold ifft_stores. cbn [f report].
  split; [by rewrite !lookup_insert_ne, lookup_insert_eq by done|].
  split; [by rewrite lookup_insert_ne, lookup_insert_eq by done|].
  split; [by rewrite lookup_insert_eq|done].
Qed.

(** What [ifft] stores besides the complex signal [z], whether it trims it
    or not: the amplitude is the magnitude of [z], sample by sample; the
    phase, in turns, starts with the argument of the first sample, differs
    from the argument of each sample by a whole number of turns, and never
    moves by more than half a turn from one sample to the next. *)
Theorem phase_and_amplitude (st : Signal) (sp zs : list C) (yd : dataset)
    (unit : string) :
  filtered_spectrum st = (Ok sp, st) -> sp <> [] ->
  (f st !! "workup/time/mask/rippleless" = None
   /\ zs = Cscal (1 / INR (length sp)) <$> dft 1 (fftshift sp))
  \/ (exists (md : dataset) (mask : list bool),
        f st !! "workup/time/mask/rippleless" = Some md
        /\ data md = BoolArr mask
        /\ mask_index mask (Cscal (1 / INR (length sp)) <$> dft 1 (fftshift sp))
           = Ok zs) ->
  f st !! "y" = Some yd -> attrs yd !! "unit" = Some (AStr unit) ->
  f st !! "workup/time/z" = None -> f st !! "workup/time/p" = None ->
  f st !! "workup/time/a" = None ->
  exists (st' : Signal) (p a : list R),
    ifft st = (Ok tt, st')
    /\ data <$> (f st' !! "workup/time/z") = Some (ComplexArr zs)
    /\ data <$> (f st' !! "workup/time/p") = Some (FloatArr p)
    /\ data <$> (f st' !! "workup/time/a") = Some (FloatArr a)
    /\ length p = length zs /\ length a = length zs
    /\ (forall i z, zs !! i = Some z ->
          a !! i = Some (Cabs z) /\ 0 <= Cabs z
          /\ exists k : Z, p !! i = Some (np_angle z / (2 * PI) + IZR k))
    /\ (forall z, head zs = Some z -> head p = Some (np_angle z / (2 * PI)))
    /\ (forall i u v, p !! i = Some u -> p !! S i = Some v ->
          Rabs (v - u) <= 1 / 2).
Proof.
  intros Hsp Hne Htrim Hy Hunit Hz Hp Ha.
  assert (exists abscissa, ifft st = (Ok tt, ifft_stores zs unit abscissa st))
    as [abscissa Hrun].
  { destruct Htrim as [[Hrip ->]|(md & mask & Hrip & Hmask & Hzs)].
    - eexists. by apply (ifft_run_plain st sp yd unit).
    - eexists. by apply (ifft_run_trimmed st sp yd md unit mask zs). }
  destruct (ifft_stores_lookups zs unit abscissa st) as (Hzd & Hpd & Had & _).
  destruct (np_unwrap_spec (np_angle <$> zs)) as (Hlen & Hhead & Hoff & Hsteps).
  pose proof PI_RGT_0 as Hpi.
  eexists _, _, _. split; [exact Hrun|].
  split; [exact Hzd|]. split; [exact Hpd|]. split; [exact Had|].
  split; [by rewrite length_fmap, Hlen, length_fmap|].
  split; [by rewrite length_fmap|]. split; [|split].
  - intros i z Hi. split; [by rewrite list_lookup_fmap, Hi|].
    split; [apply Cabs_nonneg|].
    destruct (Hoff i (np_angle z)) as (b & k & Hb & ->);
      [by rewrite list_lookup_fmap, Hi|].
    exists k. rewrite list_lookup_fmap, Hb. cbn [fmap option_fmap option_map].
    f_equal. field. lra.
  - intros z Hz0. destruct zs as [|z0 zs']; [done|].
    injection Hz0 as ->. reflexivity.
  - intros i u v. rewrite !list_lookup_fmap.
    destruct (np_unwrap (np_angle <$> zs) !! i) as [u'|] eqn:Hu; [|done].
    destruct (np_unwrap (np_angle <$> zs) !! S i) as [v'|] eqn:Hv; [|done].
    cbn [fmap option_fmap option_map]. intros [= <-] [= <-].
    specialize (Hsteps i u' v' Hu Hv).
    replace (v' / (2 * PI) - u' / (2 * PI)) with ((v' - u') / (2 * PI))
      by (field; lra).
    unfold Rdiv at 1. rewrite Rabs_mult, (Rabs_right (/ (2 * PI))).
    + apply (Rmult_le_reg_r (2 * PI)); [lra|]. field_simplify; lra.
    + left. apply Rinv_0_lt_compat. lra.
Qed.

Lemma transformed_file_eq :
  exists f0 f1 : R,
    transformed_file
    = {| f := <["workup/freq/FT" :=
                  stored (ComplexArr
                            (Cscal 1 <$> fftshift (dft (-1) (RtoC <$> two_samples))))
                         (FT_attrs "x" "nm")]>
                (<["workup/freq/freq" :=
                     stored (FloatArr ((fun v => v / 1000)
                                       <$> fftshift (fftfreq 2 1)))
                            (freq_attrs f0 f1)]> (f (ingest two_samples 1)));
         report := report (ingest two_samples 1) ++ [RepFft] |}.
Proof.
  destruct (ingest_lookups two_samples 1) as (Hy & Hx & Hfresh).
  destruct (y_attrs_name_unit (FloatArr two_samples) "x" "nm")
    as [Hname Hunit].
  assert (windowed_signal (ingest two_samples 1)
          = (Ok two_samples, ingest two_samples 1)) as Hs
    by (apply (windowed_signal_plain _ _ two_samples Hy eq_refl);
        by apply Hfresh).
  destruct (fft_run (ingest two_samples 1) two_samples _ _ 1 "x" "nm"
              Hs Hx (x_attrs_dt _ 1) Hy Hname Hunit) as (f0 & f1 & Hfft);
    try (apply Hfresh; done); [simpl; lia|].
  pose proof fft_of_two_samples as Hrun. cbn [run_stage] in Hrun.
  rewrite Hfft in Hrun. apply (f_equal snd) in Hrun. cbn [snd] in Hrun.
  exists f0, f1. by rewrite <- Hrun.
Qed.

Lemma phase_and_amplitude_witness :
  let sp := (fun z : C => (z.1 / 1, z.2 / 1))
            <$> (Cscal 1 <$> fftshift (dft (-1) (RtoC <$> two_samples))) in
  let zs := Cscal (1 / INR (length sp)) <$> dft 1 (fftshift sp) in
  exists (st' : Signal) (p a : list R),
    ifft transformed_file = (Ok tt, st')
    /\ data <$> (f st' !! "workup/time/z") = Some (ComplexArr zs)
    /\ data <$> (f st' !! "workup/time/p") = Some (FloatArr p)
    /\ data <$> (f st' !! "workup/time/a") = Some (FloatArr a)
    /\ length p = length zs /\ length a = length zs
    /\ (forall i z, zs !! i = Some z ->
          a !! i = Some (Cabs z) /\ 0 <= Cabs z
          /\ exists k : Z, p !! i = Some (np_angle z / (2 * PI) + IZR k))
    /\ (forall z, head zs = Some z -> head p = Some (np_angle z / (2 * PI)))
    /\ (forall i u v, p !! i = Some u -> p !! S i = Some v ->
          Rabs (v - u) <= 1 / 2).
Proof.
  intros sp zs.
  destruct (ingest_lookups two_samples 1) as (Hy & Hx & Hfresh).
  destruct (y_attrs_name_unit (FloatArr two_samples) "x" "nm")
    as [_ Hunit].
  destruct transformed_file_eq as (f0 & f1 & Heq).
  assert (forall k, k <> "workup/freq/FT" -> k <> "workup/freq/freq" ->
            f transformed_file !! k = f (ingest two_samples 1) !! k) as Hframe.
  { intros k H1 H2. rewrite Heq. cbn [f]. by rewrite !lookup_insert_ne. }
  assert (forall k, k <> "workup/freq/FT" -> k <> "workup/freq/freq" ->
            k <> "x" -> k <> "y" -> f transformed_file !! k = None) as Hnone.
  { intros k H1 H2 H3 H4. rewrite Hframe by done. by apply Hfresh. }
  apply (phase_and_amplitude transformed_file sp zs
           (stored (FloatArr two_samples) (y_attrs "x" "nm")) "nm").
  - apply (filtered_spectrum_unfiltered transformed_file
             (stored (ComplexArr
                        (Cscal 1 <$> fftshift (dft (-1) (RtoC <$> two_samples))))
                (FT_attrs "x" "nm"))
             (stored (FloatArr ((fun k => 1 * INR k) <$> seq 0 (length two_samples)))
                (x_attrs 1))).
    + rewrite Heq. cbn [f]. apply lookup_insert_eq.
    + done.
    + by rewrite Hframe.
    + apply x_attrs_dt.
    + by apply Hnone.
    + by apply Hnone.
  - done.
  - left. split; [by apply Hnone|done].
  - rewrite Hframe by done. exact Hy.
  - exact Hunit.
  - by apply Hnone.
  - by apply Hnone.
  - by apply Hnone.
Defined.

(** ** The stages one after the other *)

Lemma time_mask_binarate_run (st : Signal) (y : dataset) (mode : string) b :
  f st !! "y" = Some y -> (1 <= size (data y))%nat ->
  binarate_bounds mode (Z.of_nat (size (data y)))
    (2 ^ Z.log2 (Z.of_nat (size (data y)))) = Some b ->
  f st !! "workup/time/mask/binarate" = None ->
  time_mask_binarate mode st
  = (Ok tt,
     {| f := <["workup/time/mask/binarate" :=
                 stored (BoolArr (range_mask (size (data y)) b.1 b.2))
                        binarate_attrs]> (f st);
        report := report st
                  ++ [RepMaskBinarate (2 ^ Z.log2 (Z.of_nat (size (data y))))
                        b.1 b.2] |}).
Proof.
  intros Hy Hn Hb Hnone. unfold time_mask_binarate.
  rewrite (bind_get _ y) by done.
  unfold nearest_power_of_2. rewrite bool_decide_eq_false_2 by lia.
  rewrite bind_lift_Ok, Hb, bind_ret.
  rewrite bind_create_dataset by done.
  by rewrite (bind_update_attrs "workup/time/mask/binarate").
Qed.

Lemma window_target_masked (st : Signal) (md xd : dataset) (m : list bool)
    (x xb : list R) (x0 x1 : R) :
  f st !! "workup/time/mask/binarate" = Some md -> data md = BoolArr m ->
  f st !! "x" = Some xd -> data xd = FloatArr x ->
  mask_index m x = Ok xb -> xb !! 0%nat = Some x0 -> xb !! 1%nat = Some x1 ->
  f st !! "workup/x_binarated" = None ->
  window_target st
  = (Ok (length (filter (fun b : bool => b = true) m), "workup/x_binarated"),
     {| f := <["workup/x_binarated" :=
                 stored (FloatArr xb) (masked_time_attrs x0 x1)]> (f st);
        report := report st |}).
Proof.
  intros Hmd Hm Hxd Hx Hxb Hx0 Hx1 Hnone. unfold window_target.
  rewrite (bind_contains_true _ md) by done.
  rewrite (bind_get _ md) by done. unfold bool_data. rewrite Hm, bind_ret.
  rewrite (bind_get _ xd) by done. unfold float_data. rewrite Hx, bind_ret.
  rewrite Hxb, bind_lift_Ok.
  rewrite bind_create_dataset by done.
  unfold index at 1. rewrite Hx0, bind_ret.
  unfold index at 1. rewrite Hx1, bind_ret.
  by rewrite (bind_update_attrs "workup/x_binarated").
Qed.

Lemma windowed_signal_masked_windowed (st : Signal) (yd md wd : dataset)
    (s sm w : list R) (m : list bool) :
  f st !! "y" = Some yd -> data yd = FloatArr s ->
  f st !! "workup/time/mask/binarate" = Some md -> data md = BoolArr m ->
  mask_index m s = Ok sm ->
  f st !! "workup/time/window/cyclicize" = Some wd -> data wd = FloatArr w ->
  length w = length sm ->
  windowed_signal st = (Ok (zip_with Rmult w sm), st).
Proof.
  intros Hyd Hs Hmd Hm Hsm Hwd Hw Hlen. unfold windowed_signal.
  rewrite (bind_get _ yd) by done. unfold float_data at 1. rewrite Hs, bind_ret.
  rewrite (bind_contains_true _ md) by done.
  rewrite bind_assoc, (bind_get _ md) by done.
  rewrite bind_assoc. unfold bool_data. rewrite Hm, bind_ret.
  rewrite Hsm, bind_lift_Ok.
  rewrite (bind_contains_true _ wd) by done.
  rewrite (bind_get _ wd) by done. unfold float_data. rewrite Hw, bind_ret.
  by rewrite np_multiply_same_length.
Qed.

Lemma filtered_spectrum_filtered (st : Signal) (ftd xd hd bd : dataset)
    (FT : list C) (dt : R) (Hc bp : list R) :
  f st !! "workup/freq/FT" = Some ftd -> data ftd = ComplexArr FT ->
  f st !! "x" = Some xd -> attrs xd !! "step" = Some (AFloat dt) ->
  f st !! "workup/freq/filter/Hc" = Some hd -> data hd = FloatArr Hc ->
  f st !! "workup/freq/filter/bp" = Some bd -> data bd = FloatArr bp ->
  length Hc = length FT -> length bp = length FT ->
  filtered_spectrum st
  = (Ok (zip_with (fun z h => Cscal h z)
           (zip_with (fun z h => Cscal h z)
              ((fun z : C => (z.1 / dt, z.2 / dt)) <$> FT) Hc) bp), st).
Proof.
  intros Hftd HFT Hx Hstep Hhd HHc Hbd Hbp HlenH HlenB.
  unfold filtered_spectrum.
  rewrite (bind_get _ ftd) by done. unfold complex_data. rewrite HFT, bind_ret.
  rewrite (bind_get _ xd) by done. unfold float_attr. rewrite Hstep, bind_ret.
  rewrite (bind_contains_true _ hd) by done.
  rewrite bind_assoc, (bind_get _ hd) by done.
  rewrite bind_assoc. unfold float_data at 1. rewrite HHc, bind_ret.
  rewrite np_multiply_same_length by (by rewrite length_fmap).
  rewrite bind_lift_Ok.
  rewrite (bind_contains_true _ bd) by done.
  rewrite (bind_get _ bd) by done. unfold float_data. rewrite Hbp, bind_ret.
  rewrite np_multiply_same_length; [done|].
  rewrite length_zip_with, length_fmap. unfold C in *. lia.
Qed.

(** [time_mask_rippleless] on the time axis [x] or, when the binarate mask
    is defined, on the masked time axis: the two datasets have been created
    when the first two points of the trimmed axis are read. *)
Lemma time_mask_rippleless_steps (td : R) (st : Signal) (xd : dataset) (dt : R)
    (ax : list R) (abscissa : string) :
  f st !! "x" = Some xd -> attrs xd !! "step" = Some (AFloat dt) -> dt <> 0 ->
  (f st !! "workup/time/mask/binarate" = None
   /\ data xd = FloatArr ax /\ abscissa = "x")
  \/ (exists md xb : dataset,
        f st !! "workup/time/mask/binarate" = Some md
        /\ f st !! "workup/x_binarated" = Some xb
        /\ data xb = FloatArr ax /\ abscissa = "/workup/x_binarated") ->
  let ww := py_ceil (td / dt) in
  let n := Z.of_nat (length ax) in
  let xr := take (Z.to_nat (n - ww - Z.max ww 0)) (drop (Z.to_nat ww) ax) in
  f st !! "workup/time/mask/rippleless" = None ->
  f st !! "workup/x_rippleless" = None ->
  time_mask_rippleless td st
  = (let* x0 := index xr 0 in
     let* x1 := index xr 1 in
     let* _ := update_attrs "workup/x_rippleless" (masked_time_attrs x0 x1) in
     append_report (RepRippleless (IZR ww * dt)))
      {| f := <["workup/x_rippleless" := stored (FloatArr xr) []]>
                (<["workup/time/mask/rippleless" :=
                     stored (BoolArr (range_mask (length ax) ww (n - ww)))
                            (rippleless_attrs abscissa)]> (f st));
         report := report st |}.
Proof.
  intros Hx Hstep Hdt Haxis ww n xr Hmask Hxr.
  unfold time_mask_rippleless.
  rewrite (bind_get _ xd) by done. unfold float_attr. rewrite Hstep, bind_ret.
  unfold ceil_ratio. destruct (Req_dec_T dt 0) as [?|_]; [done|].
  replace (1.0 * td / (1.0 * dt)) with (td / dt) by (field; lra).
  rewrite bind_lift_Ok. fold ww.
  destruct Haxis as [(Hm & Hax & ->)|(md & xb & Hm & Hxb & Hax & ->)].
  - rewrite bind_contains_false by done.
    rewrite bind_assoc, (bind_get _ xd) by done.
    rewrite bind_assoc. unfold float_data. rewrite Hax, !bind_ret.
    cbn [fst snd]. fold n. rewrite mask_index_range, bind_lift_Ok. fold xr.
    rewrite bind_create_dataset by done.
    rewrite (bind_update_attrs "workup/time/mask/rippleless").
    by rewrite bind_create_dataset by (simpl; by rewrite lookup_insert_ne).
  - rewrite (bind_contains_true _ md) by done.
    rewrite bind_assoc, (bind_get _ xb) by done.
    rewrite bind_assoc. unfold float_data. rewrite Hax, !bind_ret.
    cbn [fst snd]. fold n. rewrite mask_index_range, bind_lift_Ok. fold xr.
    rewrite bind_create_dataset by done.
    rewrite (bind_update_attrs "workup/time/mask/rippleless").
    by rewrite bind_create_dataset by (simpl; by rewrite lookup_insert_ne).
Qed.

Lemma time_mask_rippleless_run (td : R) (st : Signal) (xd : dataset) (dt : R)
    (ax : list R) (abscissa : string) (x0 x1 : R) :
  f st !! "x" = Some xd -> attrs xd !! "step" = Some (AFloat dt) -> dt <> 0 ->
  (f st !! "workup/time/mask/binarate" = None
   /\ data xd = FloatArr ax /\ abscissa = "x")
  \/ (exists md xb : dataset,
        f st !! "workup/time/mask/binarate" = Some md
        /\ f st !! "workup/x_binarated" = Some xb
        /\ data xb = FloatArr ax /\ abscissa = "/workup/x_binarated") ->
  let ww := py_ceil (td / dt) in
  let n := Z.of_nat (length ax) in
  let xr := take (Z.to_nat (n - ww - Z.max ww 0)) (drop (Z.to_nat ww) ax) in
  xr !! 0%nat = Some x0 -> xr !! 1%nat = Some x1 ->
  f st !! "workup/time/mask/rippleless" = None ->
  f st !! "workup/x_rippleless" = None ->
  time_mask_rippleless td st
  = (Ok tt,
     {| f := <["workup/x_rippleless" :=
                 stored (FloatArr xr) (masked_time_attrs x0 x1)]>
               (<["workup/time/mask/rippleless" :=
                    stored (BoolArr (range_mask (length ax) ww (n - ww)))
                           (rippleless_attrs abscissa)]> (f st));
        report := report st ++ [RepRippleless (IZR ww * dt)] |}).
Proof.
  intros Hx Hstep Hdt Haxis ww n xr Hx0 Hx1 Hmask Hxr.
  rewrite (time_mask_rippleless_steps td st xd dt ax abscissa) by done.
  fold ww n xr.
  unfold index at 1. rewrite Hx0, bind_ret.
  unfold index at 1. rewrite Hx1, bind_ret.
  by rewrite (bind_update_attrs "workup/x_rippleless").
Qed.

(** The trimming mask of [time_mask_rippleless] for a dead time of
    [ww >= 0] points that leaves at least two points: the mask is true from
    the index [ww] up to, and not including, the index [n - ww]; the trimmed
    time axis holds the [n - 2*ww] times in between; and the dead time that
    is realised and reported exceeds the target by less than a time step. *)
Theorem trimming_mask (td : R) (st : Signal) (xd : dataset) (dt : R)
    (ax : list R) (abscissa : string) :
  f st !! "x" = Some xd -> attrs xd !! "step" = Some (AFloat dt) -> 0 < dt ->
  (f st !! "workup/time/mask/binarate" = None
   /\ data xd = FloatArr ax /\ abscissa = "x")
  \/ (exists md xb : dataset,
        f st !! "workup/time/mask/binarate" = Some md
        /\ f st !! "workup/x_binarated" = Some xb
        /\ data xb = FloatArr ax /\ abscissa = "/workup/x_binarated") ->
  f st !! "workup/time/mask/rippleless" = None ->
  f st !! "workup/x_rippleless" = None ->
  let ww := py_ceil (td / dt) in
  let n := Z.of_nat (length ax) in
  (0 <= ww)%Z -> (2 <= n - 2 * ww)%Z ->
  exists (st' : Signal) (md xrd : dataset) (mask : list bool) (td_actual : R),
    time_mask_rippleless td st = (Ok tt, st')
    /\ f st' !! "workup/time/mask/rippleless" = Some md
    /\ data md = BoolArr mask /\ length mask = length ax
    /\ (forall i : nat, (i < length ax)%nat ->
          mask !! i = Some (bool_decide (ww <= Z.of_nat i < n - ww)%Z))
    /\ attrs md !! "abscissa" = Some (AStr abscissa)
    /\ f st' !! "workup/x_rippleless" = Some xrd
    /\ data xrd = FloatArr (take (Z.to_nat (n - 2 * ww)) (drop (Z.to_nat ww) ax))
    /\ report st' = report st ++ [RepRippleless td_actual]
    /\ td_actual = IZR ww * dt /\ td <= td_actual < td + dt.
Proof.
  intros Hx Hstep Hdt Haxis Hmask Hxr ww n Hww Hfits.
  set (xr := take (Z.to_nat (n - ww - Z.max ww 0)) (drop (Z.to_nat ww) ax)).
  assert (2 <= length xr)%nat as Hlen
    by (unfold xr; rewrite length_take, length_drop; lia).
  destruct (lookup_lt_is_Some_2 xr 0 ltac:(lia)) as [x0 Hx0].
  destruct (lookup_lt_is_Some_2 xr 1 ltac:(lia)) as [x1 Hx1].
  pose proof (time_mask_rippleless_run td st xd dt ax abscissa x0 x1
                Hx Hstep ltac:(lra) Haxis Hx0 Hx1 Hmask Hxr) as Hrun.
  cbv zeta in Hrun. fold ww n xr in Hrun.
  eexists _, _, _, _, _. split; [exact Hrun|]. cbn [f report].
  split; [by rewrite lookup_insert_ne, lookup_insert_eq|].
  split; [done|]. split; [apply range_mask_length|].
  split; [intros i Hi; by apply range_mask_lookup|].
  split.
  { unfold stored, rippleless_attrs. cbn [attrs foldl fst snd].
    by rewrite lookup_insert_eq. }
  split; [apply lookup_insert_eq|].
  split.
  { cbn [data stored]. unfold xr. do 3 f_equal. lia. }
  split; [done|]. split; [done|].
  pose proof (py_ceil_bounds (td / dt)) as [Hlo Hhi]. fold ww in Hlo, Hhi.
  assert (td / dt * dt = td) as Htd by (field; lra).
  set (q := td / dt) in *. split; nra.
Qed.

Lemma trimming_mask_witness :
  let ax := (fun k => 1 * INR k) <$> seq 0 (length five_samples) in
  let ww := py_ceil (1 / 1) in
  let n := Z.of_nat (length ax) in
  exists (st' : Signal) (md xrd : dataset) (mask : list bool) (td_actual : R),
    time_mask_rippleless 1 (ingest five_samples 1) = (Ok tt, st')
    /\ f st' !! "workup/time/mask/rippleless" = Some md
    /\ data md = BoolArr mask /\ length mask = length ax
    /\ (forall i : nat, (i < length ax)%nat ->
          mask !! i = Some (bool_decide (ww <= Z.of_nat i < n - ww)%Z))
    /\ attrs md !! "abscissa" = Some (AStr "x")
    /\ f st' !! "workup/x_rippleless" = Some xrd
    /\ data xrd = FloatArr (take (Z.to_nat (n - 2 * ww)) (drop (Z.to_nat ww) ax))
    /\ report st' = report (ingest five_samples 1) ++ [RepRippleless td_actual]
    /\ td_actual = IZR ww * 1 /\ 1 <= td_actual < 1 + 1.
Proof.
  destruct (ingest_lookups five_samples 1) as (Hy & Hx & Hfresh).
  apply (trimming_mask 1 (ingest five_samples 1) _ 1
           ((fun k => 1 * INR k) <$> seq 0 (length five_samples)) "x"
           Hx (x_attrs_dt _ 1) ltac:(lra)
           (or_introl
              (conj (Hfresh "workup/time/mask/binarate" ltac:(done) ltac:(done))
                 (conj eq_refl eq_refl)))
           (Hfresh "workup/time/mask/rippleless" ltac:(done) ltac:(done))
           (Hfresh "workup/x_rippleless" ltac:(done) ltac:(done))).
  - rewrite (py_ceil_IZR 1). lia.
  - rewrite (py_ceil_IZR 1). simpl. lia.
Defined.

(** With a dead time so long that fewer than two points are left,
    [time_mask_rippleless] raises when it reads the first two points of the
    trimmed axis for its attributes; by then the mask and the trimmed axis,
    of at most one point and without attributes, are in the file, and the
    report has no line for the stage. *)
Theorem dead_time_too_long (td : R) (st : Signal) (xd : dataset) (dt : R)
    (ax : list R) (abscissa : string) :
  f st !! "x" = Some xd -> attrs xd !! "step" = Some (AFloat dt) -> dt <> 0 ->
  (f st !! "workup/time/mask/binarate" = None
   /\ data xd = FloatArr ax /\ abscissa = "x")
  \/ (exists md xb : dataset,
        f st !! "workup/time/mask/binarate" = Some md
        /\ f st !! "workup/x_binarated" = Some xb
        /\ data xb = FloatArr ax /\ abscissa = "/workup/x_binarated") ->
  f st !! "workup/time/mask/rippleless" = None ->
  f st !! "workup/x_rippleless" = None ->
  let ww := py_ceil (td / dt) in
  let n := Z.of_nat (length ax) in
  (n - ww - Z.max ww 0 < 2)%Z ->
  exists (st1 : Signal) (md xrd : dataset),
    time_mask_rippleless td st = (Raised IndexError, st1)
    /\ f st1 !! "workup/time/mask/rippleless" = Some md
    /\ data md = BoolArr (range_mask (length ax) ww (n - ww))
    /\ f st1 !! "workup/x_rippleless" = Some xrd
    /\ (size (data xrd) <= 1)%nat /\ attrs xrd = ∅
    /\ report st1 = report st.
Proof.
  intros Hx Hstep Hdt Haxis Hmask Hxr ww n Hlong.
  rewrite (time_mask_rippleless_steps td st xd dt ax abscissa) by done.
  fold ww n.
  set (xr := take (Z.to_nat (n - ww - Z.max ww 0)) (drop (Z.to_nat ww) ax)).
  assert (length xr <= 1)%nat as Hlen by (unfold xr; rewrite length_take; lia).
  assert (exists st1,
            (let* x0 := index xr 0 in
             let* x1 := index xr 1 in
             let* _ := update_attrs "workup/x_rippleless"
                         (masked_time_attrs x0 x1) in
             append_report (RepRippleless (IZR ww * dt)))
              {| f := <["workup/x_rippleless" := stored (FloatArr xr) []]>
                        (<["workup/time/mask/rippleless" :=
                             stored (BoolArr (range_mask (length ax) ww (n - ww)))
                                    (rippleless_attrs abscissa)]> (f st));
                 report := report st |}
            = (Raised IndexError, st1)
            /\ st1 = {| f := <["workup/x_rippleless" := stored (FloatArr xr) []]>
                        (<["workup/time/mask/rippleless" :=
                             stored (BoolArr (range_mask (length ax) ww (n - ww)))
                                    (rippleless_attrs abscissa)]> (f st));
                        report := report st |}) as (st1 & -> & ->).
  { eexists. split; [|reflexivity].
    destruct xr as [|x0 [|x1 xr']]; [| |simpl in Hlen; lia].
    - unfold index at 1. cbn [lookup list_lookup]. by rewrite bind_raise.
    - unfold index at 1. cbn [lookup list_lookup]. rewrite bind_ret.
      unfold index at 1. cbn [lookup list_lookup]. by rewrite bind_raise. }
  eexists _, _, _. split; [reflexivity|]. cbn [f report].
  split; [by rewrite lookup_insert_ne, lookup_insert_eq|]. split; [done|].
  split; [apply lookup_insert_eq|]. done.
Qed.

Lemma dead_time_too_long_witness :
  let ax := (fun k => 1 * INR k) <$> seq 0 (length five_samples) in
  let ww := py_ceil (2 / 1) in
  let n := Z.of_nat (length ax) in
  exists (st1 : Signal) (md xrd : dataset),
    time_mask_rippleless 2 (ingest five_samples 1) = (Raised IndexError, st1)
    /\ f st1 !! "workup/time/mask/rippleless" = Some md
    /\ data md = BoolArr (range_mask (length ax) ww (n - ww))
    /\ f st1 !! "workup/x_rippleless" = Some xrd
    /\ (size (data xrd) <= 1)%nat /\ attrs xrd = ∅
    /\ report st1 = report (ingest five_samples 1).
Proof.
  destruct (ingest_lookups five_samples 1) as (Hy & Hx & Hfresh).
  apply (dead_time_too_long 2 (ingest five_samples 1) _ 1
           ((fun k => 1 * INR k) <$> seq 0 (length five_samples)) "x"
           Hx (x_attrs_dt _ 1) ltac:(lra)
           (or_introl
              (conj (Hfresh "workup/time/mask/binarate" ltac:(done) ltac:(done))
                 (conj eq_refl eq_refl)))
           (Hfresh "workup/time/mask/rippleless" ltac:(done) ltac:(done))
           (Hfresh "workup/x_rippleless" ltac:(done) ltac:(done))).
  rewrite (py_ceil_IZR 2). simpl. lia.
Defined.

(** A stage whose input is not in the file raises the error of the missing
    key and leaves the file and the report as they are: the two filters
    need the frequency axis of [fft], and [ifft] needs its transform.  When
    the binarate mask is defined, [time_mask_rippleless] needs the masked
    time axis, which only [time_window_cyclicize] stores. *)
Theorem stages_need_their_inputs (st : Signal) :
  (f st !! "workup/freq/freq" = None ->
     freq_filter_Hilbert_complex st = (Raised KeyError, st)
     /\ forall (bw : R) (order : Z),
          freq_filter_bp bw order st = (Raised KeyError, st))
  /\ (f st !! "workup/freq/FT" = None -> ifft st = (Raised KeyError, st))
  /\ (forall (xd md : dataset) (dt td : R),
        f st !! "x" = Some xd -> attrs xd !! "step" = Some (AFloat dt) ->
        dt <> 0 ->
        f st !! "workup/time/mask/binarate" = Some md ->
        f st !! "workup/x_binarated" = None ->
        time_mask_rippleless td st = (Raised KeyError, st)).
Proof.
  split; [|split].
  - intros Hnone. split; [|intros bw order].
    + unfold freq_filter_Hilbert_complex. by rewrite bind_get_None.
    + unfold freq_filter_bp. by rewrite bind_get_None.
  - intros Hnone. unfold ifft, filtered_spectrum.
    rewrite !bind_assoc. by rewrite bind_get_None.
  - intros xd md dt td Hx Hstep Hdt Hmd Hnone. unfold time_mask_rippleless.
    rewrite (bind_get _ xd) by done. unfold float_attr. rewrite Hstep, bind_ret.
    unfold ceil_ratio. destruct (Req_dec_T dt 0) as [?|_]; [done|].
    rewrite bind_lift_Ok.
    rewrite (bind_contains_true _ md) by done.
    rewrite bind_assoc. by rewrite bind_get_None.
Qed.

Lemma masked_file_eq :
  masked_file
  = {| f := <["workup/time/mask/binarate" :=
                stored (BoolArr (range_mask 5 0 4)) binarate_attrs]>
              (f (ingest five_samples 1));
       report := report (ingest five_samples 1) ++ [RepMaskBinarate 4 0 4] |}.
Proof.
  destruct (ingest_lookups five_samples 1) as (Hy & Hx & Hfresh).
  unfold masked_file, run_stages. cbn [foldl run_stage].
  rewrite (time_mask_binarate_run _ _ "middle" (0, 4)%Z Hy); try done.
  simpl. lia.
Qed.

Lemma stages_need_their_inputs_witness :
  (freq_filter_Hilbert_complex (ingest five_samples 1)
   = (Raised KeyError, ingest five_samples 1)
   /\ forall (bw : R) (order : Z),
        freq_filter_bp bw order (ingest five_samples 1)
        = (Raised KeyError, ingest five_samples 1))
  /\ ifft (ingest five_samples 1) = (Raised KeyError, ingest five_samples 1)
  /\ time_mask_rippleless 1 masked_file = (Raised KeyError, masked_file).
Proof.
  destruct (ingest_lookups five_samples 1) as (Hy & Hx & Hfresh).
  destruct (stages_need_their_inputs (ingest five_samples 1))
    as (Hfilters & Hifft & _).
  destruct (stages_need_their_inputs masked_file) as (_ & _ & Hrip).
  split; [by apply Hfilters, Hfresh|]. split; [by apply Hifft, Hfresh|].
  apply (Hrip (stored (FloatArr ((fun k => 1 * INR k)
                                 <$> seq 0 (length five_samples))) (x_attrs 1))
           (stored (BoolArr (range_mask 5 0 4)) binarate_attrs) 1 1).
  - rewrite masked_file_eq. cbn [f]. by rewrite lookup_insert_ne.
  - apply x_attrs_dt.
  - lra.
  - rewrite masked_file_eq. cbn [f]. apply lookup_insert_eq.
  - rewrite masked_file_eq. cbn [f]. rewrite lookup_insert_ne by done.
    by apply Hfresh.
Defined.

Lemma bind_run {A B} (m : M A) (k : A -> M B) (st st' : Signal) (a : A) :
  m st = (Ok a, st') -> bind m k st = k a st'.
Proof. intros H. unfold bind. by rewrite H. Qed.

(** The stages in the order of [testsignal_sine], on a signal of at least
    two samples ingested with a positive time step: when the rise time of
    the window fits twice into the power of two of samples that the mask
    selects, and the dead time leaves at least two of them, every stage
    returns.  The transform then has as many points as the mask selects,
    the complex signal, its phase and its amplitude have the points that the
    trimming mask leaves, the report has gained one line for each stage,
    and the ingested samples are still in the file. *)
Theorem workup_runs (s : list R) (dt : R) (mode : string) (tw bw : R)
    (order : Z) (td : R) :
  mode ∈ ["start"; "middle"; "end"] -> 0 < dt -> bw <> 0 ->
  let n := Z.of_nat (length s) in
  let n2 := (2 ^ Z.log2 n)%Z in
  let ww := py_ceil (tw / dt) in
  let wd := py_ceil (td / dt) in
  (2 <= n)%Z -> (0 <= ww)%Z -> (2 * ww <= n2)%Z ->
  (0 <= wd)%Z -> (2 <= n2 - 2 * wd)%Z ->
  exists (st' : Signal) (n_start : Z) (w : list R) (FT zs : list C)
         (p a : list R),
    run_script [TimeMaskBinarate mode; TimeWindowCyclicize tw; Fft;
                FreqFilterHilbertComplex; FreqFilterBp bw order;
                TimeMaskRippleless td; Ifft] (ingest s dt)
    = (Ok tt, st')
    /\ data <$> (f st' !! "y") = Some (FloatArr s)
    /\ binarate_bounds mode n n2 = Some (n_start, (n_start + n2)%Z)
    /\ cyclicize_window n2 ww = Ok w
    /\ data <$> (f st' !! "workup/freq/FT") = Some (ComplexArr FT)
    /\ FT = Cscal dt
            <$> fftshift
                  (dft (-1)
                     (RtoC <$> zip_with Rmult w
                                 (take (Z.to_nat n2)
                                    (drop (Z.to_nat n_start) s))))
    /\ length FT = Z.to_nat n2
    /\ data <$> (f st' !! "workup/time/z") = Some (ComplexArr zs)
    /\ data <$> (f st' !! "workup/time/p") = Some (FloatArr p)
    /\ data <$> (f st' !! "workup/time/a") = Some (FloatArr a)
    /\ length zs = Z.to_nat (n2 - 2 * wd)
    /\ length p = Z.to_nat (n2 - 2 * wd)
    /\ length a = Z.to_nat (n2 - 2 * wd)
    /\ length (report st') = 9%nat.
Proof.
  intros Hmode Hdt Hbw n n2 ww wd Hn Hww Hfit Hwd Hleft.
  destruct (ingest_lookups s dt) as (Hy & Hx & Hfresh).
  destruct (y_attrs_name_unit (FloatArr s) "x" "nm") as [Hname Hunit].
  pose proof (x_attrs_dt (FloatArr ((fun k => dt * INR k) <$> seq 0 (length s)))
                dt) as Hstep.
  set (yd := stored (FloatArr s) (y_attrs "x" "nm")) in *.
  set (x := (fun k => dt * INR k) <$> seq 0 (length s)) in *.
  set (xd := stored (FloatArr x) (x_attrs dt)) in *.
  assert (length x = length s) as Hlenx
    by (unfold x; by rewrite length_fmap, length_seq).
  assert (report (ingest s dt)
          = [RepCreated "temp.h5"; RepLoad "x" "nm" (length s) dt]) as Hrep0
    by by rewrite ingest_eq.
  set (st0 := ingest s dt) in *.
  (* the length normalizer *)
  pose proof (pow2_log2_bounds n ltac:(lia)) as Hp. fold n2 in Hp.
  pose proof (middle_bounds n n2 Hp) as Hmid.
  destruct (binarate_bounds_valid mode n n2 Hmode)
    as (b & Hb & Hstart & Hend & Hmiddle).
  assert (0 <= b.1 /\ b.2 <= n /\ b.2 - b.1 = n2)%Z as (Hb1 & Hb2 & Hb3).
  { repeat (apply elem_of_cons in Hmode as [->|Hmode]);
      [rewrite Hstart by done|rewrite Hmiddle by done|rewrite Hend by done|
       by apply elem_of_nil in Hmode]; cbn [fst snd]; lia. }
  pose proof (time_mask_binarate_run st0 yd mode b Hy ltac:(simpl; lia) Hb
                (Hfresh "workup/time/mask/binarate" ltac:(done) ltac:(done)))
    as Hrun1.
  cbn [size data yd stored] in Hrun1. fold n n2 in Hrun1.
  set (m := range_mask (length s) b.1 b.2) in *.
  set (md := stored (BoolArr m) binarate_attrs) in *.
  match type of Hrun1 with _ = (_, ?st) => set (st1 := st) in * end.
  assert (f st1 !! "workup/time/mask/binarate" = Some md) as Hmd1
    by apply lookup_insert_eq.
  assert (forall k, k <> "workup/time/mask/binarate" ->
            f st1 !! k = f st0 !! k) as Hframe1
    by (intros k Hk; cbn [st1 f]; by rewrite lookup_insert_ne).
  assert (length (report st1) = 3%nat) as Hrep1
    by (cbn [st1 report]; rewrite length_app, Hrep0; done).
  clearbody st1.
  (* the masked time axis and the window *)
  pose proof (mask_index_range b.1 b.2 x) as Hxb.
  rewrite Hlenx in Hxb. fold m in Hxb.
  set (xb := take (Z.to_nat (b.2 - b.1 `max` 0)) (drop (Z.to_nat b.1) x)) in *.
  assert (length xb = Z.to_nat n2) as Hlenxb
    by (unfold xb; rewrite length_take, length_drop; lia).
  destruct (lookup_lt_is_Some_2 xb 0 ltac:(lia)) as [x0 Hx0].
  destruct (lookup_lt_is_Some_2 xb 1 ltac:(lia)) as [x1 Hx1].
  pose proof (window_target_masked st1 md xd m x xb x0 x1 Hmd1 eq_refl
                ltac:(by rewrite Hframe1) eq_refl Hxb Hx0 Hx1
                ltac:(rewrite Hframe1 by done; by apply Hfresh)) as Htarget.
  rewrite <- (mask_index_count _ _ _ Hxb), Hlenxb in Htarget.
  set (xbd := stored (FloatArr xb) (masked_time_attrs x0 x1)) in *.
  match type of Htarget with _ = (_, ?st) => set (st1' := st) in * end.
  assert (forall k, k <> "workup/x_binarated" ->
            f st1' !! k = f st1 !! k) as Hframe1'
    by (intros k Hk; cbn [st1' f]; by rewrite lookup_insert_ne).
  pose proof (time_window_cyclicize_run tw st1 st1' (Z.to_nat n2)
                "workup/x_binarated" xd dt Htarget
                ltac:(by rewrite Hframe1', Hframe1) Hstep ltac:(lra)) as Hrun2.
  replace (1.0 * tw / (1.0 * dt)) with (tw / dt) in Hrun2 by (field; lra).
  fold ww in Hrun2.
  rewrite cyclicize_window_fits in Hrun2 by lia.
  rewrite Hframe1', Hframe1, Hfresh in Hrun2 by done.
  set (w := take (Z.to_nat ww) (blackman (2 * ww))
            ++ replicate (Z.to_nat (Z.of_nat (Z.to_nat n2) - 2 * ww)) 1
            ++ drop (length (blackman (2 * ww)) - Z.to_nat ww)
                 (blackman (2 * ww))) in *.
  assert (length w = Z.to_nat n2) as Hlenw.
  { unfold w. destruct (taper_halves ww) as (_ & _ & H1 & H2).
    rewrite !length_app, length_replicate, H1, H2. lia. }
  match type of Hrun2 with _ = (_, ?st) => set (st2 := st) in * end.
  set (wdat := stored (FloatArr w)
                 (window_attrs "workup/x_binarated" tw (IZR ww * dt))) in *.
  assert (f st2 !! "workup/time/window/cyclicize" = Some wdat) as Hw2
    by apply lookup_insert_eq.
  assert (f st2 !! "workup/x_binarated" = Some xbd) as Hxb2
    by (cbn [st2 st1' f]; by rewrite lookup_insert_ne, lookup_insert_eq).
  assert (forall k, k <> "workup/time/window/cyclicize" ->
            k <> "workup/x_binarated" -> f st2 !! k = f st1 !! k) as Hframe2
    by (intros k H1 H2; cbn [st2 st1' f]; by rewrite !lookup_insert_ne).
  assert (length (report st2) = 4%nat) as Hrep2
    by (cbn [st2 st1' report]; rewrite length_app, Hrep1; done).
  clearbody st2. clear Htarget Hframe1' st1'.
  (* the transform *)
  pose proof (mask_index_range b.1 b.2 s) as Hsm. fold m in Hsm.
  set (sm := take (Z.to_nat (b.2 - b.1 `max` 0)) (drop (Z.to_nat b.1) s)) in *.
  assert (length sm = Z.to_nat n2) as Hlensm
    by (unfold sm; rewrite length_take, length_drop; lia).
  assert (f st2 !! "y" = Some yd) as Hy2 by by rewrite Hframe2, Hframe1.
  assert (f st2 !! "x" = Some xd) as Hx2 by by rewrite Hframe2, Hframe1.
  assert (f st2 !! "workup/time/mask/binarate" = Some md) as Hmd2
    by by rewrite Hframe2.
  assert (forall k, k <> "workup/time/window/cyclicize" ->
            k <> "workup/x_binarated" -> k <> "workup/time/mask/binarate" ->
            k <> "x" -> k <> "y" -> f st2 !! k = None) as Hfresh2
    by (intros k ? ? ? ? ?; rewrite Hframe2, Hframe1 by done; by apply Hfresh).
  pose proof (windowed_signal_masked_windowed st2 yd md wdat s sm w m
                Hy2 eq_refl Hmd2 eq_refl Hsm Hw2 eq_refl
                ltac:(by rewrite Hlenw, Hlensm)) as Hsig.
  set (sw := zip_with Rmult w sm) in *.
  assert (length sw = Z.to_nat n2) as Hlensw
    by (unfold sw; rewrite length_zip_with; lia).
  destruct (fft_run st2 sw xd yd dt "x" "nm" Hsig Hx2 Hstep Hy2 Hname Hunit
              (Hfresh2 "workup/freq/freq" ltac:(done) ltac:(done) ltac:(done)
                 ltac:(done) ltac:(done))
              (Hfresh2 "workup/freq/FT" ltac:(done) ltac:(done) ltac:(done)
                 ltac:(done) ltac:(done))
              ltac:(lia)) as (f0 & f1 & Hrun3).
  set (FT := Cscal dt <$> fftshift (dft (-1) (RtoC <$> sw))) in *.
  set (freq := (fun v => v / 1000) <$> fftshift (fftfreq (length sw) dt)) in *.
  assert (length FT = Z.to_nat n2) as HlenFT
    by (unfold FT; by rewrite length_fmap, fftshift_length, dft_length,
          length_fmap).
  assert (length freq = Z.to_nat n2) as Hlenfreq
    by (unfold freq; by rewrite length_fmap, fftshift_length, fftfreq_length).
  set (ftd := stored (ComplexArr FT) (FT_attrs "x" "nm")) in *.
  set (fd := stored (FloatArr freq) (freq_attrs f0 f1)) in *.
  match type of Hrun3 with _ = (_, ?st) => set (st3 := st) in * end.
  assert (f st3 !! "workup/freq/FT" = Some ftd) as HFT3
    by apply lookup_insert_eq.
  assert (f st3 !! "workup/freq/freq" = Some fd) as Hfd3
    by (cbn [st3 f]; by rewrite lookup_insert_ne, lookup_insert_eq).
  assert (forall k, k <> "workup/freq/FT" -> k <> "workup/freq/freq" ->
            f st3 !! k = f st2 !! k) as Hframe3
    by (intros k H1 H2; cbn [st3 f]; by rewrite !lookup_insert_ne).
  assert (length (report st3) = 5%nat) as Hrep3
    by (cbn [st3 report]; rewrite length_app, Hrep2; done).
  clearbody st3.
  (* the sideband filter *)
  pose proof (freq_filter_Hilbert_complex_run st3 fd freq Hfd3 eq_refl
                ltac:(rewrite Hframe3 by done; by apply Hfresh2)) as Hrun4.
  set (hd := stored (FloatArr (Hc_value <$> freq)) Hc_attrs) in *.
  match type of Hrun4 with _ = (_, ?st) => set (st4 := st) in * end.
  assert (f st4 !! "workup/freq/filter/Hc" = Some hd) as Hhd4
    by apply lookup_insert_eq.
  assert (forall k, k <> "workup/freq/filter/Hc" ->
            f st4 !! k = f st3 !! k) as Hframe4
    by (intros k H1; cbn [st4 f]; by rewrite !lookup_insert_ne).
  assert (length (report st4) = 6%nat) as Hrep4
    by (cbn [st4 report]; rewrite length_app, Hrep3; done).
  clearbody st4.
  (* the bandpass filter *)
  destruct (freq_filter_bp_run bw order st4 fd hd ftd freq
              (Hc_value <$> freq) FT
              ltac:(by rewrite Hframe4) eq_refl Hhd4 eq_refl
              ltac:(by rewrite Hframe4) eq_refl
              ltac:(rewrite Hframe4, Hframe3 by done; by apply Hfresh2)
              ltac:(by rewrite length_fmap) ltac:(by rewrite HlenFT, Hlenfreq)
              ltac:(intros Hnil; rewrite Hnil in Hlenfreq; simpl in Hlenfreq;
                    lia))
    as (i & fc & _ & _ & Hrun5).
  set (bp := bp_filter bw order fc freq) in *.
  set (bd := stored (FloatArr bp) bp_attrs) in *.
  match type of Hrun5 with _ = (_, ?st) => set (st5 := st) in * end.
  assert (f st5 !! "workup/freq/filter/bp" = Some bd) as Hbd5
    by apply lookup_insert_eq.
  assert (forall k, k <> "workup/freq/filter/bp" ->
            f st5 !! k = f st4 !! k) as Hframe5
    by (intros k H1; cbn [st5 f]; by rewrite !lookup_insert_ne).
  assert (length (report st5) = 7%nat) as Hrep5
    by (cbn [st5 report]; rewrite length_app, Hrep4; done).
  clearbody st5.
  (* the trimming mask *)
  assert (forall k, k <> "workup/freq/filter/bp" ->
            k <> "workup/freq/filter/Hc" -> k <> "workup/freq/FT" ->
            k <> "workup/freq/freq" -> f st5 !! k = f st2 !! k) as Hback5
    by (intros k ? ? ? ?; by rewrite Hframe5, Hframe4, Hframe3).
  set (nb := Z.of_nat (length xb)).
  set (xr := take (Z.to_nat (nb - wd - Z.max wd 0)) (drop (Z.to_nat wd) xb)).
  assert (length xr = Z.to_nat (n2 - 2 * wd)) as Hlenxr
    by (unfold xr, nb; rewrite length_take, length_drop; lia).
  destruct (lookup_lt_is_Some_2 xr 0 ltac:(lia)) as [r0 Hr0].
  destruct (lookup_lt_is_Some_2 xr 1 ltac:(lia)) as [r1 Hr1].
  assert ((f st5 !! "workup/time/mask/binarate" = None
           /\ data xd = FloatArr xb /\ "/workup/x_binarated" = "x")
          \/ (exists md' xb' : dataset,
                f st5 !! "workup/time/mask/binarate" = Some md'
                /\ f st5 !! "workup/x_binarated" = Some xb'
                /\ data xb' = FloatArr xb
                /\ "/workup/x_binarated" = "/workup/x_binarated")) as Haxis.
  { right. exists md, xbd. by rewrite !Hback5. }
  pose proof (time_mask_rippleless_run td st5 xd dt xb "/workup/x_binarated"
                r0 r1 ltac:(by rewrite Hback5) Hstep ltac:(lra) Haxis
                Hr0 Hr1
                ltac:(rewrite Hback5 by done; by apply Hfresh2)
                ltac:(rewrite Hback5 by done; by apply Hfresh2)) as Hrun6.
  cbv zeta in Hrun6. fold wd nb xr in Hrun6.
  set (mask := range_mask (length xb) wd (nb - wd)) in *.
  set (rd := stored (BoolArr mask) (rippleless_attrs "/workup/x_binarated"))
    in *.
  match type of Hrun6 with _ = (_, ?st) => set (st6 := st) in * end.
  assert (f st6 !! "workup/time/mask/rippleless" = Some rd) as Hrd6
    by (cbn [st6 f]; by rewrite lookup_insert_ne, lookup_insert_eq).
  assert (forall k, k <> "workup/time/mask/rippleless" ->
            k <> "workup/x_rippleless" -> f st6 !! k = f st5 !! k) as Hframe6
    by (intros k H1 H2; cbn [st6 f]; by rewrite !lookup_insert_ne).
  assert (length (report st6) = 8%nat) as Hrep6
    by (cbn [st6 report]; rewrite length_app, Hrep5; done).
  clearbody st6.
  (* the inverse transform *)
  pose proof (filtered_spectrum_filtered st6 ftd xd hd bd FT dt
                (Hc_value <$> freq) bp
                ltac:(by rewrite Hframe6, Hframe5, Hframe4) eq_refl
                ltac:(by rewrite Hframe6, Hback5) Hstep
                ltac:(by rewrite Hframe6, Hframe5) eq_refl
                ltac:(by rewrite Hframe6) eq_refl
                ltac:(by rewrite length_fmap, HlenFT, Hlenfreq)
                ltac:(unfold bp, bp_filter;
                      by rewrite !length_fmap, HlenFT, Hlenfreq)) as Hsp.
  match type of Hsp with _ = (Ok ?l, _) => set (sp := l) in * end.
  assert (length sp = Z.to_nat n2) as Hlensp.
  { unfold sp, bp, bp_filter.
    rewrite !length_zip_with, !length_fmap. unfold C in *. lia. }
  set (sIFT := Cscal (1 / INR (length sp)) <$> dft 1 (fftshift sp)).
  assert (length sIFT = length xb) as HlenIFT
    by (unfold sIFT; by rewrite length_fmap, dft_length, fftshift_length, Hlensp).
  pose proof (mask_index_range wd (nb - wd) sIFT) as Hzs.
  rewrite HlenIFT in Hzs. fold mask in Hzs.
  match type of Hzs with _ = Ok ?l => set (zs := l) in * end.
  assert (length zs = Z.to_nat (n2 - 2 * wd)) as Hlenzs
    by (unfold zs, nb; rewrite length_take, length_drop, HlenIFT; lia).
  pose proof (ifft_run_trimmed st6 sp yd rd "nm" mask zs Hsp
                ltac:(intros Hnil; rewrite Hnil in Hlensp; simpl in Hlensp; lia)
                Hrd6 eq_refl Hzs
                ltac:(by rewrite Hframe6, Hback5) Hunit
                ltac:(rewrite Hframe6, Hback5 by done; by apply Hfresh2)
                ltac:(rewrite Hframe6, Hback5 by done; by apply Hfresh2)
                ltac:(rewrite Hframe6, Hback5 by done; by apply Hfresh2))
    as Hrun7.
  destruct (ifft_stores_lookups zs "nm" "workup/x_rippleless" st6)
    as (Hzd & Hpd & Had & Hrep7).
  (* the script *)
  eexists _, b.1, w, FT, zs, _, _. split.
  { cbn [run_script run_stage].
    rewrite (bind_run _ _ _ _ _ Hrun1), (bind_run _ _ _ _ _ Hrun2),
      (bind_run _ _ _ _ _ Hrun3), (bind_run _ _ _ _ _ Hrun4),
      (bind_run _ _ _ _ _ Hrun5), (bind_run _ _ _ _ _ Hrun6),
      (bind_run _ _ _ _ _ Hrun7).
    reflexivity. }
  assert (forall k, k <> "workup/time/a" -> k <> "workup/time/p" ->
            k <> "workup/time/z" ->
            f (ifft_stores zs "nm" "workup/x_rippleless" st6) !! k
            = f st6 !! k) as Hframe7
    by (intros k ? ? ?; unfold ifft_stores; cbn [f];
        by rewrite !lookup_insert_ne).
  split; [by rewrite Hframe7, Hframe6, Hback5, Hy2|].
  split.
  { rewrite Hb. destruct b as [b1 b2]. cbn [fst snd] in *.
    do 2 f_equal. lia. }
  split.
  { rewrite cyclicize_window_fits by lia. unfold w.
    by rewrite Z2Nat.id by lia. }
  split; [by rewrite Hframe7, Hframe6, Hframe5, Hframe4, HFT3|].
  split.
  { unfold FT, sw, sm. do 6 f_equal. lia. }
  split; [done|]. split; [exact Hzd|]. split; [exact Hpd|].
  split; [exact Had|]. split; [done|].
  split.
  { rewrite length_fmap.
    rewrite (proj1 (np_unwrap_spec (np_angle <$> zs))).
    by rewrite length_fmap. }
  split; [by rewrite length_fmap|].
  by rewrite Hrep7, length_app, Hrep6.
Qed.

Lemma workup_runs_witness :
  let n := Z.of_nat (length five_samples) in
  let n2 := (2 ^ Z.log2 n)%Z in
  let wd := py_ceil (1 / 1) in
  let ww := py_ceil (1 / 1) in
  exists (st' : Signal) (n_start : Z) (w : list R) (FT zs : list C)
         (p a : list R),
    run_script [TimeMaskBinarate "middle"; TimeWindowCyclicize 1; Fft;
                FreqFilterHilbertComplex; FreqFilterBp 1 50;
                TimeMaskRippleless 1; Ifft] (ingest five_samples 1)
    = (Ok tt, st')
    /\ data <$> (f st' !! "y") = Some (FloatArr five_samples)
    /\ binarate_bounds "middle" n n2 = Some (n_start, (n_start + n2)%Z)
    /\ cyclicize_window n2 ww = Ok w
    /\ data <$> (f st' !! "workup/freq/FT") = Some (ComplexArr FT)
    /\ FT = Cscal 1
            <$> fftshift
                  (dft (-1)
                     (RtoC <$> zip_with Rmult w
                                 (take (Z.to_nat n2)
                                    (drop (Z.to_nat n_start) five_samples))))
    /\ length FT = Z.to_nat n2
    /\ data <$> (f st' !! "workup/time/z") = Some (ComplexArr zs)
    /\ data <$> (f st' !! "workup/time/p") = Some (FloatArr p)
    /\ data <$> (f st' !! "workup/time/a") = Some (FloatArr a)
    /\ length zs = Z.to_nat (n2 - 2 * wd)
    /\ length p = Z.to_nat (n2 - 2 * wd)
    /\ length a = Z.to_nat (n2 - 2 * wd)
    /\ length (report st') = 9%nat.
Proof.
  apply (workup_runs five_samples 1 "middle" 1 1 50 1).
  - apply elem_of_cons. right. apply elem_of_cons. by left.
  - lra.
  - lra.
  - simpl. lia.
  - rewrite (py_ceil_IZR 1). lia.
  - rewrite (py_ceil_IZR 1). by vm_compute.
  - rewrite (py_ceil_IZR 1). lia.
  - rewrite (py_ceil_IZR 1). by vm_compute.
Defined.

(** The two transforms one after the other, on a freshly ingested signal of
    an even number of samples, at least two, with a time step that is not
    zero: both return, the complex signal that [ifft] stores consists of the
    ingested samples, with imaginary parts of zero, and the ingested samples
    are still in the file. *)
Theorem round_trip_on_even_lengths (s : list R) (dt : R) :
  dt <> 0 -> (2 <= length s)%nat -> Nat.Even (length s) ->
  exists st' : Signal,
    run_script [Fft; Ifft] (ingest s dt) = (Ok tt, st')
    /\ data <$> (f st' !! "workup/time/z") = Some (ComplexArr (RtoC <$> s))
    /\ data <$> (f st' !! "y") = Some (FloatArr s).
Proof.
  intros Hdt Hlen Heven.
  destruct (ingest_lookups s dt) as (Hy & Hx & Hfresh).
  destruct (y_attrs_name_unit (FloatArr s) "x" "nm") as [Hname Hunit].
  destruct (fft_ifft_round_trip_even (ingest s dt) s _ _ dt "x" "nm"
              (windowed_signal_plain _ _ s Hy eq_refl
                 (Hfresh "workup/time/mask/binarate" ltac:(done) ltac:(done))
                 (Hfresh "workup/time/window/cyclicize" ltac:(done) ltac:(done)))
              Hx (x_attrs_dt _ dt) Hdt Hy Hname Hunit)
    as (st1 & st2 & Hfft & Hifft & Hz); try (apply Hfresh; done); try done.
  exists st2. split; [|split; [done|]].
  - cbn [run_script run_stage].
    by rewrite (bind_run _ _ _ _ _ Hfft), (bind_run _ _ _ _ _ Hifft).
  - pose proof (run_stage_keeps "y" _ Fft (ingest s dt) Hy) as H1.
    cbn [run_stage] in H1. rewrite Hfft in H1. cbn [snd] in H1.
    pose proof (run_stage_keeps "y" _ Ifft st1 H1) as H2.
    cbn [run_stage] in H2. rewrite Hifft in H2. cbn [snd] in H2.
    by rewrite H2.
Qed.

Lemma round_trip_on_even_lengths_witness :
  exists st' : Signal,
    run_script [Fft; Ifft] (ingest two_samples 1) = (Ok tt, st')
    /\ data <$> (f st' !! "workup/time/z")
       = Some (ComplexArr (RtoC <$> two_samples))
    /\ data <$> (f st' !! "y") = Some (FloatArr two_samples).
Proof.
  apply (round_trip_on_even_lengths two_samples 1); [lra|simpl; lia|].
  by exists 1%nat.
Defined.

(** ** The masked time axis *)

(** The length normalizer followed by the edge window generator, on a signal
    ingested with a time step that is not zero.  With at least two samples
    the masked time axis is stored under [workup/x_binarated] whether or not
    a window can then be generated: it holds the times of the selected
    samples, its [initial] attribute is the time of the first selected
    sample and its [step] attribute is the time step.  With one sample the
    mask selects that sample, the window generator raises [IndexError] on
    reading the second entry of the masked time axis, and leaves the axis,
    already stored, in the file and no window. *)
Theorem masked_time_axis (s : list R) (dt : R) (mode : string) (tw : R) :
  mode ∈ ["start"; "middle"; "end"] -> dt <> 0 ->
  let n := Z.of_nat (length s) in
  let n2 := (2 ^ Z.log2 n)%Z in
  exists n_start : Z,
    binarate_bounds mode n n2 = Some (n_start, (n_start + n2)%Z)
    /\ ((2 <= n)%Z ->
        exists (r : result unit) (st' : Signal) (xbd : dataset),
          run_script [TimeMaskBinarate mode; TimeWindowCyclicize tw]
            (ingest s dt) = (r, st')
          /\ f st' !! "workup/x_binarated" = Some xbd
          /\ data xbd
             = FloatArr ((fun k => dt * INR k)
                           <$> seq (Z.to_nat n_start) (Z.to_nat n2))
          /\ attrs xbd !! "initial" = Some (AFloat (dt * IZR n_start))
          /\ attrs xbd !! "step" = Some (AFloat dt))
    /\ (n = 1%Z ->
        exists st' : Signal,
          run_script [TimeMaskBinarate mode; TimeWindowCyclicize tw]
            (ingest s dt) = (Raised IndexError, st')
          /\ data <$> (f st' !! "workup/x_binarated")
             = Some (FloatArr [dt * 0])
          /\ f st' !! "workup/time/window/cyclicize" = None).
Proof.
  intros Hmode Hdt n n2.
  destruct (ingest_lookups s dt) as (Hy & Hx & Hfresh).
  pose proof (x_attrs_dt (FloatArr ((fun k => dt * INR k) <$> seq 0 (length s)))
                dt) as Hstep.
  set (yd := stored (FloatArr s) (y_attrs "x" "nm")) in *.
  set (x := (fun k => dt * INR k) <$> seq 0 (length s)) in *.
  set (xd := stored (FloatArr x) (x_attrs dt)) in *.
  assert (length x = length s) as Hlenx
    by (unfold x; by rewrite length_fmap, length_seq).
  set (st0 := ingest s dt) in *.
  destruct (binarate_bounds_valid mode n n2 Hmode)
    as (b & Hb & Hstart & Hend & Hmiddle).
  assert ((1 <= n)%Z ->
          (0 <= b.1 /\ b.2 <= n /\ b.2 = b.1 + n2 /\ 1 <= n2)%Z) as Hrange.
  { intros Hn. pose proof (pow2_log2_bounds n Hn) as Hp. fold n2 in Hp.
    pose proof (middle_bounds n n2 Hp) as Hmid.
    repeat (apply elem_of_cons in Hmode as [->|Hmode]);
      [rewrite Hstart by done|rewrite Hmiddle by done|rewrite Hend by done|
       by apply elem_of_nil in Hmode]; cbn [fst snd]; lia. }
  assert ((1 <= n)%Z ->
          exists st1 : Signal,
            time_mask_binarate mode st0 = (Ok tt, st1)
            /\ window_target st1
               = (let* _ := create_dataset "workup/x_binarated"
                              (FloatArr ((fun k => dt * INR k)
                                           <$> seq (Z.to_nat b.1)
                                                 (Z.to_nat n2))) in
                  let* x0 := index ((fun k => dt * INR k)
                                      <$> seq (Z.to_nat b.1) (Z.to_nat n2)) 0 in
                  let* x1 := index ((fun k => dt * INR k)
                                      <$> seq (Z.to_nat b.1) (Z.to_nat n2)) 1 in
                  let* _ := update_attrs "workup/x_binarated"
                              (masked_time_attrs x0 x1) in
                  ret (Z.to_nat n2, "workup/x_binarated")) st1
            /\ f st1 !! "workup/x_binarated" = None
            /\ f st1 !! "workup/time/window/cyclicize" = None
            /\ f st1 !! "x" = Some xd) as Hfirst.
  { intros Hn. destruct (Hrange Hn) as (Hb1 & Hb2 & Hb3 & Hn2).
    pose proof (time_mask_binarate_run st0 yd mode b Hy ltac:(simpl; lia) Hb
                  (Hfresh "workup/time/mask/binarate" ltac:(done) ltac:(done)))
      as Hrun1.
    cbn [size data yd stored] in Hrun1. fold n n2 in Hrun1.
    set (m := range_mask (length s) b.1 b.2) in *.
    set (md := stored (BoolArr m) binarate_attrs) in *.
    match type of Hrun1 with _ = (_, ?st) => set (st1 := st) in * end.
    assert (f st1 !! "workup/time/mask/binarate" = Some md) as Hmd1
      by apply lookup_insert_eq.
    assert (forall k, k <> "workup/time/mask/binarate" ->
              f st1 !! k = f st0 !! k) as Hframe1
      by (intros k Hk; cbn [st1 f]; by rewrite lookup_insert_ne).
    exists st1. split; [done|].
    pose proof (mask_index_range b.1 b.2 x) as Hxb.
    rewrite Hlenx in Hxb. fold m in Hxb.
    assert (take (Z.to_nat (b.2 - b.1 `max` 0)) (drop (Z.to_nat b.1) x)
            = (fun k => dt * INR k) <$> seq (Z.to_nat b.1) (Z.to_nat n2))
      as Hxbeq.
    { unfold x. rewrite <- fmap_drop, <- fmap_take, drop_seq, take_seq.
      do 2 f_equal; lia. }
    rewrite Hxbeq in Hxb.
    assert (length (filter (fun b0 : bool => b0 = true) m) = Z.to_nat n2)
      as Hcount.
    { rewrite <- (mask_index_count _ _ _ Hxb), length_fmap, length_seq. done. }
    split; [|split; [|split]].
    - unfold window_target.
      rewrite (bind_contains_true _ md) by done.
      rewrite (bind_get _ md) by done. unfold bool_data at 1.
      cbn [md stored data]. rewrite bind_ret.
      rewrite (bind_get _ xd) by (by rewrite Hframe1).
      unfold float_data at 1. cbn [xd stored data]. rewrite bind_ret.
      rewrite Hxb, bind_lift_Ok. fold m. by rewrite Hcount.
    - rewrite Hframe1 by done. by apply Hfresh.
    - rewrite Hframe1 by done. by apply Hfresh.
    - by rewrite Hframe1. }
  exists b.1. split.
  { assert (b.2 = b.1 + n2)%Z as Hb3.
    { repeat (apply elem_of_cons in Hmode as [->|Hmode]);
        [rewrite Hstart by done|rewrite Hmiddle by done|rewrite Hend by done|
         by apply elem_of_nil in Hmode]; cbn [fst snd]; lia. }
    rewrite Hb, <- Hb3. by destruct b. }
  split.
  - intros Hn. destruct (Hrange ltac:(lia)) as (Hb1 & Hb2 & Hb3 & Hn2).
    assert (2 <= n2)%Z as Hn22.
    { unfold n2. change 2%Z with (2 ^ 1)%Z at 1.
      apply Z.pow_le_mono_r; [lia|]. apply Z.log2_le_pow2; simpl; lia. }
    destruct (Hfirst ltac:(lia)) as (st1 & Hrun1 & Htarget & Hnone & Hnow & Hx1).
    set (xb := (fun k => dt * INR k) <$> seq (Z.to_nat b.1) (Z.to_nat n2)) in *.
    assert (xb !! 0%nat = Some (dt * INR (Z.to_nat b.1))) as Hx0.
    { unfold xb. rewrite list_lookup_fmap, lookup_seq_lt by lia.
      cbn [fmap option_fmap option_map]. do 3 f_equal. lia. }
    assert (xb !! 1%nat = Some (dt * INR (Z.to_nat b.1 + 1))) as Hx1'.
    { unfold xb. by rewrite list_lookup_fmap, lookup_seq_lt by lia. }
    rewrite bind_create_dataset in Htarget by done.
    unfold index at 1 in Htarget. rewrite Hx0, bind_ret in Htarget.
    unfold index at 1 in Htarget. rewrite Hx1', bind_ret in Htarget.
    rewrite (bind_update_attrs "workup/x_binarated") in Htarget.
    match type of Htarget with _ = ret _ ?st => set (st1' := st) in * end.
    pose proof (time_window_cyclicize_run tw st1 st1' (Z.to_nat n2)
                  "workup/x_binarated" xd dt Htarget
                  ltac:(cbn [st1' f]; by rewrite lookup_insert_ne) Hstep Hdt)
      as Hrun2.
    assert (f st1' !! "workup/x_binarated"
            = Some (stored (FloatArr xb)
                      (masked_time_attrs (dt * INR (Z.to_nat b.1))
                         (dt * INR (Z.to_nat b.1 + 1))))) as Hxb1
      by apply lookup_insert_eq.
    assert (f st1' !! "workup/time/window/cyclicize" = None) as Hnow'
      by (cbn [st1' f]; by rewrite lookup_insert_ne).
    rewrite Hnow' in Hrun2.
    assert (exists r st',
              time_window_cyclicize tw st1 = (r, st')
              /\ f st' !! "workup/x_binarated" = f st1' !! "workup/x_binarated")
      as (r & st' & Hrun2' & Hkeep).
    { destruct (cyclicize_window _ _) as [w|e]; eexists _, _;
        (split; [exact Hrun2|]); [|done].
      cbn [f]. by rewrite lookup_insert_ne. }
    exists r, st', (stored (FloatArr xb)
                      (masked_time_attrs (dt * INR (Z.to_nat b.1))
                         (dt * INR (Z.to_nat b.1 + 1)))).
    split.
    { cbn [run_script run_stage]. rewrite (bind_run _ _ _ _ _ Hrun1).
      unfold bind. rewrite Hrun2'. by destruct r as [[]|]. }
    split; [by rewrite Hkeep|]. split; [done|].
    unfold stored, masked_time_attrs. cbn [attrs foldl fst snd]. split.
    + rewrite lookup_insert_ne, lookup_insert_eq by done.
      by rewrite INR_IZR_INZ, Z2Nat.id by lia.
    + rewrite lookup_insert_eq. do 2 f_equal. rewrite plus_INR. simpl. ring.
  - intros Hn. destruct (Hrange ltac:(lia)) as (Hb1 & Hb2 & Hb3 & Hn2).
    assert (n2 = 1%Z) as Hn21 by lia. assert (b.1 = 0%Z) as Hb0 by lia.
    destruct (Hfirst ltac:(lia)) as (st1 & Hrun1 & Htarget & Hnone & Hnow & Hx1).
    rewrite Hn21, Hb0 in Htarget.
    change ((fun k => dt * INR k) <$> seq (Z.to_nat 0) (Z.to_nat 1))
      with [dt * 0] in Htarget.
    rewrite bind_create_dataset in Htarget by done.
    change (index [dt * 0] 0) with (ret (dt * 0)) in Htarget.
    rewrite bind_ret in Htarget.
    change (index [dt * 0] 1) with (raise (A := R) IndexError) in Htarget.
    rewrite bind_raise in Htarget.
    eexists. split; [|split].
    + cbn [run_script run_stage]. rewrite (bind_run _ _ _ _ _ Hrun1).
      unfold time_window_cyclicize. rewrite bind_assoc.
      unfold bind at 1. by rewrite Htarget.
    + cbn [f]. by rewrite lookup_insert_eq.
    + cbn [f]. by rewrite lookup_insert_ne.
Qed.

Lemma masked_time_axis_witness :
  exists (r : result unit) (st' : Signal) (xbd : dataset),
    run_script [TimeMaskBinarate "end"; TimeWindowCyclicize 1]
      (ingest three_samples 1) = (r, st')
    /\ f st' !! "workup/x_binarated" = Some xbd
    /\ data xbd = FloatArr ((fun k => 1 * INR k) <$> [1; 2]%nat)
    /\ attrs xbd !! "initial" = Some (AFloat (1 * 1))
    /\ attrs xbd !! "step" = Some (AFloat 1).
Proof.
  destruct (masked_time_axis three_samples 1 "end" 1) as (n_start & Hb & H & _);
    [apply list_elem_of_In; simpl; tauto|lra|].
  injection Hb as <-. apply H. simpl. lia.
Defined.
